(** * Employee CRUD service: validation rules and service-layer logic

    A shallow embedding of [validators.py], [models.py], [database.py] and
    [employees_manager.py], and the properties of the specification that
    concern them.

    Python values are an inductive type, text is a list of code points,
    dictionaries are finite maps, exceptions are the error side of a result
    type and the SQLite table is a finite map from row id to row, threaded
    through the service functions by a state-and-error monad.

    The store is reliable: the only failures of a statement are those of its
    parameters (an integer beyond 64 bits, a text that cannot be encoded) and
    those of the schema ([UNIQUE], [NOT NULL], the end of the row ids). *)

From Stdlib Require Import ZArith NArith List Ascii String Bool Lia.
From Stdlib Require Import DecimalString.
From Stdlib Require Floats.SpecFloat.
From stdpp Require Import base option list gmap fin_maps sorting.

Import SpecFloat.

#[local] Open Scope Z_scope.

(** ** Text

    A Python [str] is a sequence of code points. *)

Abbreviation pystr := (list N) (only parsing).

(** Source literals are ASCII; [str] reads one off a Rocq string. *)
Definition str (s : string) : pystr :=
  List.map N_of_ascii (list_ascii_of_string s).

(** [str.isspace] for one code point (the interpreter's white-space table). *)
Definition is_space (c : N) : bool :=
  ((9 <=? c) && (c <=? 13) || (28 <=? c) && (c <=? 32)
   || (c =? 133) || (c =? 160) || (c =? 5760)
   || (8192 <=? c) && (c <=? 8202)
   || (c =? 8232) || (c =? 8233) || (c =? 8239) || (c =? 8287)
   || (c =? 12288))%N.

Fixpoint lstrip (s : pystr) : pystr :=
  match s with
  | c :: s' => if is_space c then lstrip s' else s
  | [] => []
  end.

Definition rstrip (s : pystr) : pystr := rev (lstrip (rev s)).

(** [s.strip()] *)
Definition strip (s : pystr) : pystr := rstrip (lstrip s).

(** [str(n)] for an integer. *)
Definition str_of_int (n : Z) : pystr :=
  str (NilZero.string_of_int (Z.to_int n)).

(** ** Floats

    A Python [float] is an IEEE 754 binary64 number. *)

Abbreviation pyfloat := spec_float (only parsing).

Definition prec : Z := 53.
Definition emax : Z := 1024.

(** [float(n)] for an integer: the nearest double, [OverflowError] ([None])
    when that is not finite. *)
Definition float_of_int (n : Z) : option pyfloat :=
  match binary_normalize prec emax n 0 false with
  | S754_infinity _ => None
  | f => Some f
  end.

Definition float_zero : pyfloat := S754_zero false.
Definition float_one : pyfloat := S754_finite false 4503599627370496 (-52).

(** [x <= 0] *)
Definition float_le0 (x : pyfloat) : bool := SFleb x float_zero.

(** [x != x], true of NaN only *)
Definition float_is_nan (x : pyfloat) : bool :=
  match x with S754_nan => true | _ => false end.

(** A string-to-float conversion for plain ASCII decimal literals
    ([[+-]digits[.digits]] between optional white space), rounding to the
    nearest double. It instantiates the interpreter's [float(str)], which
    the development takes as a parameter, in closed examples. *)
Definition digit_of (c : N) : option Z :=
  if ((48 <=? c) && (c <=? 57))%N then Some (Z.of_N c - 48) else None.

Fixpoint read_digits (acc : Z) (n : nat) (s : pystr) : Z * nat * pystr :=
  match s with
  | c :: s' =>
      match digit_of c with
      | Some d => read_digits (10 * acc + d) (S n) s'
      | None => (acc, n, s)
      end
  | [] => (acc, n, s)
  end.

Definition round_ratio (neg : bool) (m d : Z) : pyfloat :=
  match m with
  | Z0 => S754_zero neg
  | _ =>
      let '(q, e, l) := SFdiv_core_binary prec emax m 0 d 0 in
      binary_round_aux prec emax neg q e l
  end.

Definition decimal_float_of_str (s : pystr) : option pyfloat :=
  let s := strip s in
  let '(neg, s) :=
    match s with
    | 45%N :: s' => (true, s')
    | 43%N :: s' => (false, s')
    | _ => (false, s)
    end in
  let '(m, n, s) := read_digits 0 0 s in
  match n, s with
  | O, _ => None
  | _, [] => Some (round_ratio neg m 1)
  | _, 46%N :: s' =>
      let '(m', k, s'') := read_digits m 0 s' in
      match k, s'' with
      | S _, [] => Some (round_ratio neg m' (10 ^ Z.of_nat k))
      | _, _ => None
      end
  | _, _ => None
  end.

(** ** Python values

    The values a decoded JSON request body can hold. *)

#[warnings="-register-all"]
Inductive pyval :=
| VNone
| VBool (b : bool)
| VInt (n : Z)
| VFloat (x : pyfloat)
| VStr (s : pystr)
| VList (l : list pyval)
| VDict (d : list (pystr * pyval)).

(** Truth value of an object ([bool(v)], as tested by [not v] and [if v]). *)
Definition truthy (v : pyval) : bool :=
  match v with
  | VNone => false
  | VBool b => b
  | VInt n => negb (n =? 0)
  | VFloat x => match x with S754_zero _ => false | _ => true end
  | VStr s => match s with [] => false | _ => true end
  | VList l => match l with [] => false | _ => true end
  | VDict d => match d with [] => false | _ => true end
  end.

(** A request body: a dictionary with text keys. *)
Abbreviation dict := (gmap (list N) pyval) (only parsing).
(** Field-level errors: field name to message. *)
Abbreviation errdict := (gmap (list N) (list N)) (only parsing).

(** ** Exceptions and results *)

Inductive exn :=
| ValidationError (errors : errdict)
| NotFoundError (message : pystr)
| UniqueConstraintError (errors : errdict)
| AttributeError
| TypeError
| ValueError         (* also its subclass UnicodeEncodeError *)
| OverflowError
| KeyError (key : pystr)
| IntegrityError     (* sqlite3: a UNIQUE or NOT NULL constraint failed *)
| OperationalError.  (* sqlite3: no row id left to assign *)

Inductive res (A : Type) :=
| Ok (a : A)
| Raise (e : exn).
Arguments Ok {A} a.
Arguments Raise {A} e.

Definition res_bind {A B} (r : res A) (k : A -> res B) : res B :=
  match r with
  | Ok a => k a
  | Raise e => Raise e
  end.

Declare Scope res_scope.
Delimit Scope res_scope with res.
Notation "x <- r ;; k" := (res_bind r (fun x => k))
  (at level 100, r at next level, right associativity) : res_scope.

(** [d[k]] *)
Definition getitem (d : dict) (k : pystr) : res pyval :=
  match d !! k with
  | Some v => Ok v
  | None => Raise (KeyError k)
  end.

(** [d.get(k)] *)
Definition get (d : dict) (k : pystr) : pyval := default VNone (d !! k).

(** [d.get(k, v)] *)
Definition get_default (d : dict) (k : pystr) (v : pyval) : pyval :=
  default v (d !! k).

(** [k in d] *)
Definition contains (d : dict) (k : pystr) : bool := bool_decide (is_Some (d !! k)).

(** [v.strip()]: only [str] has the method. *)
Definition py_strip (v : pyval) : res pystr :=
  match v with
  | VStr s => Ok (strip s)
  | _ => Raise AttributeError
  end.

(** ** Regular expressions

    [re.match] decides membership for an anchored pattern; matching is by
    derivatives. *)

Inductive regex :=
| Void
| Eps
| Class (p : N -> bool)
| Seq (r1 r2 : regex)
| Alt (r1 r2 : regex)
| Star (r : regex).

Fixpoint nullable (r : regex) : bool :=
  match r with
  | Void => false
  | Eps => true
  | Class _ => false
  | Seq r1 r2 => nullable r1 && nullable r2
  | Alt r1 r2 => nullable r1 || nullable r2
  | Star _ => true
  end.

Fixpoint deriv (c : N) (r : regex) : regex :=
  match r with
  | Void => Void
  | Eps => Void
  | Class p => if p c then Eps else Void
  | Seq r1 r2 =>
      if nullable r1 then Alt (Seq (deriv c r1) r2) (deriv c r2)
      else Seq (deriv c r1) r2
  | Alt r1 r2 => Alt (deriv c r1) (deriv c r2)
  | Star r1 => Seq (deriv c r1) (Star r1)
  end.

Fixpoint matches (r : regex) (s : pystr) : bool :=
  match s with
  | [] => nullable r
  | c :: s' => matches (deriv c r) s'
  end.

Definition chr (c : ascii) : N := N_of_ascii c.
Definition Chr (c : ascii) : regex := Class (N.eqb (chr c)).
Definition range (lo hi : ascii) (c : N) : bool :=
  ((chr lo <=? c) && (c <=? chr hi))%N.
Definition one_of (cs : string) (c : N) : bool :=
  existsb (N.eqb c) (str cs).
(** [r+] *)
Definition Plus (r : regex) : regex := Seq r (Star r).
(** [r{2,}] *)
Definition AtLeast2 (r : regex) : regex := Seq r (Seq r (Star r)).
(** [$]: the end of the text, or just before a newline that ends it. *)
Definition End : regex := Alt Eps (Class (N.eqb 10)).

Definition alnum (c : N) : bool := range "a" "z" c || range "A" "Z" c || range "0" "9" c.
Definition alpha (c : N) : bool := range "a" "z" c || range "A" "Z" c.

(** [^[a-zA-Z0-9._%+-]+@[a-zA-Z0-9.-]+\.[a-zA-Z]{2,}$] *)
Definition pattern : regex :=
  Seq (Plus (Class (fun c => alnum c || one_of "._%+-" c)))
 (Seq (Chr "@")
 (Seq (Plus (Class (fun c => alnum c || one_of ".-" c)))
 (Seq (Chr ".")
 (Seq (AtLeast2 (Class alpha))
      End)))).

(** ** validators.py *)

Section Service.

(** [float(s)] for text: the interpreter's parser, [None] when it raises
    [ValueError]. *)
Variable float_of_str : pystr -> option pyfloat.

(** [float(v)] *)
Definition py_float (v : pyval) : res pyfloat :=
  match v with
  | VNone => Raise TypeError
  | VBool b => Ok (if b then float_one else float_zero)
  | VInt n =>
      match float_of_int n with
      | Some x => Ok x
      | None => Raise OverflowError
      end
  | VFloat x => Ok x
  | VStr s =>
      match float_of_str s with
      | Some x => Ok x
      | None => Raise ValueError
      end
  | VList _ | VDict _ => Raise TypeError
  end.

Definition validate_email (email : pyval) : bool * pystr :=
  match email with
  | VStr s =>
      if negb (truthy email) then (false, str "Email is required")
      else if negb (matches pattern s) then (false, str "Email format is invalid")
      else (true, str "")
  | _ => (false, str "Email is required")
  end.

(** The [try] catches [TypeError] and [ValueError]; any other exception of
    [float] leaves the function. *)
Definition validate_salary (salary : pyval) : res (bool * pystr) :=
  match py_float salary with
  | Ok salary_float =>
      if float_le0 salary_float
      then Ok (false, str "Salary must be greater than 0")
      else Ok (true, str "")
  | Raise TypeError | Raise ValueError =>
      Ok (false, str "Salary must be a valid number")
  | Raise e => Raise e
  end.

Definition is_blank_str (value : pyval) : bool :=
  match value with
  | VStr s => match strip s with [] => true | _ => false end
  | _ => false
  end.

Definition validate_required_field (value : pyval) (field_name : pystr)
  : bool * pystr :=
  if negb (truthy value) || is_blank_str value
  then (false, field_name ++ str " is required")
  else (true, str "").

Definition required_fields : list (pystr * pystr) :=
  [ (str "first_name", str "First Name");
    (str "last_name", str "Last Name");
    (str "email", str "Email");
    (str "position", str "Position");
    (str "salary", str "Salary") ].

(** The loop over [required_fields.items()]. *)
Definition check_required (data : dict) (errors : errdict) : errdict :=
  fold_left
    (fun errors '(field, label) =>
       let '(is_valid, error) := validate_required_field (get data field) label in
       if negb is_valid then <[field := error]> errors else errors)
    required_fields errors.

Definition check_email (data : dict) (errors : errdict) : errdict :=
  if contains data (str "email") && truthy (get data (str "email")) then
    let '(is_valid, error) := validate_email (get data (str "email")) in
    if negb is_valid then <[str "email" := error]> errors else errors
  else errors.

Definition is_none (v : pyval) : bool :=
  match v with VNone => true | _ => false end.

Definition check_salary (data : dict) (errors : errdict) : res errdict :=
  if contains data (str "salary") && negb (is_none (get data (str "salary"))) then
    (r <- validate_salary (get data (str "salary")) ;;
     let '(is_valid, error) := r in
     Ok (if negb is_valid then <[str "salary" := error]> errors else errors))%res
  else Ok errors.

Definition validate_employee_data (data : dict) : res (bool * errdict) :=
  let errors : errdict := ∅ in
  let errors := check_required data errors in
  let errors := check_email data errors in
  (errors <- check_salary data errors ;;
   Ok (bool_decide (size errors = 0%nat), errors))%res.

(** [str(v)] as an f-string renders it: text as it is, an integer in
    decimal; the rendering of the other values is the interpreter's. *)
Variable py_repr : pyval -> pystr.

Definition py_str (v : pyval) : pystr :=
  match v with
  | VStr s => s
  | VInt n => str_of_int n
  | _ => py_repr v
  end.

(** [v != s] for a text [s] *)
Definition ne_str (v : pyval) (s : pystr) : bool :=
  match v with
  | VStr s' => negb (bool_decide (s' = s))
  | _ => true
  end.

(** ** models.py *)

Record Employee := {
  first_name : pystr;
  last_name : pystr;
  email : pystr;
  position : pystr;
  salary : pyfloat;
  id : option Z;
  created_at : option pystr
}.

(** ** database.py

    The table [employees] of [_init_schema]: rows keyed by [id INTEGER
    PRIMARY KEY], with the [AUTOINCREMENT] counter SQLite keeps beside it.
    The text columns hold text and [salary] a float, which is all the
    statements of the service write. *)

Record row := {
  row_first_name : pystr;
  row_last_name : pystr;
  row_email : pystr;
  row_position : pystr;
  row_salary : pyfloat;
  row_created_at : pystr
}.

Record Database := {
  employees : gmap Z row;
  sqlite_sequence : Z
}.

(** [dict(row)] read by [Employee.from_dict]. *)
Definition from_dict (r : Z * row) : Employee :=
  {| id := Some r.1;
     first_name := row_first_name r.2;
     last_name := row_last_name r.2;
     email := row_email r.2;
     position := row_position r.2;
     salary := row_salary r.2;
     created_at := Some (row_created_at r.2) |}.

(** A computation over the store that returns or raises. *)
Definition M (A : Type) : Type := Database -> res A * Database.

Definition ret {A} (a : A) : M A := fun db => (Ok a, db).
Definition raise {A} (e : exn) : M A := fun db => (Raise e, db).
Definition bind {A B} (m : M A) (k : A -> M B) : M B :=
  fun db =>
    match m db with
    | (Ok a, db') => k a db'
    | (Raise e, db') => (Raise e, db')
    end.
Definition lift {A} (r : res A) : M A := fun db => (r, db).

Declare Scope svc_scope.
Delimit Scope svc_scope with svc.
Notation "x <- m ;; k" := (bind m (fun x => k))
  (at level 100, m at next level, right associativity) : svc_scope.
Notation "m ;;; k" := (bind m (fun _ => k))
  (at level 100, right associativity) : svc_scope.

(** Rows in the order of [ORDER BY id]. *)
Definition id_le (a b : Z * row) : Prop := a.1 ≤ b.1.
#[local] Instance id_le_dec a b : Decision (id_le a b) := Z_le_dec a.1 b.1.

Definition rows_by_id (t : gmap Z row) : list (Z * row) :=
  merge_sort id_le (map_to_list t).

(** [column = ?] on a text column. Only text is ever bound here: the callers
    have validated the e-mail address, which admits nothing else, and no
    character outside ASCII. *)
Definition sql_text_eq (column : pystr) (param : pyval) : bool :=
  match param with
  | VStr s => bool_decide (column = s)
  | _ => false
  end.

(** [execute_single("SELECT id FROM employees WHERE email = ?", (email,))] *)
Definition select_id_by_email (email : pyval) : M (option Z) :=
  fun db =>
    (Ok (fst <$> List.find (fun r => sql_text_eq (row_email r.2) email)
                   (rows_by_id (employees db))), db).

(** [execute_single("SELECT id FROM employees WHERE email = ? AND id != ?",
    (email, employee_id))] *)
Definition select_id_by_email_except (email : pyval) (employee_id : Z)
  : M (option Z) :=
  fun db =>
    (Ok (fst <$> List.find
                   (fun r => sql_text_eq (row_email r.2) email
                             && negb (r.1 =? employee_id))
                   (rows_by_id (employees db))), db).

(** The parameters of a statement. [sqlite3] binds them before the statement
    runs: an integer must fit 64 bits, or the call raises [OverflowError];
    a text must encode as UTF-8, which one with a surrogate code point does
    not, and the call raises [UnicodeEncodeError], a [ValueError]. *)
Definition max_rowid : Z := 9223372036854775807.
Definition min_rowid : Z := -9223372036854775808.

Definition bindable (n : Z) : bool := (min_rowid <=? n) && (n <=? max_rowid).

Definition is_surrogate (c : N) : bool := ((55296 <=? c) && (c <=? 57343))%N.

Definition encodable (s : pystr) : bool :=
  forallb (fun c => negb (is_surrogate c)) s.

(** [execute_single("SELECT * FROM employees WHERE id = ?", (employee_id,))].
    The ids of the table are 64-bit integers: an id that is found was bound,
    and one that is not found is refused when it is outside that range. *)
Definition select_by_id (employee_id : Z) : M (option (Z * row)) :=
  fun db =>
    match employees db !! employee_id with
    | Some r => (Ok (Some (employee_id, r)), db)
    | None =>
        if bindable employee_id then (Ok None, db)
        else (Raise OverflowError, db)
    end.

(** [execute_query("SELECT * FROM employees ORDER BY id LIMIT ? OFFSET ?",
    (limit, offset))]: a negative limit is no limit, a negative offset is
    none. *)
Definition select_page (limit offset : Z) : M (list (Z * row)) :=
  fun db =>
    if negb (bindable limit && bindable offset) then (Raise OverflowError, db)
    else
      let rows := drop (Z.to_nat offset) (rows_by_id (employees db)) in
      (Ok (if limit <? 0 then rows else take (Z.to_nat limit) rows), db).

(** [execute_single("SELECT COUNT( * ) as count FROM employees")] *)
Definition select_count : M Z :=
  fun db => (Ok (Z.of_nat (size (employees db))), db).

Definition largest_rowid (t : gmap Z row) : Z :=
  foldr Z.max 0 (fst <$> map_to_list t).

(** The id [AUTOINCREMENT] assigns: one more than the largest ever used. *)
Definition next_rowid (db : Database) : Z :=
  Z.max (sqlite_sequence db) (largest_rowid (employees db)) + 1.

Definition email_taken (t : gmap Z row) (e : pystr) (except : option Z) : bool :=
  existsb (fun r => bool_decide (row_email r.2 = e)
                    && negb (bool_decide (Some r.1 = except)))
          (map_to_list t).

(** [execute_insert("INSERT INTO employees (first_name, last_name, email,
    position, salary) VALUES (?, ?, ?, ?, ?)", ...)]: returns [lastrowid].
    [now] is the store's [CURRENT_TIMESTAMP]. The four texts are bound
    first. A NaN is stored as NULL, which [salary REAL NOT NULL] refuses;
    [email] is [UNIQUE]. *)
Definition execute_insert (now : pystr)
    (first_name last_name email position : pystr) (salary : pyfloat) : M Z :=
  fun db =>
    let rowid := next_rowid db in
    if negb (forallb encodable [first_name; last_name; email; position])
    then (Raise ValueError, db)
    else if max_rowid <? rowid then (Raise OperationalError, db)
    else if float_is_nan salary then (Raise IntegrityError, db)
    else if email_taken (employees db) email None then (Raise IntegrityError, db)
    else
      let r := {| row_first_name := first_name; row_last_name := last_name;
                  row_email := email; row_position := position;
                  row_salary := salary; row_created_at := now |} in
      (Ok rowid, {| employees := <[rowid := r]> (employees db);
                    sqlite_sequence := rowid |}).

(** One [column = ?] of an UPDATE with the value bound to it. *)
Inductive assignment :=
| SetFirstName (v : pystr)
| SetLastName (v : pystr)
| SetEmail (v : pystr)
| SetPosition (v : pystr)
| SetSalary (v : pyfloat).

Definition assign (r : row) (a : assignment) : row :=
  match a with
  | SetFirstName v =>
      {| row_first_name := v; row_last_name := row_last_name r;
         row_email := row_email r; row_position := row_position r;
         row_salary := row_salary r; row_created_at := row_created_at r |}
  | SetLastName v =>
      {| row_first_name := row_first_name r; row_last_name := v;
         row_email := row_email r; row_position := row_position r;
         row_salary := row_salary r; row_created_at := row_created_at r |}
  | SetEmail v =>
      {| row_first_name := row_first_name r; row_last_name := row_last_name r;
         row_email := v; row_position := row_position r;
         row_salary := row_salary r; row_created_at := row_created_at r |}
  | SetPosition v =>
      {| row_first_name := row_first_name r; row_last_name := row_last_name r;
         row_email := row_email r; row_position := v;
         row_salary := row_salary r; row_created_at := row_created_at r |}
  | SetSalary v =>
      {| row_first_name := row_first_name r; row_last_name := row_last_name r;
         row_email := row_email r; row_position := row_position r;
         row_salary := v; row_created_at := row_created_at r |}
  end.

(** The constraint a changed column must meet in the table without the row
    being updated. *)
Definition violates (t : gmap Z row) (employee_id : Z) (a : assignment) : bool :=
  match a with
  | SetEmail v => email_taken t v (Some employee_id)
  | SetSalary v => float_is_nan v
  | _ => false
  end.

(** A text among the values of an UPDATE that cannot be bound. *)
Definition unencodable (a : assignment) : bool :=
  match a with
  | SetFirstName v | SetLastName v | SetEmail v | SetPosition v =>
      negb (encodable v)
  | SetSalary _ => false
  end.

(** [execute_update("UPDATE employees SET ... WHERE id = ?", ...)]: returns
    [rowcount]. The values are bound first; the id is that of a row the
    caller has just fetched. *)
Definition execute_update (update_fields : list assignment) (employee_id : Z)
  : M Z :=
  fun db =>
    if existsb unencodable update_fields then (Raise ValueError, db)
    else
      match employees db !! employee_id with
      | None => (Ok 0, db)
      | Some r =>
          if existsb (violates (employees db) employee_id) update_fields
          then (Raise IntegrityError, db)
          else
            (Ok 1, {| employees :=
                        <[employee_id := fold_left assign update_fields r]>
                          (employees db);
                      sqlite_sequence := sqlite_sequence db |})
      end.

(** [execute_delete("DELETE FROM employees WHERE id = ?", (employee_id,))]:
    returns [rowcount]. The id is that of a row the caller has just
    fetched. *)
Definition execute_delete (employee_id : Z) : M Z :=
  fun db =>
    match employees db !! employee_id with
    | None => (Ok 0, db)
    | Some _ =>
        (Ok 1, {| employees := delete employee_id (employees db);
                  sqlite_sequence := sqlite_sequence db |})
    end.

(** ** employees_manager.py *)

#[local] Open Scope svc_scope.

Definition get_employee_by_id (employee_id : Z) : M Employee :=
  row <- select_by_id employee_id ;;
  match row with
  | None =>
      raise (NotFoundError (str "Employee with id " ++ str_of_int employee_id
                            ++ str " not found"))
  | Some r => ret (from_dict r)
  end.

Definition already_exists (email : pyval) : errdict :=
  {[ str "email" := str "Email '" ++ py_str email ++ str "' already exists" ]}.

Definition create_employee (now : pystr) (data : dict) : M Employee :=
  v <- lift (validate_employee_data data) ;;
  let '(is_valid, errors) := v in
  if negb is_valid then raise (ValidationError errors) else
  email <- lift (getitem data (str "email")) ;;
  existing <- select_id_by_email email ;;
  if bool_decide (is_Some existing) then
    raise (UniqueConstraintError (already_exists email))
  else
  first_name <- lift (res_bind (getitem data (str "first_name")) py_strip) ;;
  last_name <- lift (res_bind (getitem data (str "last_name")) py_strip) ;;
  email <- lift (res_bind (getitem data (str "email")) py_strip) ;;
  position <- lift (res_bind (getitem data (str "position")) py_strip) ;;
  salary <- lift (res_bind (getitem data (str "salary")) py_float) ;;
  employee_id <- execute_insert now first_name last_name email position salary ;;
  get_employee_by_id employee_id.

Definition get_all_employees (limit offset : Z) : M (list Employee) :=
  rows <- select_page limit offset ;;
  ret (from_dict <$> rows).

(** The candidate record of an update: the request's fields over the
    existing values. *)
Definition update_data (data : dict) (existing : Employee) : dict :=
  list_to_map
    [ (str "first_name", get_default data (str "first_name") (VStr (first_name existing)));
      (str "last_name", get_default data (str "last_name") (VStr (last_name existing)));
      (str "email", get_default data (str "email") (VStr (email existing)));
      (str "position", get_default data (str "position") (VStr (position existing)));
      (str "salary", get_default data (str "salary") (VFloat (salary existing))) ].

(** [if key in data: update_fields.append(...); update_values.append(...)] *)
Definition provided {A : Type} (data : dict) (key : pystr)
    (conv : pyval -> res A) (column : A -> assignment) : M (list assignment) :=
  if contains data key then
    v <- lift (res_bind (getitem data key) conv) ;;
    ret [column v]
  else ret [].

(** [# Check for duplicate email if email is being updated] *)
Definition check_duplicate (employee_id : Z) (data : dict) (existing : Employee)
  : M unit :=
  if contains data (str "email")
     && ne_str (get data (str "email")) (email existing) then
    duplicate <- select_id_by_email_except (get data (str "email")) employee_id ;;
    if bool_decide (is_Some duplicate) then
      raise (UniqueConstraintError (already_exists (get data (str "email"))))
    else ret tt
  else ret tt.

(** [# Update only provided fields] *)
Definition update_provided (employee_id : Z) (data : dict) : M unit :=
  f1 <- provided data (str "first_name") py_strip SetFirstName ;;
  f2 <- provided data (str "last_name") py_strip SetLastName ;;
  f3 <- provided data (str "email") py_strip SetEmail ;;
  f4 <- provided data (str "position") py_strip SetPosition ;;
  f5 <- provided data (str "salary") py_float SetSalary ;;
  let update_fields := f1 ++ f2 ++ f3 ++ f4 ++ f5 in
  match update_fields with
  | [] => ret tt
  | _ => execute_update update_fields employee_id ;;; ret tt
  end.

Definition update_employee (employee_id : Z) (data : dict) : M Employee :=
  existing <- get_employee_by_id employee_id ;;
  v <- lift (validate_employee_data (update_data data existing)) ;;
  let '(is_valid, errors) := v in
  if negb is_valid then raise (ValidationError errors) else
  check_duplicate employee_id data existing ;;;
  update_provided employee_id data ;;;
  get_employee_by_id employee_id.

Definition delete_employee (employee_id : Z) : M dict :=
  employee <- get_employee_by_id employee_id ;;
  execute_delete employee_id ;;;
  ret (<[ str "id" := VInt employee_id ]>
       {[ str "message" :=
            VStr (str "Employee " ++ first_name employee ++ str " "
                  ++ last_name employee ++ str " deleted successfully") ]}).

Definition get_employee_count : M Z :=
  select_count.

(** ** models.py: [Employee.to_dict]

    [created_at] is the text the store returns for the column, never a
    [datetime], so it is passed on as it is. *)

Definition to_dict (e : Employee) : dict :=
  list_to_map
    [ (str "id", from_option VInt VNone (id e));
      (str "first_name", VStr (first_name e));
      (str "last_name", VStr (last_name e));
      (str "email", VStr (email e));
      (str "position", VStr (position e));
      (str "salary", VFloat (salary e));
      (str "created_at", from_option VStr VNone (created_at e)) ].

(** ** app.py

    A view returns what it hands to [jsonify] and a status code. The views
    are modelled from the point where [request.get_json()] or
    [request.args.get] has returned its value. *)

Inductive body :=
| JObject (d : dict)                                (* [jsonify(d)] *)
| JEmployees (items : list dict) (count : Z)        (* [{"employees": ..., "count": ...}] *)
| JErrors (errors : errdict)                        (* [{"errors": errors}] *)
| JError (error : pystr).                           (* [{"error": text}] *)

Definition response : Type := body * Z.

(** A view: the response and the store it leaves. *)
Definition view : Type := Database -> response * Database.

(** [error_response(errors, status_code)]: the argument is a dictionary of
    field errors or a text. *)
Definition error_response (errors : errdict + pystr) (status_code : Z)
  : response :=
  match errors with
  | inl errors => (JErrors errors, status_code)
  | inr text => (JError text, status_code)
  end.

(** [str(e)]: the one text argument of a [NotFoundError]; the text of the
    other exceptions is the interpreter's and the store's. *)
Variable exn_text : exn -> pystr.

Definition exn_str (e : exn) : pystr :=
  match e with
  | NotFoundError message => message
  | _ => exn_text e
  end.

(** The dictionary of a decoded JSON object: a later member replaces an
    earlier one of the same name. *)
Definition dict_of_items (items : list (pystr * pyval)) : dict :=
  list_to_map (reverse items).

(** [create_employee(data)] for any decoded body: [data.get], the first use
    of [data], exists for a dictionary only. *)
Definition create_employee_of (now : pystr) (data : pyval) : M Employee :=
  match data with
  | VDict items => create_employee now (dict_of_items items)
  | _ => raise AttributeError
  end.

(** [update_employee(employee_id, data)] for any decoded body: the employee
    is fetched before [data.get] is called. *)
Definition update_employee_of (employee_id : Z) (data : pyval) : M Employee :=
  match data with
  | VDict items => update_employee employee_id (dict_of_items items)
  | _ => get_employee_by_id employee_id ;;; raise AttributeError
  end.

Definition create_employee_endpoint (now : pystr) (data : pyval) : view :=
  fun db =>
    if negb (truthy data) then
      ((JError (str "Request body is required"), 400), db)
    else
      match create_employee_of now data db with
      | (Ok employee, db') => ((JObject (to_dict employee), 201), db')
      | (Raise (ValidationError errors), db') =>
          (error_response (inl errors) 400, db')
      | (Raise (UniqueConstraintError errors), db') =>
          (error_response (inl errors) 409, db')
      | (Raise e, db') => (error_response (inr (exn_str e)) 500, db')
      end.

(** [limit] and [offset] are what [request.args.get(..., type=int)]
    returned. *)
Definition get_employees_endpoint (limit offset : Z) : view :=
  fun db =>
    let limit := if limit <? 1 then 100 else limit in
    let offset := if offset <? 0 then 0 else offset in
    match get_all_employees limit offset db with
    | (Ok employees, db') =>
        ((JEmployees (to_dict <$> employees) (Z.of_nat (length employees)), 200),
         db')
    | (Raise e, db') => (error_response (inr (exn_str e)) 500, db')
    end.

Definition get_employee_endpoint (employee_id : Z) : view :=
  fun db =>
    match get_employee_by_id employee_id db with
    | (Ok employee, db') => ((JObject (to_dict employee), 200), db')
    | (Raise (NotFoundError message), db') =>
        (error_response (inr (exn_str (NotFoundError message))) 404, db')
    | (Raise e, db') => (error_response (inr (exn_str e)) 500, db')
    end.

Definition update_employee_endpoint (employee_id : Z) (data : pyval) : view :=
  fun db =>
    if negb (truthy data) then
      ((JError (str "Request body is required"), 400), db)
    else
      match update_employee_of employee_id data db with
      | (Ok employee, db') => ((JObject (to_dict employee), 200), db')
      | (Raise (NotFoundError message), db') =>
          (error_response (inr (exn_str (NotFoundError message))) 404, db')
      | (Raise (ValidationError errors), db') =>
          (error_response (inl errors) 400, db')
      | (Raise (UniqueConstraintError errors), db') =>
          (error_response (inl errors) 409, db')
      | (Raise e, db') => (error_response (inr (exn_str e)) 500, db')
      end.

Definition delete_employee_endpoint (employee_id : Z) : view :=
  fun db =>
    match delete_employee employee_id db with
    | (Ok result, db') => ((JObject result, 200), db')
    | (Raise (NotFoundError message), db') =>
        (error_response (inr (exn_str (NotFoundError message))) 404, db')
    | (Raise e, db') => (error_response (inr (exn_str e)) 500, db')
    end.

#[local] Close Scope svc_scope.

(** * Vocabulary of the properties *)

(** What the presence check decides. *)
Definition required_ok (v : pyval) : bool :=
  truthy v && negb (is_blank_str v).

(** One round of the loop over the required fields. *)
Definition required_error (d : gmap (list N) pyval) (field label : string)
    (errors : gmap (list N) (list N)) : gmap (list N) (list N) :=
  if required_ok (get d (str field)) then errors
  else <[str field := str label ++ str " is required"]> errors.

(** The four text fields pass their checks. *)
Definition valid_texts (d : gmap (list N) pyval) : Prop :=
  required_ok (get d (str "first_name")) = true
  ∧ required_ok (get d (str "last_name")) = true
  ∧ required_ok (get d (str "email")) = true
  ∧ (validate_email (get d (str "email"))).1 = true
  ∧ required_ok (get d (str "position")) = true.

(** The record passes every check. *)
Definition valid_fields (d : gmap (list N) pyval) : Prop :=
  valid_texts d
  ∧ required_ok (get d (str "salary")) = true
  ∧ ∃ x, py_float (get d (str "salary")) = Ok x ∧ float_le0 x = false.

(** [float] of the salary returns or raises what [validate_salary] catches. *)
Definition no_overflow (d : gmap (list N) pyval) : Prop :=
  py_float (get d (str "salary")) ≠ Raise OverflowError.

(** [v == 0] for the numbers a request can hold. *)
Definition eq_zero (v : pyval) : bool :=
  match v with
  | VBool b => negb b
  | VInt n => n =? 0
  | VFloat (S754_zero _) => true
  | _ => false
  end.

(** No persisted employee has the e-mail address [e]. *)
Definition email_unused (db : Database) (e : list N) : Prop :=
  ∀ i r, employees db !! i = Some r → row_email r ≠ e.

(** The failure of [get_employee_by_id]. *)
Definition not_found (employee_id : Z) : exn :=
  NotFoundError (str "Employee with id " ++ str_of_int employee_id
                 ++ str " not found").

(** Strictly ascending row id. *)
Definition row_lt (a b : Z * row) : Prop := a.1 < b.1.

(** Strictly ascending [id] of employees. *)
Definition id_lt (a b : Employee) : Prop :=
  match id a, id b with
  | Some i, Some j => i < j
  | _, _ => False
  end.

(** The failure of the uniqueness checks. *)
Definition exists_error (e : list N) : exn :=
  UniqueConstraintError
    {[ str "email" := str "Email '" ++ e ++ str "' already exists" ]}.

(** A request whose [first_name] is a number. *)
Definition numeric_first_name : gmap (list N) pyval :=
  list_to_map
    [ (str "first_name", VInt 123); (str "last_name", VStr (str "B"));
      (str "email", VStr (str "a@b.co")); (str "position", VStr (str "Eng"));
      (str "salary", VInt 10) ].

(** The [UNIQUE] constraint on [email]. *)
Definition unique_emails (db : Database) : Prop :=
  ∀ i j ri rj,
    employees db !! i = Some ri → employees db !! j = Some rj →
    row_email ri = row_email rj → i = j.

(** A computation that never raises [UniqueConstraintError]. *)
Definition no_conflict {A : Type} (m : M A) : Prop :=
  ∀ db errs, (m db).1 ≠ Raise (UniqueConstraintError errs).

(** A result that is not a [UniqueConstraintError]. *)
Definition res_no_conflict {A : Type} (r : res A) : Prop :=
  ∀ errs, r ≠ Raise (UniqueConstraintError errs).

(** Repetition of a language. *)
Inductive star (L : list N → Prop) : list N → Prop :=
| star_nil : star L []
| star_app s1 s2 : L s1 → star L s2 → star L (s1 ++ s2).

(** The texts an expression denotes. *)
Fixpoint lang (r : regex) : list N → Prop :=
  match r with
  | Void => fun _ => False
  | Eps => fun s => s = []
  | Class p => fun s => ∃ c, s = [c] ∧ p c = true
  | Seq r1 r2 => fun s => ∃ s1 s2, s = s1 ++ s2 ∧ lang r1 s1 ∧ lang r2 s2
  | Alt r1 r2 => fun s => lang r1 s ∨ lang r2 s
  | Star r1 => star (lang r1)
  end.

(** Every character class of the expression is within [P]. *)
Fixpoint classes_within (P : N → Prop) (r : regex) : Prop :=
  match r with
  | Void | Eps => True
  | Class p => ∀ c, p c = true → P c
  | Seq r1 r2 | Alt r1 r2 => classes_within P r1 ∧ classes_within P r2
  | Star r1 => classes_within P r1
  end.

(** The pattern without its [$]. *)
Definition address : regex :=
  Seq (Plus (Class (fun c => alnum c || one_of "._%+-" c)))
 (Seq (Chr "@")
 (Seq (Plus (Class (fun c => alnum c || one_of ".-" c)))
 (Seq (Chr ".")
      (AtLeast2 (Class alpha))))).

(** A row that passes the checks of [validate_employee_data]. *)
Definition valid_row (r : row) : Prop :=
  required_ok (VStr (row_first_name r)) = true
  ∧ required_ok (VStr (row_last_name r)) = true
  ∧ required_ok (VStr (row_email r)) = true
  ∧ matches pattern (row_email r) = true
  ∧ required_ok (VStr (row_position r)) = true
  ∧ float_le0 (row_salary r) = false
  ∧ float_is_nan (row_salary r) = false.

(** Valid rows with distinct emails. *)
Definition consistent (db : Database) : Prop :=
  (∀ i r, employees db !! i = Some r → valid_row r) ∧ unique_emails db.

(** What an assignment may write. *)
Definition valid_assignment (a : assignment) : Prop :=
  match a with
  | SetFirstName v | SetLastName v | SetPosition v => required_ok (VStr v) = true
  | SetEmail v => required_ok (VStr v) = true ∧ matches pattern v = true
  | SetSalary v => float_le0 v = false
  end.

(** One call of the service. *)
Inductive step (db : Database) : Database → Prop :=
| step_create now d : step db (create_employee now d db).2
| step_update i d : step db (update_employee i d db).2
| step_delete i : step db (delete_employee i db).2.

(** The stores the service reaches from the empty one. *)
Definition reachable (db : Database) : Prop :=
  rtc step {| employees := ∅; sqlite_sequence := 0 |} db.

(** The failures that leave create and update: the three kinds of the
    service, those of the store, and three of the interpreter, the
    [ValueError] being that of a text that cannot be encoded. *)
Definition escapes (e : exn) : Prop :=
  match e with
  | ValidationError _ | NotFoundError _ | UniqueConstraintError _ => True
  | IntegrityError | OperationalError => True
  | AttributeError | OverflowError | ValueError => True
  | TypeError | KeyError _ => False
  end.

(** A text the store takes: it can be encoded, and it is short (the store
    refuses a text or a row beyond 10^9 bytes; a million code points are
    well within). *)
Definition storable (s : list N) : bool :=
  encodable s && (Z.of_nat (length s) <=? 1000000).

(** The texts of a request that a statement binds are storable. *)
Definition storable_field (d : gmap (list N) pyval) (k : list N) : bool :=
  match d !! k with
  | Some (VStr s) => storable s
  | _ => true
  end.

Definition storable_texts (d : gmap (list N) pyval) : bool :=
  storable_field d (str "first_name") && storable_field d (str "last_name")
  && storable_field d (str "email") && storable_field d (str "position").

(** [unique_emails], decided by search. *)
Definition unique_emails_search (db : Database) : bool :=
  forallb (fun r => negb (email_taken (employees db) (row_email r.2) (Some r.1)))
          (map_to_list (employees db)).

(** The text an update leaves in a column: the supplied one trimmed, or the
    old one when the request does not hold the key. *)
Definition supplied_text (d : gmap (list N) pyval) (key old : list N) : list N :=
  match d !! key with
  | Some (VStr s) => strip s
  | _ => old
  end.

Definition supplied_salary (d : gmap (list N) pyval) (old : spec_float)
  : spec_float :=
  match d !! str "salary" with
  | Some v => match py_float v with Ok x => x | Raise _ => old end
  | None => old
  end.

(** The row a successful update leaves. *)
Definition updated_row (d : gmap (list N) pyval) (r : row) : row :=
  {| row_first_name := supplied_text d (str "first_name") (row_first_name r);
     row_last_name := supplied_text d (str "last_name") (row_last_name r);
     row_email := supplied_text d (str "email") (row_email r);
     row_position := supplied_text d (str "position") (row_position r);
     row_salary := supplied_salary d (row_salary r);
     row_created_at := row_created_at r |}.

(** The row ids lie between 1 and the counter. *)
Definition ids_bounded (db : Database) : Prop :=
  0 ≤ sqlite_sequence db
  ∧ ∀ i r, employees db !! i = Some r → 1 ≤ i ≤ sqlite_sequence db.

(** ** Sample data *)

(** A rendering and a time stamp to run the service with. *)
Definition sample_repr (v : pyval) : list N := str "<object>".
Definition now0 : list N := str "2026-01-15 09:30:00".

(** A request with the five fields, and a stored row. *)
Definition record (first_name last_name email position : string) (salary : pyval)
  : gmap (list N) pyval :=
  list_to_map
    [ (str "first_name", VStr (str first_name));
      (str "last_name", VStr (str last_name));
      (str "email", VStr (str email));
      (str "position", VStr (str position));
      (str "salary", salary) ].

Definition stored (first_name last_name email position : string) (salary : Z)
  : row :=
  {| row_first_name := str first_name; row_last_name := str last_name;
     row_email := str email; row_position := str position;
     row_salary := default float_zero (float_of_int salary);
     row_created_at := now0 |}.

Definition ann : row := stored "Ann" "Lee" "ann@example.com" "Engineer" 50000.
Definition bob : row := stored "Bob" "Ray" "bob@example.com" "Analyst" 40000.
Definition cat : row := stored "Cat" "Kim" "cat@example.com" "Designer" 45000.
Definition dan : row := stored "Dan" "Poe" "dan@example.com" "Manager" 60000.

Definition eve : row := stored "Eve" "Fox" "eve@example.com" "Engineer" 50000.

Definition empty_db : Database := {| employees := ∅; sqlite_sequence := 0 |}.
Definition two_db : Database :=
  {| employees := <[1 := ann]> (<[2 := bob]> ∅); sqlite_sequence := 2 |}.
Definition four_db : Database :=
  {| employees := <[1 := ann]> (<[2 := bob]> (<[3 := cat]> (<[4 := dan]> ∅)));
     sqlite_sequence := 4 |}.

(** [two_db] after Bob is deleted, and after Eve is created. *)
Definition one_db : Database :=
  {| employees := <[1 := ann]> ∅; sqlite_sequence := 2 |}.
Definition three_db : Database :=
  {| employees := <[3 := eve]> (employees two_db); sqlite_sequence := 3 |}.

(** Requests: a new employee, and Ann's data with a newline after the
    email. *)
Definition eve_request : gmap (list N) pyval :=
  record " Eve " "Fox" "eve@example.com" "Engineer" (VInt 50000).
Definition ann_newline : gmap (list N) pyval :=
  <[str "email" := VStr (row_email ann ++ [10%N])]>
    (record "Ann" "Lee" "ann@example.com" "Engineer" (VInt 50000)).

(** A text for the exceptions of the interpreter and the store. *)
Definition sample_text (e : exn) : list N := str "<error>".

(** * Properties *)

#[local] Arguments select_id_by_email : simpl never.
#[local] Arguments select_id_by_email_except : simpl never.
#[local] Arguments select_by_id : simpl never.
#[local] Arguments execute_insert : simpl never.
#[local] Arguments execute_update : simpl never.
#[local] Arguments execute_delete : simpl never.
#[local] Arguments get_employee_by_id : simpl never.
#[local] Arguments validate_employee_data : simpl never.
#[local] Arguments py_float : simpl never.
#[local] Arguments strip : simpl never.
#[local] Arguments str : simpl never.

(** ** Text and dictionaries *)

Lemma truthy_get_contains (d : gmap (list N) pyval) k :
  truthy (get d k) = true → contains d k = true.
Proof.
  unfold get, contains. destruct (d !! k) as [v|] eqn:E; simpl; done.
Qed.

Lemma contains_lookup (d : gmap (list N) pyval) k v :
  d !! k = Some v → contains d k = true ∧ get d k = v ∧ getitem d k = Ok v.
Proof.
  intros E. unfold contains, get, getitem. rewrite E. done.
Qed.

Lemma contains_None (d : gmap (list N) pyval) k :
  d !! k = None → contains d k = false ∧ get d k = VNone.
Proof.
  intros E. unfold contains, get. rewrite E. done.
Qed.

(** ** Validation *)

Lemma validate_required_field_eq v label :
  validate_required_field v label
  = if required_ok v then (true, str "") else (false, label ++ str " is required").
Proof.
  unfold validate_required_field, required_ok.
  destruct (truthy v), (is_blank_str v); reflexivity.
Qed.

Lemma check_required_eq d errors :
  check_required d errors
  = required_error d "salary" "Salary"
      (required_error d "position" "Position"
         (required_error d "email" "Email"
            (required_error d "last_name" "Last Name"
               (required_error d "first_name" "First Name" errors)))).
Proof.
  unfold check_required, required_fields, required_error. simpl fold_left.
  rewrite !validate_required_field_eq.
  repeat match goal with |- context [required_ok ?v] => destruct (required_ok v) end;
    reflexivity.
Qed.

Lemma required_error_empty d field label errors :
  required_error d field label errors = ∅
  ↔ required_ok (get d (str field)) = true ∧ errors = ∅.
Proof.
  unfold required_error. destruct (required_ok _).
  - split; [by intros ->|by intros [_ ->]].
  - split; [|by intros [? _]]. intros E. by apply insert_non_empty in E.
Qed.

Lemma required_error_lookup_ne d field label errors k :
  k ≠ str field → required_error d field label errors !! k = errors !! k.
Proof.
  intros Hk. unfold required_error. destruct (required_ok _); [done|].
  by rewrite lookup_insert_ne.
Qed.

(** The shape check runs exactly when the value is truthy. *)
Lemma check_email_eq d errors :
  check_email d errors
  = if truthy (get d (str "email")) then
      if (validate_email (get d (str "email"))).1 then errors
      else <[str "email" := (validate_email (get d (str "email"))).2]> errors
    else errors.
Proof.
  unfold check_email.
  destruct (truthy (get d (str "email"))) eqn:T.
  - rewrite (truthy_get_contains _ _ T). simpl.
    destruct (validate_email _) as [[] ?]; reflexivity.
  - by rewrite andb_false_r.
Qed.

Lemma py_float_raises v e :
  py_float v = Raise e → e = TypeError ∨ e = ValueError ∨ e = OverflowError.
Proof.
  destruct v; unfold py_float;
    try destruct (float_of_int _); try destruct (float_of_str _);
    intros [= <-]; auto.
Qed.

(** The salary check runs exactly when the value is not [None]. *)
Lemma check_salary_eq d errors :
  check_salary d errors
  = if is_none (get d (str "salary")) then Ok errors
    else
      match py_float (get d (str "salary")) with
      | Ok x =>
          Ok (if float_le0 x
              then <[str "salary" := str "Salary must be greater than 0"]> errors
              else errors)
      | Raise OverflowError => Raise OverflowError
      | Raise _ =>
          Ok (<[str "salary" := str "Salary must be a valid number"]> errors)
      end.
Proof.
  unfold check_salary, contains, get.
  destruct (d !! str "salary") as [v|]; simpl; [|done].
  destruct (is_none v); simpl; [done|].
  unfold validate_salary.
  destruct (py_float v) as [x|e] eqn:F; simpl.
  - by destruct (float_le0 x).
  - destruct (py_float_raises _ _ F) as [->|[->| ->]]; done.
Qed.

Lemma required_ok_truthy v : required_ok v = true → truthy v = true.
Proof. unfold required_ok. by intros [? _]%andb_true_iff. Qed.

Lemma truthy_not_none v : truthy v = true → is_none v = false.
Proof. by destruct v. Qed.

Lemma validate_employee_data_valid d :
  valid_fields d → validate_employee_data d = Ok (true, ∅).
Proof.
  intros ((H1 & H2 & H3 & H4 & H5) & H6 & x & Hx & Hle).
  unfold validate_employee_data.
  rewrite check_required_eq. unfold required_error.
  rewrite H1, H2, H3, H5, H6.
  rewrite check_email_eq, (required_ok_truthy _ H3), H4.
  rewrite check_salary_eq, (truthy_not_none _ (required_ok_truthy _ H6)), Hx, Hle.
  reflexivity.
Qed.

Lemma validate_employee_data_true d errors :
  validate_employee_data d = Ok (true, errors) → errors = ∅ ∧ valid_fields d.
Proof.
  unfold validate_employee_data.
  destruct (check_salary _ _) as [E|] eqn:S; simpl; [|done].
  intros [= B <-]. apply bool_decide_eq_true, map_size_empty_iff in B. subst E.
  split; [done|].
  rewrite check_salary_eq in S.
  assert (check_email d (check_required d ∅) = ∅
          ∧ (is_none (get d (str "salary")) = false →
             ∃ x, py_float (get d (str "salary")) = Ok x ∧ float_le0 x = false))
    as [E0 Hs].
  { destruct (is_none _); [by injection S|].
    destruct (py_float _) as [x|e].
    - destruct (float_le0 x) eqn:L; injection S as S.
      + by apply insert_non_empty in S.
      + eauto.
    - destruct e; try done; injection S as S; by apply insert_non_empty in S. }
  rewrite check_email_eq in E0.
  assert (check_required d ∅ = ∅
          ∧ (truthy (get d (str "email")) = true →
             (validate_email (get d (str "email"))).1 = true)) as [E1 He].
  { destruct (truthy _); [|done].
    destruct (validate_email _).1; [done|]. by apply insert_non_empty in E0. }
  rewrite check_required_eq in E1.
  apply required_error_empty in E1 as [R5 E1].
  apply required_error_empty in E1 as [R4 E1].
  apply required_error_empty in E1 as [R3 E1].
  apply required_error_empty in E1 as [R2 E1].
  apply required_error_empty in E1 as [R1 _].
  repeat split; try done.
  - apply He. by apply required_ok_truthy.
  - apply Hs. by apply truthy_not_none, required_ok_truthy.
Qed.

Ltac str_neq :=
  let H := fresh in intros H; vm_compute in H; discriminate H.

Lemma check_salary_lookup_ne d errors errors' k :
  check_salary d errors = Ok errors' → k ≠ str "salary" →
  errors' !! k = errors !! k.
Proof.
  rewrite check_salary_eq. intros S Hk.
  destruct (is_none _); [by injection S as <-|].
  destruct (py_float _) as [x|e].
  - destruct (float_le0 x); injection S as <-; [by rewrite lookup_insert_ne|done].
  - destruct e; try done; injection S as <-; by rewrite lookup_insert_ne.
Qed.

Lemma validate_employee_data_returns d :
  no_overflow d →
  ∃ errors,
    check_salary d (check_email d (check_required d ∅)) = Ok errors
    ∧ validate_employee_data d = Ok (bool_decide (size errors = 0%nat), errors).
Proof.
  intros NO. unfold validate_employee_data.
  destruct (check_salary _ _) as [E|e] eqn:S; [by eauto|].
  exfalso. rewrite check_salary_eq in S. unfold no_overflow in NO.
  destruct (is_none _); [done|].
  destruct (py_float _) as [x|e']; [done|]. destruct e'; done.
Qed.

Lemma check_required_lookup_email d :
  check_required d ∅ !! str "email"
  = if required_ok (get d (str "email")) then None
    else Some (str "Email is required").
Proof.
  rewrite check_required_eq.
  rewrite !required_error_lookup_ne by str_neq.
  unfold required_error at 1. destruct (required_ok _).
  - rewrite required_error_lookup_ne by str_neq.
    unfold required_error. destruct (required_ok _); [done|].
    by rewrite lookup_insert_ne by str_neq.
  - by rewrite lookup_insert_eq.
Qed.

Lemma valid_texts_errors d :
  valid_texts d →
  check_email d (check_required d ∅) = required_error d "salary" "Salary" ∅.
Proof.
  intros (H1 & H2 & H3 & H4 & H5).
  rewrite check_email_eq, (required_ok_truthy _ H3), H4.
  rewrite check_required_eq.
  unfold required_error at 2 3 4 5. by rewrite H1, H2, H3, H5.
Qed.

(** C5: with every other field valid, a record without [salary] yields
    exactly the presence error for it, and a record whose [salary] is present
    but not numeric (its conversion raises [TypeError] or [ValueError], as
    for ['abc']) yields exactly the numeric error. *)
Theorem salary_presence_and_numeric_errors d :
  valid_texts d →
  (d !! str "salary" = None →
   validate_employee_data d
   = Ok (false, {[ str "salary" := str "Salary is required" ]}))
  ∧ (∀ v, d !! str "salary" = Some v → is_none v = false →
          py_float v = Raise TypeError ∨ py_float v = Raise ValueError →
          validate_employee_data d
          = Ok (false, {[ str "salary" := str "Salary must be a valid number" ]})).
Proof.
  intros V. unfold validate_employee_data.
  rewrite (valid_texts_errors _ V), check_salary_eq. unfold required_error.
  split.
  - intros [_ ->]%contains_None. simpl. reflexivity.
  - intros v (_ & -> & _)%contains_lookup -> F.
    assert (∀ E : gmap (list N) (list N),
              <[str "salary" := str "Salary must be a valid number"]> E ≠ ∅ →
              res_bind (Ok (<[str "salary" := str "Salary must be a valid number"]> E))
                (fun errors => Ok (bool_decide (size errors = 0%nat), errors))
              = Ok (false, <[str "salary" := str "Salary must be a valid number"]> E))
      as finish.
    { intros E NE. simpl. f_equal. f_equal. apply bool_decide_eq_false.
      by rewrite map_size_empty_iff. }
    destruct F as [-> | ->]; (destruct (required_ok v);
      [ rewrite finish by apply insert_non_empty; by rewrite insert_empty
      | rewrite finish by apply insert_non_empty;
        by rewrite insert_insert_eq, insert_empty ]).
Qed.

Lemma eq_zero_float v :
  eq_zero v = true →
  required_ok v = false ∧ is_none v = false
  ∧ ∃ x, py_float v = Ok x ∧ float_le0 x = true.
Proof.
  destruct v as [|[]|n|[]| | |]; try done; unfold py_float; simpl.
  - eauto.
  - intros ->%Z.eqb_eq. eauto.
  - destruct s; eauto.
Qed.

(** C10: a salary that is present and equal to zero fails the presence check
    as well: the presence loop records 'Salary is required' under [salary],
    and the error is still there when the salary check starts; the salary
    check runs after it and writes under the same key: the record is invalid
    and the error reported for [salary] is 'Salary must be greater than 0',
    the only error when the other fields are valid. *)
Theorem zero_salary_reports_positivity_error d v :
  d !! str "salary" = Some v → eq_zero v = true →
  validate_required_field v (str "Salary") = (false, str "Salary is required")
  ∧ check_required d ∅ !! str "salary" = Some (str "Salary is required")
  ∧ check_email d (check_required d ∅) !! str "salary"
    = Some (str "Salary is required")
  ∧ ∃ errors,
      check_salary d (check_email d (check_required d ∅)) = Ok errors
      ∧ validate_employee_data d = Ok (false, errors)
      ∧ errors !! str "salary" = Some (str "Salary must be greater than 0")
      ∧ (valid_texts d →
         errors = {[ str "salary" := str "Salary must be greater than 0" ]}).
Proof.
  intros (_ & G & _)%contains_lookup (R & NN & x & F & L)%eq_zero_float.
  assert (check_required d ∅ !! str "salary"
          = Some (str "Salary is required")) as P1.
  { rewrite check_required_eq. unfold required_error at 1.
    rewrite G, R. by rewrite lookup_insert_eq. }
  assert (check_email d (check_required d ∅) !! str "salary"
          = Some (str "Salary is required")) as P2.
  { rewrite check_email_eq. destruct (truthy _); [|done].
    destruct (validate_email _).1; [done|].
    by rewrite lookup_insert_ne by str_neq. }
  split. { by rewrite validate_required_field_eq, R. }
  split; [exact P1|]. split; [exact P2|]. clear P1 P2.
  unfold validate_employee_data. rewrite check_salary_eq, G, NN, F, L.
  eexists. split; [reflexivity|]. split; [|split].
  - simpl. f_equal. f_equal. apply bool_decide_eq_false.
    rewrite map_size_empty_iff. apply insert_non_empty.
  - by rewrite lookup_insert_eq.
  - intros V. rewrite (valid_texts_errors _ V). unfold required_error.
    rewrite G, R. by rewrite insert_insert_eq, insert_empty.
Qed.

Lemma lookup_nonempty (errors : gmap (list N) (list N)) k m :
  errors !! k = Some m → bool_decide (size errors = 0%nat) = false.
Proof.
  intros L. apply bool_decide_eq_false. rewrite map_size_empty_iff.
  intros ->. by rewrite lookup_empty in L.
Qed.

(** C3, amended: validate returns unless the salary is an integer too large
    for a float, and when the email field is present but empty (the empty
    text or another falsy value) the shape check is skipped and the error
    reported for it is the presence error 'Email is required'; the shape
    check runs only when the field is present and truthy: 'Email format is
    invalid' is reported only for a non-empty text that does not match the
    pattern. *)
Theorem empty_email_reports_presence_error d v :
  d !! str "email" = Some v → no_overflow d →
  ∃ b errors,
    validate_employee_data d = Ok (b, errors)
    ∧ (truthy v = false →
       b = false ∧ errors !! str "email" = Some (str "Email is required"))
    ∧ (errors !! str "email" = Some (str "Email format is invalid") →
       ∃ s, v = VStr s ∧ s ≠ [] ∧ matches pattern s = false).
Proof.
  intros (_ & G & _)%contains_lookup (E & S & ->)%validate_employee_data_returns.
  exists (bool_decide (size E = 0%nat)), E. split; [done|].
  assert (E !! str "email" = check_email d (check_required d ∅) !! str "email") as L
    by (apply (check_salary_lookup_ne _ _ _ _ S); str_neq).
  rewrite check_email_eq, G in L.
  destruct (truthy v) eqn:T.
  - split; [done|]. rewrite L.
    destruct (validate_email v) as [ok msg] eqn:VE. simpl. destruct ok.
    + rewrite check_required_lookup_email.
      destruct (required_ok _); [done|]. intros H. vm_compute in H. done.
    + rewrite lookup_insert_eq. intros [= ->].
      destruct v as [| | | |s| |]; simpl in VE;
        try (injection VE as VE; vm_compute in VE; done).
      exists s. split; [done|]. split; [by destruct s|].
      simpl in T. rewrite T in VE. simpl in VE.
      destruct (matches pattern s); [|done].
      injection VE as VE. vm_compute in VE. done.
  - rewrite check_required_lookup_email, G in L.
    unfold required_ok in L. rewrite T in L. simpl in L.
    split.
    + intros _. split; [|done]. by eapply lookup_nonempty.
    + rewrite L. intros H. vm_compute in H. done.
Qed.

(** ** The store *)

#[local] Instance id_le_trans : Transitive id_le.
Proof. unfold id_le. intros a b c. lia. Qed.
#[local] Instance id_le_total : Total id_le.
Proof. unfold id_le. intros a b. lia. Qed.

Lemma elem_of_rows_by_id (t : gmap Z row) i r :
  (i, r) ∈ rows_by_id t ↔ t !! i = Some r.
Proof.
  unfold rows_by_id. rewrite merge_sort_Permutation.
  apply elem_of_map_to_list.
Qed.

Lemma find_is_Some {A} (f : A → bool) (l : list A) x :
  x ∈ l → f x = true → is_Some (List.find f l).
Proof.
  intros I F. destruct (List.find f l) eqn:E; [by eauto|].
  apply list_elem_of_In in I.
  pose proof (find_none f l E x I). congruence.
Qed.

Lemma find_is_None {A} (f : A → bool) (l : list A) :
  (∀ x, x ∈ l → f x = false) → List.find f l = None.
Proof.
  intros N. destruct (List.find f l) eqn:E; [|done].
  apply find_some in E as [I F]. apply list_elem_of_In in I.
  rewrite (N _ I) in F. done.
Qed.

Lemma select_id_by_email_used db i r :
  employees db !! i = Some r →
  ∃ j, select_id_by_email (VStr (row_email r)) db = (Ok (Some j), db).
Proof.
  intros L. unfold select_id_by_email.
  destruct (find_is_Some
              (fun r' : Z * row => sql_text_eq (row_email r'.2) (VStr (row_email r)))
              (rows_by_id (employees db)) (i, r)) as [[j r'] ->].
  - by apply elem_of_rows_by_id.
  - simpl. by apply bool_decide_eq_true.
  - by exists j.
Qed.

Lemma select_id_by_email_unused db e :
  email_unused db e → select_id_by_email (VStr e) db = (Ok None, db).
Proof.
  intros U. unfold select_id_by_email. rewrite find_is_None; [done|].
  intros [i r] I%elem_of_rows_by_id. simpl.
  apply bool_decide_eq_false. by apply (U i).
Qed.

Lemma select_id_by_email_except_found db e i j r :
  employees db !! j = Some r → row_email r = e → j ≠ i →
  ∃ k, select_id_by_email_except (VStr e) i db = (Ok (Some k), db).
Proof.
  intros L E N. unfold select_id_by_email_except.
  destruct (find_is_Some
              (fun r' : Z * row =>
                 sql_text_eq (row_email r'.2) (VStr e) && negb (r'.1 =? i))
              (rows_by_id (employees db)) (j, r)) as [[k r'] ->].
  - by apply elem_of_rows_by_id.
  - simpl. apply andb_true_iff. split; [by apply bool_decide_eq_true|].
    apply negb_true_iff, Z.eqb_neq. done.
  - by exists k.
Qed.

Lemma largest_rowid_ge (t : gmap Z row) i r :
  t !! i = Some r → i ≤ largest_rowid t.
Proof.
  intros L%elem_of_map_to_list. unfold largest_rowid.
  induction (map_to_list t) as [|[j r'] l IH]; [by inversion L|].
  rewrite fmap_cons. cbn [foldr fst].
  apply elem_of_cons in L as [[= <- <-]|L]; [lia|].
  specialize (IH L). lia.
Qed.

Lemma next_rowid_fresh db : employees db !! next_rowid db = None.
Proof.
  destruct (employees db !! next_rowid db) as [r|] eqn:L; [|done].
  apply largest_rowid_ge in L. unfold next_rowid in L. lia.
Qed.

Lemma email_taken_false (t : gmap Z row) e except :
  email_taken t e except = false
  ↔ ∀ i r, t !! i = Some r → Some i ≠ except → row_email r ≠ e.
Proof.
  unfold email_taken. rewrite <- not_true_iff_false, existsb_exists. split.
  - intros N i r L X E. apply N. exists (i, r). split.
    + by apply list_elem_of_In, elem_of_map_to_list.
    + simpl. apply andb_true_iff. split; [by apply bool_decide_eq_true|].
      by apply negb_true_iff, bool_decide_eq_false.
  - intros N ([i r] & I & [E X]%andb_true_iff). simpl in *.
    apply list_elem_of_In, elem_of_map_to_list in I.
    apply bool_decide_eq_true in E.
    apply negb_true_iff, bool_decide_eq_false in X.
    by apply (N i r).
Qed.

Lemma encodable_lstrip s : encodable s = true → encodable (lstrip s) = true.
Proof.
  induction s as [|c s IH]; [done|]. intros E. cbn [lstrip].
  destruct (is_space c); [|done].
  apply IH. cbn [encodable forallb] in E. by apply andb_true_iff in E as [_ E].
Qed.

Lemma encodable_rev s : encodable (rev s) = encodable s.
Proof.
  unfold encodable. induction s as [|c s IH]; [done|].
  cbn [rev]. rewrite forallb_app, IH. cbn [forallb].
  by rewrite andb_true_r, andb_comm.
Qed.

Lemma encodable_strip s : encodable s = true → encodable (strip s) = true.
Proof.
  intros E. unfold strip, rstrip. rewrite encodable_rev.
  apply encodable_lstrip. rewrite encodable_rev. by apply encodable_lstrip.
Qed.

Lemma storable_strip s : storable s = true → encodable (strip s) = true.
Proof. intros [E _]%andb_true_iff. by apply encodable_strip. Qed.

Lemma execute_insert_ok now fn ln em pos x db :
  encodable fn = true → encodable ln = true →
  encodable em = true → encodable pos = true →
  next_rowid db ≤ max_rowid → float_is_nan x = false →
  email_taken (employees db) em None = false →
  execute_insert now fn ln em pos x db
  = (Ok (next_rowid db),
     {| employees :=
          <[next_rowid db :=
              {| row_first_name := fn; row_last_name := ln;
                 row_email := em; row_position := pos;
                 row_salary := x; row_created_at := now |}]>
            (employees db);
        sqlite_sequence := next_rowid db |}).
Proof.
  intros E1 E2 E3 E4 Full NaN T. unfold execute_insert.
  cbn [forallb]. rewrite E1, E2, E3, E4. cbn [andb negb].
  destruct (max_rowid <? next_rowid db) eqn:C; [apply Z.ltb_lt in C; lia|].
  by rewrite NaN, T.
Qed.

Lemma get_employee_by_id_Some db i r :
  employees db !! i = Some r →
  get_employee_by_id i db = (Ok (from_dict (i, r)), db).
Proof.
  intros L. unfold get_employee_by_id, bind, select_by_id. by rewrite L.
Qed.

Lemma get_employee_by_id_None db i :
  bindable i = true →
  employees db !! i = None →
  get_employee_by_id i db = (Raise (not_found i), db).
Proof.
  intros B L. unfold get_employee_by_id, bind, select_by_id. by rewrite L, B.
Qed.

Lemma get_employee_by_id_raises db i e db' :
  get_employee_by_id i db = (Raise e, db') →
  db' = db ∧ employees db !! i = None
  ∧ (e = not_found i ∨ e = OverflowError).
Proof.
  unfold get_employee_by_id, bind, select_by_id.
  destruct (employees db !! i); [done|].
  destruct (bindable i); intros [= <- <-]; eauto.
Qed.

Lemma bindable_range i : min_rowid ≤ i ≤ max_rowid → bindable i = true.
Proof.
  intros [H1 H2]. unfold bindable.
  by rewrite (proj2 (Z.leb_le _ _) H1), (proj2 (Z.leb_le _ _) H2).
Qed.

(** ** Delete *)


(** ** List *)

Lemma strictly_sorted (l : list (Z * row)) :
  StronglySorted id_le l → NoDup l.*1 → StronglySorted row_lt l.
Proof.
  induction 1 as [|x l S IH F]; [constructor|].
  rewrite fmap_cons. intros [NI ND]%NoDup_cons.
  constructor; [by apply IH|].
  rewrite Forall_forall in F |- *. intros y I.
  specialize (F y I). unfold id_le in F. unfold row_lt.
  assert (x.1 ≠ y.1); [|lia].
  intros E. apply NI. rewrite E. by apply list_elem_of_fmap_2.
Qed.

Lemma rows_by_id_sorted (t : gmap Z row) : StronglySorted row_lt (rows_by_id t).
Proof.
  apply strictly_sorted.
  - apply StronglySorted_merge_sort; apply _.
  - unfold rows_by_id. rewrite merge_sort_Permutation.
    apply NoDup_fst_map_to_list.
Qed.

Lemma sorted_NoDup (l : list Employee) : StronglySorted id_lt l → NoDup l.
Proof.
  induction 1 as [|x l S IH F]; constructor; [|done].
  intros I. rewrite Forall_forall in F. specialize (F x I).
  unfold id_lt in F. destruct (id x); [lia|done].
Qed.

(** C9: the listing is in strictly ascending order of [id] and cut by limit
    and offset, for a limit and an offset that are not negative and fit 64
    bits; over a store of four employees, limit 2 with offset 0 and limit 2
    with offset 2 return the first two and the last two of them: two
    disjoint pairs, each ascending, that together are all four. *)
Theorem get_all_employees_pages db :
  ∃ all,
    all ≡ₚ from_dict <$> map_to_list (employees db)
    ∧ StronglySorted id_lt all
    ∧ NoDup all
    ∧ (∀ limit offset, 0 ≤ limit ≤ max_rowid → 0 ≤ offset ≤ max_rowid →
         get_all_employees limit offset db
         = (Ok (take (Z.to_nat limit) (drop (Z.to_nat offset) all)), db))
    ∧ (size (employees db) = 4%nat →
       ∃ e1 e2 e3 e4,
         all = [e1; e2; e3; e4]
         ∧ get_all_employees 2 0 db = (Ok [e1; e2], db)
         ∧ get_all_employees 2 2 db = (Ok [e3; e4], db)).
Proof.
  set (all := from_dict <$> rows_by_id (employees db)).
  assert (StronglySorted id_lt all) as S.
  { apply (StronglySorted_fmap _ row_lt); [|apply rows_by_id_sorted].
    by intros [i r] [j r']. }
  assert (∀ limit offset, 0 ≤ limit ≤ max_rowid → 0 ≤ offset ≤ max_rowid →
            get_all_employees limit offset db
            = (Ok (take (Z.to_nat limit) (drop (Z.to_nat offset) all)), db)) as P.
  { intros limit offset Hl Ho. unfold get_all_employees, bind, select_page, ret.
    rewrite !bindable_range by (unfold min_rowid; lia). cbn [andb negb].
    destruct (limit <? 0) eqn:C; [apply Z.ltb_lt in C; lia|].
    unfold all. by rewrite fmap_take, fmap_drop. }
  exists all. repeat split; try done.
  - unfold all, rows_by_id. by rewrite merge_sort_Permutation.
  - by apply sorted_NoDup.
  - intros Sz.
    assert (length all = 4%nat) as Len.
    { unfold all, rows_by_id.
      by rewrite length_fmap, merge_sort_Permutation, length_map_to_list. }
    destruct all as [|e1 [|e2 [|e3 [|e4 [|]]]]]; try done.
    exists e1, e2, e3, e4. split; [done|].
    split; rewrite P by (unfold max_rowid; lia); reflexivity.
Qed.

(** ** Running a computation step by step *)

Lemma bind_ok {A B : Type} (m : M A) (k : A → M B) db a db' :
  m db = (Ok a, db') → bind m k db = k a db'.
Proof. unfold bind. by intros ->. Qed.

Lemma bind_raise {A B : Type} (m : M A) (k : A → M B) db e db' :
  m db = (Raise e, db') → bind m k db = (Raise e, db').
Proof. unfold bind. by intros ->. Qed.

Lemma lift_eq {A : Type} (r v : res A) db : r = v → lift r db = (v, db).
Proof. by intros ->. Qed.

Lemma lift_getitem (d : gmap (list N) pyval) k v db :
  d !! k = Some v → lift (getitem d k) db = (Ok v, db).
Proof. intros L. unfold lift, getitem. by rewrite L. Qed.

Lemma lift_getitem_conv {A : Type} (d : gmap (list N) pyval) k v (conv : pyval → res A) db :
  d !! k = Some v → lift (res_bind (getitem d k) conv) db = (conv v, db).
Proof. intros L. unfold lift, getitem. by rewrite L. Qed.

(** Run the next step of a computation, given its outcome. *)
Ltac exec H := erewrite bind_ok by (exact H || apply H).

(** ** Create *)

(** C1, amended: for every state of the store and every input mapping that
    passes validation and whose email equals the email of some persisted
    employee, create fails with [UniqueConstraintError] keyed 'email' and the
    store, hence the set and the count of persisted employees, is unchanged. *)
Theorem create_employee_duplicate_email now d db i r errors :
  validate_employee_data d = Ok (true, errors) →
  employees db !! i = Some r →
  d !! str "email" = Some (VStr (row_email r)) →
  create_employee now d db = (Raise (exists_error (row_email r)), db).
Proof.
  intros V L G.
  unfold create_employee.
  exec (lift_eq _ _ db V). cbn [negb].
  exec (lift_getitem _ _ _ db G).
  destruct (select_id_by_email_used _ _ _ L) as [j S]. exec S.
  reflexivity.
Qed.

Lemma truthy_get_lookup (d : gmap (list N) pyval) k :
  truthy (get d k) = true → d !! k = Some (get d k).
Proof. unfold get. by destruct (d !! k). Qed.

(** C4, amended: for every input mapping with valid fields whose names,
    email and position are texts the store takes, whose email is not in use
    as given or trimmed and whose salary converts to a number, create returns
    a record that a get of the returned id yields again; its text fields are
    the input's with the surrounding white space trimmed and its salary is
    the input's converted to a float, with [id] and [created_at]
    populated. *)
Theorem create_employee_then_get now d db fn ln em pos x errors :
  validate_employee_data d = Ok (true, errors) →
  d !! str "first_name" = Some (VStr fn) →
  d !! str "last_name" = Some (VStr ln) →
  d !! str "email" = Some (VStr em) →
  d !! str "position" = Some (VStr pos) →
  storable fn = true → storable ln = true →
  storable em = true → storable pos = true →
  py_float (get d (str "salary")) = Ok x →
  float_is_nan x = false →
  email_unused db em → email_unused db (strip em) →
  next_rowid db ≤ max_rowid →
  ∃ e db',
    create_employee now d db = (Ok e, db')
    ∧ get_employee_by_id (next_rowid db) db' = (Ok e, db')
    ∧ e = {| id := Some (next_rowid db);
             first_name := strip fn; last_name := strip ln;
             email := strip em; position := strip pos;
             salary := x; created_at := Some now |}
    ∧ size (employees db') = S (size (employees db)).
Proof.
  intros V G1 G2 G3 G4 S1 S2 S3 S4 F NaN U U' Full.
  pose proof (validate_employee_data_true _ _ V) as (_ & _ & R & _).
  apply required_ok_truthy, truthy_get_lookup in R.
  set (r := {| row_first_name := strip fn; row_last_name := strip ln;
               row_email := strip em; row_position := strip pos;
               row_salary := x; row_created_at := now |}).
  set (db' := {| employees := <[next_rowid db := r]> (employees db);
                 sqlite_sequence := next_rowid db |}).
  assert (execute_insert now (strip fn) (strip ln) (strip em) (strip pos) x db
          = (Ok (next_rowid db), db')) as I.
  { apply execute_insert_ok; try done; try by apply storable_strip.
    apply email_taken_false. intros j r' L _. by apply (U' j). }
  assert (get_employee_by_id (next_rowid db) db'
          = (Ok (from_dict (next_rowid db, r)), db')) as G.
  { apply get_employee_by_id_Some. apply lookup_insert_eq. }
  exists (from_dict (next_rowid db, r)), db'. split; [|split; [|split]].
  - unfold create_employee.
    exec (lift_eq _ _ db V). cbn [negb].
    exec (lift_getitem _ _ _ db G3).
    exec (select_id_by_email_unused _ _ U).
    rewrite bool_decide_eq_false_2 by (by intros [? ?]).
    exec (lift_getitem_conv _ _ _ py_strip db G1).
    exec (lift_getitem_conv _ _ _ py_strip db G2).
    exec (lift_getitem_conv _ _ _ py_strip db G3).
    exec (lift_getitem_conv _ _ _ py_strip db G4).
    erewrite bind_ok by (rewrite (lift_getitem_conv _ _ _ py_float db R), F; reflexivity).
    exec I. exact G.
  - exact G.
  - reflexivity.
  - apply map_size_insert_None, next_rowid_fresh.
Qed.

(** C8: a request whose [first_name] is the number 123 passes validation,
    which asks of a name only that it be truthy, and create then calls
    [strip] on it: the failure that leaves create is an [AttributeError],
    none of the three kinds of the service and not a storage failure. *)
Theorem create_employee_numeric_first_name now db :
  email_unused db (str "a@b.co") →
  validate_employee_data numeric_first_name = Ok (true, ∅)
  ∧ create_employee now numeric_first_name db = (Raise AttributeError, db).
Proof.
  intros U.
  assert (validate_employee_data numeric_first_name = Ok (true, ∅)) as V
    by (vm_compute; reflexivity).
  split; [exact V|].
  unfold create_employee.
  exec (lift_eq _ _ db V). cbn [negb].
  erewrite bind_ok by (by apply lift_getitem).
  exec (select_id_by_email_unused _ _ U).
  rewrite bool_decide_eq_false_2 by (by intros [? ?]).
  erewrite bind_raise; [reflexivity|].
  by rewrite (lift_getitem_conv _ _ (VInt 123)).
Qed.

(** ** Update *)

Lemma get_update_data d e :
  get (update_data d e) (str "first_name")
  = get_default d (str "first_name") (VStr (first_name e))
  ∧ get (update_data d e) (str "last_name")
    = get_default d (str "last_name") (VStr (last_name e))
  ∧ get (update_data d e) (str "email")
    = get_default d (str "email") (VStr (email e))
  ∧ get (update_data d e) (str "position")
    = get_default d (str "position") (VStr (position e))
  ∧ get (update_data d e) (str "salary")
    = get_default d (str "salary") (VFloat (salary e)).
Proof.
  unfold get, update_data. cbn [list_to_map foldr uncurry fst snd].
  repeat split.
Qed.

Lemma provided_absent {A : Type} (d : gmap (list N) pyval) k
    (conv : pyval → res A) col db :
  d !! k = None → provided d k conv col db = (Ok [], db).
Proof. intros [C _]%contains_None. unfold provided. by rewrite C. Qed.


Lemma get_default_None (d : gmap (list N) pyval) k v :
  d !! k = None → get_default d k v = v.
Proof. unfold get_default. by intros ->. Qed.

Lemma get_default_Some (d : gmap (list N) pyval) k v w :
  d !! k = Some w → get_default d k v = w.
Proof. unfold get_default. by intros ->. Qed.

Lemma strip_nil : strip [] = [].
Proof. reflexivity. Qed.

Lemma required_ok_text p : strip p ≠ [] → required_ok (VStr p) = true.
Proof.
  intros NB. unfold required_ok. simpl.
  destruct p; [by rewrite strip_nil in NB|]. by destruct (strip _).
Qed.


Lemma no_conflict_ret {A : Type} (a : A) : no_conflict (ret a).
Proof. by intros db errs. Qed.

Lemma no_conflict_lift {A : Type} (r : res A) :
  res_no_conflict r → no_conflict (lift r).
Proof. intros H db errs. apply H. Qed.

Lemma no_conflict_bind {A B : Type} (m : M A) (k : A → M B) :
  no_conflict m → (∀ a, no_conflict (k a)) → no_conflict (bind m k).
Proof.
  intros Hm Hk db errs. unfold bind.
  specialize (Hm db errs). destruct (m db) as [[a|e] db'].
  - apply Hk.
  - simpl in *. intros [= ->]. by apply Hm.
Qed.

Lemma no_conflict_validation {A : Type} errors :
  no_conflict (raise (A := A) (ValidationError errors)).
Proof. by intros db errs. Qed.

Lemma validate_employee_data_raises d e :
  validate_employee_data d = Raise e → e = OverflowError.
Proof.
  unfold validate_employee_data. rewrite check_salary_eq.
  destruct (is_none _); [done|].
  destruct (py_float _) as [x|e']; [done|].
  destruct e'; simpl; try done. by intros [= <-].
Qed.

Lemma res_no_conflict_validate d : res_no_conflict (validate_employee_data d).
Proof. intros errs H. by apply validate_employee_data_raises in H. Qed.

Lemma res_no_conflict_strip d k : res_no_conflict (res_bind (getitem d k) py_strip).
Proof.
  intros errs. unfold getitem. destruct (d !! k) as [v|]; [|done].
  by destruct v.
Qed.

Lemma res_no_conflict_float d k : res_no_conflict (res_bind (getitem d k) py_float).
Proof.
  intros errs. unfold getitem. destruct (d !! k) as [v|]; [|done].
  simpl. intros H. by destruct (py_float_raises _ _ H) as [?|[?|?]].
Qed.

Lemma no_conflict_provided {A : Type} d k (conv : pyval → res A) col :
  res_no_conflict (res_bind (getitem d k) conv) →
  no_conflict (provided d k conv col).
Proof.
  intros H. unfold provided. destruct (contains d k).
  - apply no_conflict_bind; [by apply no_conflict_lift|].
    intros a. apply no_conflict_ret.
  - apply no_conflict_ret.
Qed.

Lemma no_conflict_execute_update fields i : no_conflict (execute_update fields i).
Proof.
  intros db errs. unfold execute_update.
  destruct (existsb unencodable fields); [done|].
  destruct (employees db !! i); [|done]. by destruct (existsb _ _).
Qed.

Lemma no_conflict_get i : no_conflict (get_employee_by_id i).
Proof.
  intros db errs. unfold get_employee_by_id, bind, select_by_id.
  destruct (employees db !! i); [done|]. by destruct (bindable i).
Qed.

Lemma no_conflict_update_provided i d : no_conflict (update_provided i d).
Proof.
  unfold update_provided.
  repeat (apply no_conflict_bind;
          [ apply no_conflict_provided;
            first [apply res_no_conflict_strip | apply res_no_conflict_float]
          | intros ? ]).
  destruct (_ ++ _).
  - apply no_conflict_ret.
  - apply no_conflict_bind; [apply no_conflict_execute_update|].
    intros _. apply no_conflict_ret.
Qed.

(** C6, amended: for two distinct persisted employees A and B, an update of
    A with a mapping whose email equals B's and whose merged candidate record
    passes validation fails with [UniqueConstraintError] and the store, A's
    row included, is unchanged; and an update of A with a mapping that holds
    A's own current email never raises [UniqueConstraintError]. *)
Theorem update_employee_email_conflict db a b ra rb d errors :
  unique_emails db →
  employees db !! a = Some ra → employees db !! b = Some rb → a ≠ b →
  d !! str "email" = Some (VStr (row_email rb)) →
  validate_employee_data (update_data d (from_dict (a, ra))) = Ok (true, errors) →
  update_employee a d db = (Raise (exists_error (row_email rb)), db)
  ∧ ∀ d' errs,
      d' !! str "email" = Some (VStr (row_email ra)) →
      (update_employee a d' db).1 ≠ Raise (UniqueConstraintError errs).
Proof.
  intros U La Lb Nab G V. split.
  - unfold update_employee.
    exec (get_employee_by_id_Some _ _ _ La).
    exec (lift_eq _ _ db V). cbn [negb].
    erewrite bind_raise; [reflexivity|].
    unfold check_duplicate.
    destruct (contains_lookup _ _ _ G) as (-> & -> & _).
    assert (ne_str (VStr (row_email rb)) (email (from_dict (a, ra))) = true) as ->.
    { simpl. apply negb_true_iff, bool_decide_eq_false.
      intros E. apply Nab. symmetry. by apply (U b a rb ra). }
    cbn [andb].
    destruct (select_id_by_email_except_found db (row_email rb) a b rb Lb eq_refl)
      as [k S]; [done|].
    exec S. reflexivity.
  - intros d' errs G'. unfold update_employee.
    exec (get_employee_by_id_Some _ _ _ La).
    revert db La Lb U errs. intros db _ _ _.
    apply no_conflict_bind;
      [apply no_conflict_lift, res_no_conflict_validate|].
    intros [is_valid errors']. destruct is_valid; cbn [negb];
      [|apply no_conflict_validation].
    apply no_conflict_bind.
    + unfold check_duplicate.
      destruct (contains_lookup _ _ _ G') as (-> & -> & _).
      assert (ne_str (VStr (row_email ra)) (email (from_dict (a, ra))) = false) as ->.
      { simpl. apply negb_false_iff. by apply bool_decide_eq_true. }
      apply no_conflict_ret.
    + intros _. apply no_conflict_bind; [apply no_conflict_update_provided|].
      intros _. apply no_conflict_get.
Qed.

(** ** The stored rows satisfy validation

    What create and update write passes the checks that admitted it, and the
    [UNIQUE] constraint is kept: every store reached from the empty one by
    the operations of the service has valid rows with distinct emails. *)

Lemma lstrip_nonspace c s : is_space c = false → lstrip (c :: s) = c :: s.
Proof. intros H. simpl. by rewrite H. Qed.

Lemma lstrip_snoc s c : is_space c = false → lstrip (s ++ [c]) = lstrip s ++ [c].
Proof.
  intros H. induction s as [|a s IH]; simpl.
  - by rewrite H.
  - destruct (is_space a); [exact IH|done].
Qed.

Lemma lstrip_cases s :
  lstrip s = [] ∨ ∃ c t, lstrip s = c :: t ∧ is_space c = false.
Proof.
  induction s as [|a s IH]; simpl; [by left|].
  destruct (is_space a) eqn:E; [exact IH|]. right. by exists a, s.
Qed.

Lemma rstrip_cons c s : is_space c = false → rstrip (c :: s) = c :: rstrip s.
Proof.
  intros H. unfold rstrip. simpl rev.
  rewrite (lstrip_snoc _ _ H), rev_app_distr. reflexivity.
Qed.

Lemma rstrip_idem s : rstrip (rstrip s) = rstrip s.
Proof.
  unfold rstrip. rewrite rev_involutive.
  destruct (lstrip_cases (rev s)) as [->|(c & t & -> & H)]; [done|].
  by rewrite (lstrip_nonspace _ _ H).
Qed.

Lemma strip_cases s :
  strip s = [] ∨ ∃ c t, lstrip s = c :: t ∧ is_space c = false
                        ∧ strip s = c :: rstrip t.
Proof.
  unfold strip. destruct (lstrip_cases s) as [->|(c & t & E & H)]; [by left|].
  right. exists c, t. rewrite E. by rewrite (rstrip_cons _ _ H).
Qed.

Lemma strip_idem s : strip (strip s) = strip s.
Proof.
  destruct (strip_cases s) as [->|(c & t & _ & H & ->)]; [done|].
  unfold strip. rewrite (lstrip_nonspace _ _ H), (rstrip_cons _ _ H).
  by rewrite rstrip_idem.
Qed.

Lemma required_ok_strip s :
  required_ok (VStr s) = true → required_ok (VStr (strip s)) = true.
Proof.
  unfold required_ok. simpl. rewrite strip_idem.
  destruct s; [done|]. destruct (strip _); [done|]. done.
Qed.

Lemma lstrip_all_nonspace s :
  Forall (fun c => is_space c = false) s → lstrip s = s.
Proof. intros [|c t H _]; [done|]. by apply lstrip_nonspace. Qed.

Lemma strip_nonspace s :
  Forall (fun c => is_space c = false) s → strip s = s.
Proof.
  intros F. unfold strip, rstrip. rewrite (lstrip_all_nonspace _ F).
  rewrite lstrip_all_nonspace by by apply Forall_rev.
  apply rev_involutive.
Qed.

Lemma strip_newline s :
  Forall (fun c => is_space c = false) s → strip (s ++ [10%N]) = s.
Proof.
  intros F. unfold strip, rstrip.
  destruct s as [|c t]; [done|].
  assert (lstrip ((c :: t) ++ [10%N]) = (c :: t) ++ [10%N]) as ->
    by (apply lstrip_nonspace; by inversion F).
  rewrite rev_app_distr.
  change (lstrip (rev [10%N] ++ rev (c :: t))) with (lstrip (rev (c :: t))).
  rewrite lstrip_all_nonspace by by apply Forall_rev.
  apply rev_involutive.
Qed.

Lemma nullable_lang r : nullable r = true ↔ lang r [].
Proof.
  induction r as [| |p|r1 IH1 r2 IH2|r1 IH1 r2 IH2|r1 IH]; simpl.
  - split; [done|tauto].
  - done.
  - split; [done|]. by intros (c & ? & _).
  - rewrite andb_true_iff, IH1, IH2. split.
    + intros [H1 H2]. by exists [], [].
    + intros (s1 & s2 & E & H1 & H2). symmetry in E.
      apply app_eq_nil in E as [-> ->]. done.
  - by rewrite orb_true_iff, IH1, IH2.
  - split; [|done]. intros _. constructor.
Qed.

Lemma star_cons (L : list N → Prop) c s :
  star L (c :: s) → ∃ s1 s2, s = s1 ++ s2 ∧ L (c :: s1) ∧ star L s2.
Proof.
  intros H. remember (c :: s) as w eqn:E. revert c s E.
  induction H as [|s1 s2 H1 H2 IH]; intros c s E; [done|].
  destruct s1 as [|c' s1]; simpl in E.
  - by apply IH.
  - injection E as -> <-. by exists s1, s2.
Qed.

Lemma deriv_lang c r s : lang (deriv c r) s ↔ lang r (c :: s).
Proof.
  revert s. induction r as [| |p|r1 IH1 r2 IH2|r1 IH1 r2 IH2|r1 IH];
    intros s; simpl.
  - done.
  - split; [tauto|done].
  - destruct (p c) eqn:P; simpl.
    + split; [intros ->; by exists c|]. intros (c' & E & _). by injection E.
    + split; [tauto|]. intros (c' & E & P'). injection E as -> _. congruence.
  - assert ((∃ s1 s2, s = s1 ++ s2 ∧ lang (deriv c r1) s1 ∧ lang r2 s2)
            ∨ (lang r1 [] ∧ lang r2 (c :: s))
            ↔ ∃ s1 s2, c :: s = s1 ++ s2 ∧ lang r1 s1 ∧ lang r2 s2) as K.
    { split.
      - intros [(s1 & s2 & -> & H1 & H2)|[H1 H2]].
        + exists (c :: s1), s2. by rewrite <- IH1.
        + by exists [], (c :: s).
      - intros (s1 & s2 & E & H1 & H2). destruct s1 as [|c' s1]; simpl in E.
        + right. by subst s2.
        + injection E as <- ->. left. exists s1, s2. by rewrite IH1. }
    rewrite <- K. destruct (nullable r1) eqn:Nu; simpl.
    + rewrite IH2. apply nullable_lang in Nu. tauto.
    + split; [tauto|]. intros [?|[H1 _]]; [done|].
      apply nullable_lang in H1. congruence.
  - by rewrite IH1, IH2.
  - split.
    + intros (s1 & s2 & -> & H1 & H2). apply IH in H1.
      by apply (star_app _ (c :: s1) s2).
    + intros (s1 & s2 & -> & H1 & H2)%star_cons.
      exists s1, s2. by rewrite IH.
Qed.

Lemma matches_lang r s : matches r s = true ↔ lang r s.
Proof.
  revert r. induction s as [|c s IH]; intros r; simpl.
  - apply nullable_lang.
  - by rewrite IH, deriv_lang.
Qed.

Lemma lang_classes_within P r s :
  classes_within P r → lang r s → Forall P s.
Proof.
  revert s. induction r as [| |p|r1 IH1 r2 IH2|r1 IH1 r2 IH2|r1 IH];
    intros s C; simpl in *.
  - done.
  - by intros ->.
  - intros (c & -> & H). repeat constructor. by apply C.
  - destruct C as [C1 C2].
    intros (s1 & s2 & -> & H1 & H2). apply Forall_app. split.
    + by apply IH1.
    + by apply IH2.
  - destruct C as [C1 C2]. intros [H|H]; [by apply IH1|by apply IH2].
  - induction 1 as [|s1 s2 H1 _ IH']; [constructor|].
    apply Forall_app. split; [by apply IH|done].
Qed.

Lemma address_classes :
  classes_within (fun c => is_space c = false) address.
Proof.
  assert (∀ c, (33 <= c <= 126)%N → is_space c = false) as K.
  { intros c H. unfold is_space.
    repeat match goal with
           | |- context [(?a <=? ?b)%N] =>
               first [ rewrite (proj2 (N.leb_gt a b)) by lia
                     | rewrite (proj2 (N.leb_le a b)) by lia ]
           | |- context [(?a =? ?b)%N] =>
               rewrite (proj2 (N.eqb_neq a b)) by lia
           end.
    reflexivity. }
  unfold address, Plus, AtLeast2, Chr, alnum, alpha, one_of, range, chr, str.
  cbn -[N.leb N.eqb is_space].
  repeat split; intros c H; apply K;
    repeat match goal with
           | H : _ || _ = true |- _ => apply orb_true_iff in H as [H|H]
           | H : _ && _ = true |- _ => apply andb_true_iff in H as [? ?]
           | H : (_ <=? _)%N = true |- _ => apply N.leb_le in H
           | H : (_ =? _)%N = true |- _ => apply N.eqb_eq in H
           end; try discriminate; lia.
Qed.

Lemma lang_pattern s :
  lang pattern s ↔ ∃ body, lang address body ∧ (s = body ∨ s = body ++ [10%N]).
Proof.
  unfold pattern, address, End. cbn -[N.eqb N.leb]. split.
  - intros (s1 & t1 & -> & H1 & s2 & t2 & -> & H2 & s3 & t3 & -> & H3
            & s4 & t4 & -> & H4 & s5 & e & -> & H5 & He).
    exists (s1 ++ s2 ++ s3 ++ s4 ++ s5). split.
    + exists s1, (s2 ++ s3 ++ s4 ++ s5). split; [done|]. split; [done|].
      exists s2, (s3 ++ s4 ++ s5). split; [done|]. split; [done|].
      exists s3, (s4 ++ s5). split; [done|]. split; [done|].
      by exists s4, s5.
    + destruct He as [->|(c & -> & ->%N.eqb_eq)].
      * left. by rewrite app_nil_r.
      * right. by rewrite <- !app_assoc.
  - intros (body & (s1 & t1 & -> & H1 & s2 & t2 & -> & H2 & s3 & t3 & -> & H3
                    & s4 & s5 & -> & H4 & H5) & E).
    assert (∃ e, s = s1 ++ s2 ++ s3 ++ s4 ++ s5 ++ e
                 ∧ (e = [] ∨ ∃ c, e = [c] ∧ (10 =? c)%N = true)) as (e & -> & He).
    { destruct E as [->| ->].
      - exists []. rewrite app_nil_r. by split; [|left].
      - exists [10%N]. rewrite <- !app_assoc. split; [done|]. right. by exists 10%N. }
    exists s1, (s2 ++ s3 ++ s4 ++ s5 ++ e). split; [done|]. split; [done|].
    exists s2, (s3 ++ s4 ++ s5 ++ e). split; [done|]. split; [done|].
    exists s3, (s4 ++ s5 ++ e). split; [done|]. split; [done|].
    exists s4, (s5 ++ e). split; [done|]. split; [done|].
    by exists s5, e.
Qed.

Lemma lang_address_nonempty s : lang address s → s ≠ [].
Proof.
  unfold address. simpl.
  intros (s1 & t1 & -> & _ & s2 & t2 & -> & (c & -> & _) & _).
  by destruct s1.
Qed.

(** Trimming a matching e-mail address leaves a matching, non-blank one. *)
Lemma matches_pattern_strip s :
  matches pattern s = true →
  matches pattern (strip s) = true ∧ strip s ≠ [] ∧ strip (strip s) ≠ [].
Proof.
  rewrite !matches_lang, lang_pattern. intros (body & B & E).
  assert (strip s = body) as ->.
  { pose proof (lang_classes_within _ _ _ address_classes B) as F.
    destruct E as [-> | ->]; [by apply strip_nonspace|by apply strip_newline]. }
  rewrite strip_nonspace
    by exact (lang_classes_within _ _ _ address_classes B).
  pose proof (lang_address_nonempty _ B).
  split; [|done]. apply lang_pattern. exists body. by split; [|left].
Qed.

Lemma validate_email_is_text v :
  (validate_email v).1 = true → ∃ s, v = VStr s.
Proof. destruct v; try done. eauto. Qed.

Lemma validate_email_text s :
  (validate_email (VStr s)).1 = true ↔ s ≠ [] ∧ matches pattern s = true.
Proof.
  unfold validate_email. destruct s as [|c s].
  - simpl. split; [done|]. by intros [? _].
  - cbn [truthy negb]. destruct (matches pattern (c :: s)); cbn [negb fst].
    + by split.
    + split; [done|]. by intros [_ ?].
Qed.

Lemma required_ok_float x :
  float_le0 x = false → required_ok (VFloat x) = true.
Proof. by destruct x as [[]| | |]. Qed.

Lemma valid_row_validates i r :
  valid_row r →
  validate_employee_data (update_data ∅ (from_dict (i, r))) = Ok (true, ∅).
Proof.
  intros (H1 & H2 & H3 & H4 & H5 & H6 & H7).
  apply validate_employee_data_valid.
  destruct (get_update_data ∅ (from_dict (i, r))) as (E1 & E2 & E3 & E4 & E5).
  unfold valid_fields, valid_texts. rewrite E1, E2, E3, E4, E5.
  rewrite !get_default_None by apply lookup_empty. simpl.
  repeat split; try done.
  - apply validate_email_text. split; [|done]. by destruct (row_email r).
  - by apply required_ok_float.
  - by exists (row_salary r).
Qed.

Lemma execute_insert_consistent now fn ln em pos x db i db' :
  consistent db →
  required_ok (VStr fn) = true → required_ok (VStr ln) = true →
  required_ok (VStr em) = true → matches pattern em = true →
  required_ok (VStr pos) = true → float_le0 x = false →
  execute_insert now fn ln em pos x db = (Ok i, db') →
  consistent db'.
Proof.
  intros [Vr Un] H1 H2 H3 H4 H5 H6. unfold execute_insert.
  destruct (negb _); [done|].
  destruct (max_rowid <? next_rowid db); [done|].
  destruct (float_is_nan x) eqn:NaN; [done|].
  destruct (email_taken _ _ _) eqn:T; [done|].
  intros [= <- <-]. pose proof (next_rowid_fresh db) as Fr.
  rewrite email_taken_false in T. split.
  - intros j r. simpl. rewrite lookup_insert. case_decide.
    + intros [= <-]. by repeat split.
    + apply Vr.
  - intros j k rj rk. simpl. rewrite !lookup_insert.
    repeat case_decide; subst; try done.
    + intros [= <-] L E. simpl in E. by destruct (T k rk L).
    + intros L [= <-] E. simpl in E. by destruct (T j rj L).
    + apply Un.
Qed.

Lemma assign_valid_row t i fields r :
  valid_row r → Forall valid_assignment fields →
  existsb (violates t i) fields = false →
  valid_row (fold_left assign fields r).
Proof.
  intros V F. revert r V. induction F as [|a fields Ha F IH]; intros r V; [done|].
  simpl. intros [Na N]%orb_false_iff. apply IH; [|done].
  destruct V as (H1 & H2 & H3 & H4 & H5 & H6 & H7).
  destruct a; simpl in *; repeat split; try done; by destruct Ha.
Qed.

Lemma assign_email t i fields r :
  existsb (violates t i) fields = false →
  row_email (fold_left assign fields r) = row_email r
  ∨ email_taken t (row_email (fold_left assign fields r)) (Some i) = false.
Proof.
  revert r. induction fields as [|a fields IH]; intros r; [by left|].
  simpl. intros [Na N]%orb_false_iff.
  destruct (IH (assign r a) N) as [E|E]; [|by right].
  rewrite E. destruct a; simpl in *; auto.
Qed.

Lemma execute_update_consistent fields i db n db' :
  consistent db → Forall valid_assignment fields →
  execute_update fields i db = (Ok n, db') →
  consistent db'.
Proof.
  intros [Vr Un] F. unfold execute_update.
  destruct (existsb unencodable fields); [done|].
  destruct (employees db !! i) as [r|] eqn:L; [|by intros [= <- <-]].
  destruct (existsb _ _) eqn:X; [done|]. intros [= <- <-]. split.
  - intros j rj. simpl. rewrite lookup_insert. case_decide.
    + intros [= <-]. eapply assign_valid_row; eauto.
    + apply Vr.
  - assert (∀ j rj, employees db !! j = Some rj → j ≠ i →
                    row_email rj ≠ row_email (fold_left assign fields r)) as K.
    { intros j rj Lj Nj E.
      destruct (assign_email _ _ _ r X) as [E'|T].
      - apply Nj. apply (Un j i rj r Lj L). by rewrite E.
      - rewrite email_taken_false in T.
        apply (T j rj Lj); [by intros [= ->]|done]. }
    intros j k rj rk. simpl. rewrite !lookup_insert.
    repeat case_decide; subst; try done.
    + intros [= <-] Lk E. by destruct (K k rk Lk).
    + intros Lj [= <-] E. by destruct (K j rj Lj).
    + apply Un.
Qed.

Lemma execute_delete_consistent i db n db' :
  consistent db → execute_delete i db = (Ok n, db') → consistent db'.
Proof.
  intros [Vr Un]. unfold execute_delete.
  destruct (employees db !! i); intros [= <- <-]; [|done]. split.
  - intros j rj. simpl. intros [_ L]%lookup_delete_Some. by apply (Vr j).
  - intros j k rj rk. simpl.
    intros [_ Lj]%lookup_delete_Some [_ Lk]%lookup_delete_Some.
    by apply Un.
Qed.

Lemma bind_state {A B : Type} (P : Database → Prop) (m : M A) (k : A → M B) db :
  P (m db).2 → (∀ a db', m db = (Ok a, db') → P (k a db').2) →
  P (bind m k db).2.
Proof.
  intros Hm Hk. unfold bind. destruct (m db) as [[a|e] db'] eqn:E; [|done].
  by apply Hk.
Qed.

Lemma lift_inv {A : Type} (r : res A) db a db' :
  lift r db = (Ok a, db') → r = Ok a ∧ db' = db.
Proof. by intros [= -> ->]. Qed.

Lemma getitem_strip_inv (d : gmap (list N) pyval) k s :
  res_bind (getitem d k) py_strip = Ok s →
  ∃ s0, d !! k = Some (VStr s0) ∧ s = strip s0.
Proof.
  unfold getitem. destruct (d !! k) as [[]|]; simpl; try done.
  intros [= <-]. eauto.
Qed.

Lemma getitem_float_inv (d : gmap (list N) pyval) k x :
  res_bind (getitem d k) py_float = Ok x →
  ∃ v, d !! k = Some v ∧ py_float v = Ok x.
Proof. unfold getitem. destruct (d !! k); simpl; [eauto|done]. Qed.

Lemma get_employee_by_id_state i db : (get_employee_by_id i db).2 = db.
Proof.
  unfold get_employee_by_id, bind, select_by_id.
  destruct (employees db !! i); [done|]. by destruct (bindable i).
Qed.

Lemma execute_insert_raise now fn ln em pos x db e db' :
  execute_insert now fn ln em pos x db = (Raise e, db') → db' = db.
Proof.
  unfold execute_insert.
  repeat match goal with |- context [if ?b then _ else _] => destruct b end;
    by intros [= <-].
Qed.

Lemma execute_update_raise fields i db e db' :
  execute_update fields i db = (Raise e, db') → db' = db.
Proof.
  unfold execute_update. destruct (existsb unencodable fields); [by intros [= <-]|].
  destruct (employees db !! i); [|done].
  destruct (existsb _ _); by intros [= <-].
Qed.

Lemma valid_text_strip (d : gmap (list N) pyval) k s :
  required_ok (get d k) = true → d !! k = Some (VStr s) →
  required_ok (VStr (strip s)) = true.
Proof.
  intros R (_ & G & _)%contains_lookup. rewrite G in R.
  by apply required_ok_strip.
Qed.

Lemma valid_email_strip (d : gmap (list N) pyval) k s :
  (validate_email (get d k)).1 = true → d !! k = Some (VStr s) →
  required_ok (VStr (strip s)) = true ∧ matches pattern (strip s) = true.
Proof.
  intros R (_ & G & _)%contains_lookup. rewrite G in R.
  apply validate_email_text in R as [_ (Mt & NE & NB)%matches_pattern_strip].
  split; [|done]. by apply required_ok_text.
Qed.

(** Create keeps the store consistent. *)
Lemma create_employee_consistent now d db :
  consistent db → consistent (create_employee now d db).2.
Proof.
  intros C. unfold create_employee.
  apply bind_state; [done|]. intros [b errs] ? [V ->]%lift_inv.
  destruct b; cbn [negb]; [|done].
  apply validate_employee_data_true in V
    as [_ ((H1 & H2 & H3 & H4 & H5) & H6 & x' & Hx & Hle)].
  apply bind_state; [done|]. intros v ? [_ ->]%lift_inv.
  apply bind_state; [done|]. intros existing ? [= _ <-].
  destruct (bool_decide _); [done|].
  apply bind_state; [done|].
  intros fn ? [(fn0 & G1 & ->)%getitem_strip_inv ->]%lift_inv.
  apply bind_state; [done|].
  intros ln ? [(ln0 & G2 & ->)%getitem_strip_inv ->]%lift_inv.
  apply bind_state; [done|].
  intros em ? [(em0 & G3 & ->)%getitem_strip_inv ->]%lift_inv.
  apply bind_state; [done|].
  intros pos ? [(pos0 & G4 & ->)%getitem_strip_inv ->]%lift_inv.
  apply bind_state; [done|].
  intros x ? [(v5 & G5 & F)%getitem_float_inv ->]%lift_inv.
  destruct (contains_lookup _ _ _ G5) as (_ & G5' & _). rewrite G5', F in Hx.
  injection Hx as <-.
  destruct (valid_email_strip _ _ _ H4 G3) as [R3 M3].
  apply bind_state.
  - destruct (execute_insert _ _ _ _ _ _ _) as [[i|e] db'] eqn:I; simpl.
    + eapply execute_insert_consistent; [exact C| | | | | | |exact I];
        eauto using valid_text_strip.
    + by rewrite (execute_insert_raise _ _ _ _ _ _ _ _ _ I).
  - intros i db' I. rewrite get_employee_by_id_state.
    eapply execute_insert_consistent; [exact C| | | | | | |exact I];
      eauto using valid_text_strip.
Qed.

Lemma provided_inv {A : Type} (d : gmap (list N) pyval) k
    (conv : pyval → res A) col db f db' :
  provided d k conv col db = (Ok f, db') →
  db' = db
  ∧ (f = [] ∨ ∃ v a, d !! k = Some v ∧ conv v = Ok a ∧ f = [col a]).
Proof.
  unfold provided, contains, bind, lift, getitem.
  destruct (d !! k) as [v|]; simpl.
  - destruct (conv v) as [a|e] eqn:C; [|done].
    intros [= <- <-]. split; [done|]. right. by exists v, a.
  - intros [= <- <-]. by split; [|left].
Qed.

Lemma provided_state {A : Type} (d : gmap (list N) pyval) k
    (conv : pyval → res A) col db :
  (provided d k conv col db).2 = db.
Proof.
  unfold provided, contains, bind, lift, getitem.
  destruct (d !! k) as [v|]; simpl; [|done]. by destruct (conv v).
Qed.

Lemma check_duplicate_state i d e db : (check_duplicate i d e db).2 = db.
Proof.
  unfold check_duplicate, bind, select_id_by_email_except.
  destruct (_ && _); [|done]. by destruct (bool_decide _).
Qed.

Lemma get_employee_by_id_inv i db e db' :
  get_employee_by_id i db = (Ok e, db') →
  db' = db ∧ ∃ r, employees db !! i = Some r ∧ e = from_dict (i, r).
Proof.
  unfold get_employee_by_id, bind, select_by_id.
  destruct (employees db !! i) as [r|]; [|by destruct (bindable i)].
  intros [= <- <-]. eauto.
Qed.

Lemma update_provided_consistent i d e db :
  consistent db → valid_fields (update_data d e) →
  consistent (update_provided i d db).2.
Proof.
  intros C ((H1 & H2 & H3 & H4 & H5) & H6 & x' & Hx & Hle).
  destruct (get_update_data d e) as (E1 & E2 & E3 & E4 & E5).
  rewrite E1 in H1. rewrite E2 in H2. rewrite E3 in H3, H4. rewrite E4 in H5.
  rewrite E5 in H6, Hx. clear E1 E2 E3 E4 E5.
  unfold update_provided.
  apply bind_state; [by rewrite provided_state|].
  intros f1 ? [-> F1]%provided_inv.
  apply bind_state; [by rewrite provided_state|].
  intros f2 ? [-> F2]%provided_inv.
  apply bind_state; [by rewrite provided_state|].
  intros f3 ? [-> F3]%provided_inv.
  apply bind_state; [by rewrite provided_state|].
  intros f4 ? [-> F4]%provided_inv.
  apply bind_state; [by rewrite provided_state|].
  intros f5 ? [-> F5]%provided_inv.
  assert (Forall valid_assignment (f1 ++ f2 ++ f3 ++ f4 ++ f5)) as F.
  { repeat apply Forall_app_2.
    - destruct F1 as [->|(v & a & L & Cv & ->)]; [constructor|].
      rewrite (get_default_Some _ _ _ _ L) in H1.
      destruct v; try done. injection Cv as <-.
      repeat constructor. by apply required_ok_strip.
    - destruct F2 as [->|(v & a & L & Cv & ->)]; [constructor|].
      rewrite (get_default_Some _ _ _ _ L) in H2.
      destruct v; try done. injection Cv as <-.
      repeat constructor. by apply required_ok_strip.
    - destruct F3 as [->|(v & a & L & Cv & ->)]; [constructor|].
      rewrite (get_default_Some _ _ _ _ L) in H3, H4.
      destruct v; try done. injection Cv as <-.
      apply validate_email_text in H4 as [_ (Mt & NE & NB)%matches_pattern_strip].
      repeat constructor; [by apply required_ok_text|done].
    - destruct F4 as [->|(v & a & L & Cv & ->)]; [constructor|].
      rewrite (get_default_Some _ _ _ _ L) in H5.
      destruct v; try done. injection Cv as <-.
      repeat constructor. by apply required_ok_strip.
    - destruct F5 as [->|(v & a & L & Cv & ->)]; [constructor|].
      rewrite (get_default_Some _ _ _ _ L) in Hx.
      rewrite Cv in Hx. injection Hx as ->.
      by repeat constructor. }
  destruct (f1 ++ f2 ++ f3 ++ f4 ++ f5) as [|a fields] eqn:E; [done|].
  apply bind_state.
  - destruct (execute_update _ _ _) as [[n|err] db'] eqn:X; simpl.
    + by eapply execute_update_consistent.
    + by rewrite (execute_update_raise _ _ _ _ _ X).
  - intros n db' X. simpl. by eapply execute_update_consistent.
Qed.

(** Update keeps the store consistent. *)
Lemma update_employee_consistent i d db :
  consistent db → consistent (update_employee i d db).2.
Proof.
  intros C. unfold update_employee.
  apply bind_state; [by rewrite get_employee_by_id_state|].
  intros existing ? [-> _]%get_employee_by_id_inv.
  apply bind_state; [done|]. intros [b errs] ? [V ->]%lift_inv.
  destruct b; cbn [negb]; [|done].
  apply validate_employee_data_true in V as [_ V].
  apply bind_state; [by rewrite check_duplicate_state|].
  intros [] db' D.
  assert (db' = db) as ->
    by (rewrite <- (check_duplicate_state i d existing db); by rewrite D).
  apply bind_state; [by eapply update_provided_consistent|].
  intros [] db' U. rewrite get_employee_by_id_state.
  replace db' with (update_provided i d db).2 by by rewrite U.
  by eapply update_provided_consistent.
Qed.

(** Delete keeps the store consistent. *)
Lemma delete_employee_consistent i db :
  consistent db → consistent (delete_employee i db).2.
Proof.
  intros C. unfold delete_employee.
  apply bind_state; [by rewrite get_employee_by_id_state|].
  intros e ? [-> _]%get_employee_by_id_inv.
  apply bind_state.
  - unfold execute_delete. destruct (employees db !! i) eqn:L; [|done].
    eapply (execute_delete_consistent i db 1); [done|].
    unfold execute_delete. by rewrite L.
  - intros n db' X. simpl. by eapply execute_delete_consistent.
Qed.

Theorem reachable_consistent db : reachable db → consistent db.
Proof.
  unfold reachable. revert db. apply rtc_ind_r.
  - split; [intros i r L|intros i j ri rj L]; simpl in L;
      by rewrite lookup_empty in L.
  - intros db db' _ [now d|i d|i] C.
    + by apply create_employee_consistent.
    + by apply update_employee_consistent.
    + by apply delete_employee_consistent.
Qed.

(** Every persisted employee satisfies validation, and no two share an
    email. *)
Corollary reachable_rows_validate db i r :
  reachable db → employees db !! i = Some r →
  validate_employee_data (update_data ∅ (from_dict (i, r))) = Ok (true, ∅).
Proof.
  intros [V _]%reachable_consistent L. by apply valid_row_validates, (V i).
Qed.

Corollary reachable_unique_emails db : reachable db → unique_emails db.
Proof. by intros [_ U]%reachable_consistent. Qed.


(** ** Failures of create and update *)

Lemma bind_raises {A B : Type} (P : exn → Database → Prop)
    (m : M A) (k : A → M B) db :
  (∀ e db', m db = (Raise e, db') → P e db') →
  (∀ a db1, m db = (Ok a, db1) → ∀ e db', k a db1 = (Raise e, db') → P e db') →
  ∀ e db', bind m k db = (Raise e, db') → P e db'.
Proof.
  intros Hm Hk e db'. unfold bind.
  destruct (m db) as [[a|e0] db1] eqn:E.
  - by apply Hk.
  - intros [= <- <-]. by apply Hm.
Qed.

Lemma lift_raise_inv {A : Type} (r : res A) db e db' :
  lift r db = (Raise e, db') → r = Raise e ∧ db' = db.
Proof. by intros [= -> ->]. Qed.

Lemma getitem_strip_raise (d : gmap (list N) pyval) k e :
  is_Some (d !! k) → res_bind (getitem d k) py_strip = Raise e →
  e = AttributeError.
Proof.
  intros [v L]. unfold getitem. rewrite L. by destruct v; intros [= <-].
Qed.

Lemma execute_insert_raises now fn ln em pos x db e db' :
  execute_insert now fn ln em pos x db = (Raise e, db') →
  e = OperationalError ∨ e = IntegrityError
  ∨ e = ValueError ∧ forallb encodable [fn; ln; em; pos] = false.
Proof.
  unfold execute_insert.
  destruct (forallb encodable [fn; ln; em; pos]); cbn [negb];
    [|intros [= <-]; auto].
  repeat match goal with |- context [if ?b then _ else _] => destruct b end;
    intros [= <-]; auto.
Qed.

Lemma storable_texts_strip d fn ln em pos :
  storable_texts d = true →
  d !! str "first_name" = Some (VStr fn) →
  d !! str "last_name" = Some (VStr ln) →
  d !! str "email" = Some (VStr em) →
  d !! str "position" = Some (VStr pos) →
  forallb encodable [strip fn; strip ln; strip em; strip pos] = true.
Proof.
  unfold storable_texts, storable_field. intros S G1 G2 G3 G4.
  rewrite G1, G2, G3, G4 in S.
  apply andb_true_iff in S as [[[S1 S2]%andb_true_iff S3]%andb_true_iff S4].
  cbn [forallb]. by rewrite !storable_strip.
Qed.

Lemma execute_insert_lookup now fn ln em pos x db i db' :
  execute_insert now fn ln em pos x db = (Ok i, db') →
  is_Some (employees db' !! i).
Proof.
  unfold execute_insert.
  repeat match goal with |- context [if ?b then _ else _] => destruct b end;
    intros [= <- <-]. simpl. rewrite lookup_insert_eq. eauto.
Qed.

(** A failed create leaves the store as it was, and fails with one of
    [ValidationError], [UniqueConstraintError], a failure of the insert, or
    an [AttributeError] or [OverflowError] of the interpreter; the failure
    of the insert is a [ValueError] only for a text that cannot be
    encoded. *)
Lemma create_employee_raises now d db e db' :
  create_employee now d db = (Raise e, db') →
  db' = db ∧ escapes e ∧ (∀ m, e ≠ NotFoundError m)
  ∧ (storable_texts d = true → e ≠ ValueError).
Proof.
  unfold create_employee. revert e db'.
  apply (bind_raises
           (fun e db' => db' = db ∧ escapes e ∧ (∀ m, e ≠ NotFoundError m)
                         ∧ (storable_texts d = true → e ≠ ValueError))).
  { intros e db' [V ->]%lift_raise_inv.
    by rewrite (validate_employee_data_raises _ _ V). }
  intros [b errs] ? [V ->]%lift_inv.
  destruct b; cbn [negb]; [|by intros e db' [= <- <-]].
  apply validate_employee_data_true in V
    as [_ ((H1 & H2 & H3 & H4 & H5) & H6 & x & Hx & _)].
  apply required_ok_truthy, truthy_get_lookup in H1, H2, H3, H5, H6.
  apply bind_raises; [intros e db' [G _]%lift_raise_inv;
                      unfold getitem in G; by rewrite H3 in G|].
  intros v ? [_ ->]%lift_inv.
  apply bind_raises; [done|]. intros existing ? [= _ <-].
  destruct (bool_decide _); [by intros e db' [= <- <-]|].
  apply bind_raises.
  { intros e db' [->%getitem_strip_raise ->]%lift_raise_inv; [done|by eauto]. }
  intros fn ? [(fn0 & G1 & ->)%getitem_strip_inv ->]%lift_inv.
  apply bind_raises.
  { intros e db' [->%getitem_strip_raise ->]%lift_raise_inv; [done|by eauto]. }
  intros ln ? [(ln0 & G2 & ->)%getitem_strip_inv ->]%lift_inv.
  apply bind_raises.
  { intros e db' [->%getitem_strip_raise ->]%lift_raise_inv; [done|by eauto]. }
  intros em ? [(em0 & G3 & ->)%getitem_strip_inv ->]%lift_inv.
  apply bind_raises.
  { intros e db' [->%getitem_strip_raise ->]%lift_raise_inv; [done|by eauto]. }
  intros pos ? [(pos0 & G4 & ->)%getitem_strip_inv ->]%lift_inv.
  apply bind_raises.
  { intros e db' [G _]%lift_raise_inv. unfold getitem in G.
    rewrite H6 in G. simpl in G. by rewrite Hx in G. }
  intros sal ? [_ ->]%lift_inv.
  apply bind_raises.
  { intros e db' I. split; [by eapply execute_insert_raise|].
    destruct (execute_insert_raises _ _ _ _ _ _ _ _ _ I)
      as [-> | [-> | [-> E]]]; [done..|].
    split; [done|]. split; [done|]. intros S.
    by rewrite (storable_texts_strip _ _ _ _ _ S G1 G2 G3 G4) in E. }
  intros i db1 [r L]%execute_insert_lookup e db'.
  by rewrite (get_employee_by_id_Some _ _ _ L).
Qed.

Lemma provided_raise_inv {A : Type} (d : gmap (list N) pyval) k
    (conv : pyval → res A) col db e db' :
  provided d k conv col db = (Raise e, db') →
  db' = db ∧ ∃ v, d !! k = Some v ∧ conv v = Raise e.
Proof.
  unfold provided, contains, bind, lift, getitem.
  destruct (d !! k) as [v|]; simpl; [|done].
  destruct (conv v) as [a|e0] eqn:C; [done|].
  intros [= <- <-]. eauto.
Qed.

Lemma strip_raises v e : py_strip v = Raise e → e = AttributeError.
Proof. by destruct v; intros [= <-]. Qed.

Lemma check_duplicate_raise i d e0 db e db' :
  check_duplicate i d e0 db = (Raise e, db') →
  db' = db ∧ ∃ errs, e = UniqueConstraintError errs.
Proof.
  unfold check_duplicate, bind, select_id_by_email_except.
  destruct (_ && _); [|done]. destruct (bool_decide _); [|done].
  intros [= <- <-]. eauto.
Qed.

Lemma execute_update_raises fields i db e db' :
  execute_update fields i db = (Raise e, db') →
  e = IntegrityError ∨ e = ValueError ∧ existsb unencodable fields = true.
Proof.
  unfold execute_update.
  destruct (existsb unencodable fields); [intros [= <-]; auto|].
  destruct (employees db !! i); [|done].
  destruct (existsb _ _); intros [= <-]; auto.
Qed.

Lemma provided_text_encodable d k (col : list N → assignment) db f db' :
  (∀ v, unencodable (col v) = negb (encodable v)) →
  storable_field d k = true →
  provided d k py_strip col db = (Ok f, db') →
  existsb unencodable f = false.
Proof.
  intros C S [_ [->|(v & a & L & P & ->)]]%provided_inv; [done|].
  cbn [existsb]. rewrite C, orb_false_r. apply negb_false_iff.
  unfold storable_field in S. rewrite L in S.
  destruct v; try done. injection P as <-. by apply storable_strip.
Qed.

Lemma provided_salary_encodable d db f db' :
  provided d (str "salary") py_float SetSalary db = (Ok f, db') →
  existsb unencodable f = false.
Proof. by intros [_ [->|(v & a & _ & _ & ->)]]%provided_inv. Qed.

Lemma execute_update_lookup fields i db n db' :
  is_Some (employees db !! i) → execute_update fields i db = (Ok n, db') →
  is_Some (employees db' !! i).
Proof.
  intros [r L]. unfold execute_update.
  destruct (existsb unencodable fields); [done|]. rewrite L.
  destruct (existsb _ _); [done|]. intros [= <- <-].
  simpl. rewrite lookup_insert_eq. eauto.
Qed.

Lemma update_provided_raises i d e0 db e db' :
  valid_fields (update_data d e0) →
  update_provided i d db = (Raise e, db') →
  db' = db
  ∧ (e = AttributeError ∨ e = IntegrityError ∨ e = ValueError)
  ∧ (storable_texts d = true → e ≠ ValueError).
Proof.
  intros (_ & _ & x & Hx & _).
  destruct (get_update_data d e0) as (_ & _ & _ & _ & E5). rewrite E5 in Hx.
  unfold update_provided. revert e db'.
  apply (bind_raises
           (fun e db' =>
              db' = db
              ∧ (e = AttributeError ∨ e = IntegrityError ∨ e = ValueError)
              ∧ (storable_texts d = true → e ≠ ValueError))).
  { intros e db' (-> & v & _ & ->%strip_raises)%provided_raise_inv.
    by split; [|split; [left|]]. }
  intros f1 ? F1. pose proof F1 as [-> _]%provided_inv.
  apply bind_raises.
  { intros e db' (-> & v & _ & ->%strip_raises)%provided_raise_inv.
    by split; [|split; [left|]]. }
  intros f2 ? F2. pose proof F2 as [-> _]%provided_inv.
  apply bind_raises.
  { intros e db' (-> & v & _ & ->%strip_raises)%provided_raise_inv.
    by split; [|split; [left|]]. }
  intros f3 ? F3. pose proof F3 as [-> _]%provided_inv.
  apply bind_raises.
  { intros e db' (-> & v & _ & ->%strip_raises)%provided_raise_inv.
    by split; [|split; [left|]]. }
  intros f4 ? F4. pose proof F4 as [-> _]%provided_inv.
  apply bind_raises.
  { intros e db' (-> & v & L & F)%provided_raise_inv.
    rewrite (get_default_Some _ _ _ _ L), F in Hx. done. }
  intros f5 ? F5. pose proof F5 as [-> _]%provided_inv.
  destruct (f1 ++ f2 ++ f3 ++ f4 ++ f5) as [|a l] eqn:E; [done|].
  apply bind_raises; [|done].
  intros e db' X. split; [by eapply execute_update_raise|].
  apply execute_update_raises in X as [->|[-> U]].
  { by split; [right; left|]. }
  split; [by right; right|]. intros S. exfalso.
  rewrite <- E, !existsb_app in U.
  unfold storable_texts in S.
  apply andb_true_iff in S as [[[S1 S2]%andb_true_iff S3]%andb_true_iff S4].
  rewrite (provided_text_encodable _ _ SetFirstName _ _ _ (λ _, eq_refl) S1 F1)
    in U.
  rewrite (provided_text_encodable _ _ SetLastName _ _ _ (λ _, eq_refl) S2 F2)
    in U.
  rewrite (provided_text_encodable _ _ SetEmail _ _ _ (λ _, eq_refl) S3 F3)
    in U.
  rewrite (provided_text_encodable _ _ SetPosition _ _ _ (λ _, eq_refl) S4 F4)
    in U.
  by rewrite (provided_salary_encodable _ _ _ _ F5) in U.
Qed.

Lemma update_provided_lookup i d db db' :
  is_Some (employees db !! i) → update_provided i d db = (Ok tt, db') →
  is_Some (employees db' !! i).
Proof.
  intros L. unfold update_provided, bind.
  repeat match goal with
         | |- context [provided ?d ?k ?conv ?col db] =>
             let E := fresh in
             destruct (provided d k conv col db) as [[?|?] ?] eqn:E;
             [apply provided_inv in E as [-> _]|done]
         end.
  destruct (_ ++ _); [by intros [= <-]|].
  destruct (execute_update _ _ _) as [[n|?] db1] eqn:X; [|done].
  intros [= <-]. by eapply execute_update_lookup.
Qed.

(** A failed update leaves the store as it was, and fails with one of
    [NotFoundError], [ValidationError], [UniqueConstraintError], a failure of
    the update statement, or an [AttributeError] or [OverflowError] of the
    interpreter; the failure of the statement is a [ValueError] only for a
    text that cannot be encoded. *)
Lemma update_employee_raises i d db e db' :
  update_employee i d db = (Raise e, db') →
  db' = db ∧ escapes e ∧ (storable_texts d = true → e ≠ ValueError).
Proof.
  unfold update_employee. revert e db'.
  apply (bind_raises
           (fun e db' => db' = db ∧ escapes e
                         ∧ (storable_texts d = true → e ≠ ValueError))).
  { by intros e db' (-> & _ & [-> | ->])%get_employee_by_id_raises. }
  intros existing ? [-> (r & L & ->)]%get_employee_by_id_inv.
  apply bind_raises.
  { intros e db' [V ->]%lift_raise_inv.
    by rewrite (validate_employee_data_raises _ _ V). }
  intros [b errs] ? [V ->]%lift_inv.
  destruct b; cbn [negb]; [|by intros e db' [= <- <-]].
  apply validate_employee_data_true in V as [_ V].
  apply bind_raises.
  { by intros e db' (-> & errs' & ->)%check_duplicate_raise. }
  intros [] db1 D.
  assert (db1 = db) as ->
    by (rewrite <- (check_duplicate_state i d (from_dict (i, r)) db);
        by rewrite D).
  apply bind_raises.
  { intros e db'
      (-> & [-> | [-> | ->]] & S)%(update_provided_raises _ _ _ _ _ _ V);
      done. }
  intros [] db1 [r' L']%update_provided_lookup; [|by eauto].
  intros e db'. by rewrite (get_employee_by_id_Some _ _ _ L').
Qed.

(** * Further properties *)

(** ** The validators *)

Lemma size_zero_empty (errors : gmap (list N) (list N)) :
  bool_decide (size errors = 0%nat) = true ↔ errors = ∅.
Proof. by rewrite bool_decide_eq_true, map_size_empty_iff. Qed.

(** X1: validation answers (True, no errors) exactly when the five presence
    checks pass, the email matches the pattern and the salary converts to a
    float that is not [<= 0]; and in every answer the flag is true exactly
    when the error dictionary is empty. *)
Theorem validate_employee_data_accepts d :
  (validate_employee_data d = Ok (true, ∅) ↔ valid_fields d)
  ∧ ∀ b errors,
      validate_employee_data d = Ok (b, errors) → (b = true ↔ errors = ∅).
Proof.
  split.
  - split; [by intros [_ V]%validate_employee_data_true
           |apply validate_employee_data_valid].
  - intros b errors. unfold validate_employee_data.
    destruct (check_salary _ _) as [E|]; [|done]. simpl.
    intros [= <- <-]. apply size_zero_empty.
Qed.

Lemma py_float_overflow v :
  py_float v = Raise OverflowError ↔ ∃ n, v = VInt n ∧ float_of_int n = None.
Proof.
  unfold py_float. split.
  - destruct v as [| |n| |s| |]; try done.
    + destruct (float_of_int n) eqn:F; [done|]. eauto.
    + by destruct (float_of_str s).
  - intros (n & -> & ->). done.
Qed.

(** X2: validation raises nothing but [OverflowError], and raises it exactly
    when the salary is an integer too large to convert to a float, whatever
    the other fields are. *)
Theorem validate_employee_data_overflow d e :
  validate_employee_data d = Raise e
  ↔ e = OverflowError
    ∧ ∃ n, d !! str "salary" = Some (VInt n) ∧ float_of_int n = None.
Proof.
  unfold validate_employee_data. rewrite check_salary_eq.
  assert (get d (str "salary") = default VNone (d !! str "salary")) as G by done.
  split.
  - destruct (is_none _) eqn:NN; [done|].
    destruct (py_float _) as [x|e'] eqn:F; [done|].
    destruct e'; simpl; try done. intros [= <-]. split; [done|].
    apply py_float_overflow in F as (n & F & O). exists n. split; [|done].
    rewrite G in F. destruct (d !! str "salary") as [v|]; simpl in F; [|done].
    by subst v.
  - intros (-> & n & L & O). rewrite G, L. simpl.
    by rewrite (proj2 (py_float_overflow (VInt n))) by eauto.
Qed.

(** The keys of the errors are field names. *)
Lemma check_required_keys d k :
  is_Some (check_required d ∅ !! k) → k ∈ fst <$> required_fields.
Proof.
  rewrite check_required_eq. unfold required_error.
  repeat match goal with
         | |- context [required_ok ?v] => destruct (required_ok v)
         end;
    rewrite ?lookup_insert; repeat case_decide; subst;
    rewrite ?lookup_empty; try (by intros [? ?]); intros _;
    unfold required_fields; set_solver.
Qed.

Lemma check_required_lookup d field label :
  (field, label) ∈ required_fields →
  check_required d ∅ !! field
  = if required_ok (get d field) then None
    else Some (label ++ str " is required").
Proof.
  intros I. rewrite check_required_eq. unfold required_error.
  unfold required_fields in I.
  repeat (apply elem_of_cons in I as [[= -> ->]|I]);
    [..|by apply elem_of_nil in I];
    repeat match goal with
           | |- context [if required_ok ?v then _ else _] =>
               destruct (required_ok v) eqn:?
           end;
    rewrite ?lookup_insert; repeat case_decide;
    rewrite ?lookup_empty; try done;
    match goal with H : str _ = str _ |- _ => vm_compute in H; discriminate H end.
Qed.

(** X3: the errors are keyed by field names only, and the error of a name or
    of the position depends on that field alone: it is absent when the
    presence check passes and '<Label> is required' when it does not. *)
Theorem presence_errors_are_independent d :
  no_overflow d →
  ∃ b errors,
    validate_employee_data d = Ok (b, errors)
    ∧ (∀ k, is_Some (errors !! k) → k ∈ fst <$> required_fields)
    ∧ ∀ field label,
        (field, label) ∈ required_fields →
        field ≠ str "email" → field ≠ str "salary" →
        errors !! field
        = if required_ok (get d field) then None
          else Some (label ++ str " is required").
Proof.
  intros (E & S & ->)%validate_employee_data_returns.
  exists (bool_decide (size E = 0%nat)), E. split; [done|]. split.
  - intros k Hk. destruct (decide (k = str "salary")) as [->|Ns];
      [unfold required_fields; set_solver|].
    rewrite (check_salary_lookup_ne _ _ _ _ S Ns) in Hk.
    rewrite check_email_eq in Hk.
    destruct (decide (k = str "email")) as [->|Ne];
      [unfold required_fields; set_solver|].
    apply (check_required_keys d).
    destruct (truthy _); [|done]. destruct (validate_email _).1; [done|].
    by rewrite lookup_insert_ne in Hk.
  - intros field label I Ne Ns.
    rewrite (check_salary_lookup_ne _ _ _ _ S Ns).
    rewrite check_email_eq.
    rewrite <- (check_required_lookup d field label I).
    destruct (truthy _); [|done]. destruct (validate_email _).1; [done|].
    by rewrite lookup_insert_ne.
Qed.

Lemma validate_email_required_ok v :
  (validate_email v).1 = true → required_ok v = true.
Proof.
  intros V. destruct (validate_email_is_text _ V) as [s ->].
  apply validate_email_text in V as [_ (_ & NB & _)%matches_pattern_strip].
  by apply required_ok_text.
Qed.

Lemma validate_email_falsy v :
  truthy v = false → validate_email v = (false, str "Email is required").
Proof. destruct v as [| | | |[|c s]| |]; done. Qed.

(** X4: the error validation reports for the email is the verdict of
    [validate_email] on [data.get("email")]: none when it accepts, its
    message when it does not, the presence check adding nothing of its own. *)
Theorem email_error_is_validate_email d :
  no_overflow d →
  ∃ b errors,
    validate_employee_data d = Ok (b, errors)
    ∧ errors !! str "email"
      = if (validate_email (get d (str "email"))).1 then None
        else Some (validate_email (get d (str "email"))).2.
Proof.
  intros (E & S & ->)%validate_employee_data_returns.
  exists (bool_decide (size E = 0%nat)), E. split; [done|].
  rewrite (check_salary_lookup_ne _ _ _ _ S) by str_neq.
  rewrite check_email_eq.
  destruct (truthy (get d (str "email"))) eqn:T.
  - destruct (validate_email _).1 eqn:V.
    + rewrite check_required_lookup_email.
      by rewrite (validate_email_required_ok _ V).
    + by rewrite lookup_insert_eq.
  - rewrite check_required_lookup_email, (validate_email_falsy _ T). simpl.
    unfold required_ok. by rewrite T.
Qed.

(** The only white space the pattern lets through is a final newline. *)
Lemma validate_email_strip s :
  (validate_email (VStr s)).1 = true
  ↔ (validate_email (VStr (strip s))).1 = true
    ∧ (s = strip s ∨ s = strip s ++ [10%N]).
Proof.
  rewrite !validate_email_text, !matches_lang, !lang_pattern. split.
  - intros (_ & body & B & E).
    pose proof (lang_classes_within _ _ _ address_classes B) as F.
    assert (strip s = body) as ->
      by (destruct E as [-> | ->];
          [by apply strip_nonspace|by apply strip_newline]).
    split; [|done]. split; [by apply lang_address_nonempty|].
    exists body. by split; [|left].
  - intros ((NE & body & B & E) & Es).
    pose proof (lang_classes_within _ _ _ address_classes B) as F.
    assert (strip s = body) as Eb.
    { destruct E as [E|E]; [done|].
      rewrite <- (strip_idem s), E. by apply strip_newline. }
    rewrite Eb in Es. split.
    + destruct Es as [-> | ->]; [by apply lang_address_nonempty|].
      by destruct body.
    + by exists body.
Qed.

(** X5: an email is accepted exactly when its trimmed form is accepted and
    it is that form, or that form followed by one newline: the only white
    space the pattern lets through is a final newline. *)
Theorem validate_email_trimmed s :
  (validate_email (VStr s)).1 = true
  ↔ (validate_email (VStr (strip s))).1 = true
    ∧ (s = strip s ∨ s = strip s ++ [10%N]).
Proof. apply validate_email_strip. Qed.

(** ** Create *)

Lemma bind_ok_inv {A B : Type} (m : M A) (k : A → M B) db b db' :
  bind m k db = (Ok b, db') →
  ∃ a db1, m db = (Ok a, db1) ∧ k a db1 = (Ok b, db').
Proof.
  unfold bind. destruct (m db) as [[a|e] db1]; [|done]. eauto.
Qed.

Lemma select_id_by_email_None db e db' :
  select_id_by_email (VStr e) db = (Ok None, db') →
  db' = db ∧ email_unused db e.
Proof.
  unfold select_id_by_email. intros [= F <-]. split; [done|].
  destruct (List.find _ _) as [?|] eqn:Fd; [done|].
  intros i r L Er.
  pose proof (find_none _ _ Fd (i, r)) as K. simpl in K.
  rewrite bool_decide_eq_false in K. apply K; [|done].
  by apply list_elem_of_In, elem_of_rows_by_id.
Qed.

Lemma execute_insert_inv now fn ln em pos x db i db' :
  execute_insert now fn ln em pos x db = (Ok i, db') →
  i = next_rowid db ∧ next_rowid db ≤ max_rowid ∧ float_is_nan x = false
  ∧ email_taken (employees db) em None = false
  ∧ db' = {| employees :=
               <[next_rowid db :=
                   {| row_first_name := fn; row_last_name := ln;
                      row_email := em; row_position := pos;
                      row_salary := x; row_created_at := now |}]>
                 (employees db);
             sqlite_sequence := next_rowid db |}.
Proof.
  unfold execute_insert.
  destruct (negb _); [done|].
  destruct (max_rowid <? next_rowid db) eqn:C; [done|].
  destruct (float_is_nan x); [done|].
  destruct (email_taken _ _ _); [done|].
  intros [= <- <-]. apply Z.ltb_ge in C. done.
Qed.

(** What a create that returns has checked, returned and written. *)
Lemma create_employee_ok now d db e db' :
  create_employee now d db = (Ok e, db') →
  ∃ fn ln em pos x,
    valid_fields d
    ∧ d !! str "first_name" = Some (VStr fn)
    ∧ d !! str "last_name" = Some (VStr ln)
    ∧ d !! str "email" = Some (VStr em)
    ∧ d !! str "position" = Some (VStr pos)
    ∧ py_float (get d (str "salary")) = Ok x ∧ float_is_nan x = false
    ∧ email_unused db em ∧ email_unused db (strip em)
    ∧ next_rowid db ≤ max_rowid
    ∧ e = {| id := Some (next_rowid db);
             first_name := strip fn; last_name := strip ln;
             email := strip em; position := strip pos;
             salary := x; created_at := Some now |}
    ∧ db' = {| employees :=
                 <[next_rowid db :=
                     {| row_first_name := strip fn; row_last_name := strip ln;
                        row_email := strip em; row_position := strip pos;
                        row_salary := x; row_created_at := now |}]>
                   (employees db);
               sqlite_sequence := next_rowid db |}.
Proof.
  unfold create_employee.
  intros ([b errs] & ? & [V ->]%lift_inv & H)%bind_ok_inv.
  destruct b; cbn [negb] in H; [|done].
  pose proof (validate_employee_data_true _ _ V) as [_ VF].
  apply bind_ok_inv in H as (v & ? & [G ->]%lift_inv & H).
  apply bind_ok_inv in H as (existing & db1 & S & H).
  destruct (bool_decide (is_Some existing)) eqn:B; [done|].
  apply bind_ok_inv in H
    as (fn & ? & [(fn0 & G1 & ->)%getitem_strip_inv ->]%lift_inv & H).
  apply bind_ok_inv in H
    as (ln & ? & [(ln0 & G2 & ->)%getitem_strip_inv ->]%lift_inv & H).
  apply bind_ok_inv in H
    as (em & ? & [(em0 & G3 & ->)%getitem_strip_inv ->]%lift_inv & H).
  apply bind_ok_inv in H
    as (pos & ? & [(pos0 & G4 & ->)%getitem_strip_inv ->]%lift_inv & H).
  apply bind_ok_inv in H
    as (x & ? & [(v5 & G5 & F)%getitem_float_inv ->]%lift_inv & H).
  apply bind_ok_inv in H as (i & db2 & I & H).
  unfold getitem in G. rewrite G3 in G. injection G as <-.
  assert (existing = None) as ->.
  { destruct existing; [|done]. apply bool_decide_eq_false in B.
    destruct B. eauto. }
  apply select_id_by_email_None in S as [-> U].
  apply execute_insert_inv in I as (-> & Full & NaN & T & ->).
  rewrite (get_employee_by_id_Some _ _ _ (lookup_insert_eq _ _ _)) in H.
  injection H as <- <-.
  exists fn0, ln0, em0, pos0, x.
  split; [done|]. do 4 (split; [done|]).
  split; [by destruct (contains_lookup _ _ _ G5) as (_ & -> & _)|].
  split; [done|]. split; [done|].
  split; [intros j r L; by apply (proj1 (email_taken_false _ _ _) T j r)|].
  done.
Qed.

(** X6: whenever create returns, the request passed validation, its names,
    email and position were text, the email was in use neither as given nor
    trimmed, and the salary converted to a number; the record returned holds
    the trimmed texts, the converted salary, the next row id and the time of
    the insert, and the store is the old one with that one row added. *)
Theorem create_employee_returns now d db e db' :
  create_employee now d db = (Ok e, db') →
  ∃ fn ln em pos x,
    valid_fields d
    ∧ d !! str "first_name" = Some (VStr fn)
    ∧ d !! str "last_name" = Some (VStr ln)
    ∧ d !! str "email" = Some (VStr em)
    ∧ d !! str "position" = Some (VStr pos)
    ∧ py_float (get d (str "salary")) = Ok x ∧ float_is_nan x = false
    ∧ email_unused db em ∧ email_unused db (strip em)
    ∧ next_rowid db ≤ max_rowid
    ∧ e = {| id := Some (next_rowid db);
             first_name := strip fn; last_name := strip ln;
             email := strip em; position := strip pos;
             salary := x; created_at := Some now |}
    ∧ db' = {| employees :=
                 <[next_rowid db :=
                     {| row_first_name := strip fn; row_last_name := strip ln;
                        row_email := strip em; row_position := strip pos;
                        row_salary := x; row_created_at := now |}]>
                   (employees db);
               sqlite_sequence := next_rowid db |}.
Proof. apply create_employee_ok. Qed.

(** The store create leaves is the old one or the result of its insert. *)
Lemma create_employee_store now d db :
  (create_employee now d db).2 = db
  ∨ ∃ r,
      (create_employee now d db).2
      = {| employees := <[next_rowid db := r]> (employees db);
           sqlite_sequence := next_rowid db |}.
Proof.
  destruct (create_employee now d db) as [[e|err] db'] eqn:C.
  - right. apply create_employee_ok in C
      as (fn & ln & em & pos & x & _ & _ & _ & _ & _ & _ & _ & _ & _ & _ & _ & ->).
    by eexists.
  - left. by apply create_employee_raises in C as [-> _].
Qed.

(** X7: create never touches an employee already persisted, whatever its
    outcome: every row of the old store is in the new one unchanged, and the
    new store holds at most one row more. *)
Theorem create_employee_keeps_rows now d db :
  (∀ j r, employees db !! j = Some r →
          employees (create_employee now d db).2 !! j = Some r)
  ∧ (size (employees (create_employee now d db).2) ≤ S (size (employees db)))%nat.
Proof.
  destruct (create_employee_store now d db) as [->|[r0 ->]];
    [split; [done|lia]|].
  simpl. split.
  - intros j r L. rewrite lookup_insert_ne; [done|].
    intros <-. by rewrite next_rowid_fresh in L.
  - by rewrite map_size_insert_None by apply next_rowid_fresh.
Qed.

(** ** Update *)

Lemma provided_ok_inv {A : Type} (d : gmap (list N) pyval) k
    (conv : pyval → res A) col db f db' :
  provided d k conv col db = (Ok f, db') →
  db' = db
  ∧ ((d !! k = None ∧ f = [])
     ∨ ∃ v a, d !! k = Some v ∧ conv v = Ok a ∧ f = [col a]).
Proof.
  unfold provided, contains, bind, lift, getitem.
  destruct (d !! k) as [v|]; simpl.
  - destruct (conv v) as [a|e] eqn:C; [|done].
    intros [= <- <-]. split; [done|]. right. by exists v, a.
  - intros [= <- <-]. split; [done|]. by left.
Qed.

Lemma strip_ok_inv v a : py_strip v = Ok a → ∃ s, v = VStr s ∧ a = strip s.
Proof. destruct v; try done. intros [= <-]. eauto. Qed.

Lemma supplied_text_fields d key (col : list N → assignment) f old :
  (d !! key = None ∧ f = [])
  ∨ (∃ v a, d !! key = Some v ∧ py_strip v = Ok a ∧ f = [col a]) →
  f = [] ∧ supplied_text d key old = old
  ∨ f = [col (supplied_text d key old)] ∧ is_Some (d !! key).
Proof.
  unfold supplied_text.
  intros [[-> ->]|(v & a & -> & (s & -> & ->)%strip_ok_inv & ->)]; eauto.
Qed.

Lemma supplied_salary_fields d f old :
  (d !! str "salary" = None ∧ f = [])
  ∨ (∃ v a, d !! str "salary" = Some v ∧ py_float v = Ok a ∧ f = [SetSalary a]) →
  f = [] ∧ supplied_salary d old = old
  ∨ f = [SetSalary (supplied_salary d old)].
Proof.
  unfold supplied_salary.
  intros [[-> ->]|(v & a & -> & -> & ->)]; eauto.
Qed.

(** The statement a successful update issues leaves [updated_row]. *)
Lemma update_provided_ok i d db db' r :
  employees db !! i = Some r →
  update_provided i d db = (Ok tt, db') →
  db' = {| employees := <[i := updated_row d r]> (employees db);
           sqlite_sequence := sqlite_sequence db |}.
Proof.
  intros L. unfold update_provided.
  intros (f1 & ? & [-> F1]%provided_ok_inv & H)%bind_ok_inv.
  apply bind_ok_inv in H as (f2 & ? & [-> F2]%provided_ok_inv & H).
  apply bind_ok_inv in H as (f3 & ? & [-> F3]%provided_ok_inv & H).
  apply bind_ok_inv in H as (f4 & ? & [-> F4]%provided_ok_inv & H).
  apply bind_ok_inv in H as (f5 & ? & [-> F5]%provided_ok_inv & H).
  apply (supplied_text_fields _ _ SetFirstName _ (row_first_name r)) in F1.
  apply (supplied_text_fields _ _ SetLastName _ (row_last_name r)) in F2.
  apply (supplied_text_fields _ _ SetEmail _ (row_email r)) in F3.
  apply (supplied_text_fields _ _ SetPosition _ (row_position r)) in F4.
  apply (supplied_salary_fields _ _ (row_salary r)) in F5.
  assert (fold_left assign (f1 ++ f2 ++ f3 ++ f4 ++ f5) r = updated_row d r) as Fd.
  { unfold updated_row.
    destruct F1 as [[-> ->]|[-> _]], F2 as [[-> ->]|[-> _]],
             F3 as [[-> ->]|[-> _]], F4 as [[-> ->]|[-> _]],
             F5 as [[-> ->]| ->]; by destruct r. }
  destruct (f1 ++ f2 ++ f3 ++ f4 ++ f5) as [|a fields] eqn:E.
  - injection H as <-. simpl in Fd. rewrite <- Fd, (insert_id _ _ _ L).
    by destruct db.
  - apply bind_ok_inv in H as (n & db1 & X & [= <-]).
    revert X. unfold execute_update.
    destruct (existsb unencodable _); [done|]. rewrite L.
    destruct (existsb _ _); [done|]. intros [= _ <-]. by rewrite <- Fd.
Qed.

Lemma check_duplicate_ok i d e0 db u db' :
  check_duplicate i d e0 db = (Ok u, db') → db' = db.
Proof.
  intros D. rewrite <- (check_duplicate_state i d e0 db). by rewrite D.
Qed.

(** What an update that returns has checked, returned and written. *)
Lemma update_employee_ok i d db e db' :
  update_employee i d db = (Ok e, db') →
  ∃ r,
    employees db !! i = Some r
    ∧ valid_fields (update_data d (from_dict (i, r)))
    ∧ e = from_dict (i, updated_row d r)
    ∧ db' = {| employees := <[i := updated_row d r]> (employees db);
               sqlite_sequence := sqlite_sequence db |}
    ∧ get_employee_by_id i db' = (Ok e, db').
Proof.
  unfold update_employee.
  intros (existing & ? & [-> (r & L & ->)]%get_employee_by_id_inv & H)%bind_ok_inv.
  apply bind_ok_inv in H as ([b errs] & ? & [V ->]%lift_inv & H).
  destruct b; cbn [negb] in H; [|done].
  apply validate_employee_data_true in V as [_ V].
  apply bind_ok_inv in H as ([] & ? & ->%check_duplicate_ok & H).
  apply bind_ok_inv in H as ([] & db1 & ->%(update_provided_ok _ _ _ _ r L) & H).
  assert (get_employee_by_id i
            {| employees := <[i := updated_row d r]> (employees db);
               sqlite_sequence := sqlite_sequence db |}
          = (Ok (from_dict (i, updated_row d r)),
             {| employees := <[i := updated_row d r]> (employees db);
                sqlite_sequence := sqlite_sequence db |})) as G
    by apply get_employee_by_id_Some, lookup_insert_eq.
  rewrite G in H. injection H as <- <-. by exists r.
Qed.

(** X12: whenever update returns, the employee was persisted and the merged
    record passed validation; the record returned is the stored row, in
    which every field the request holds is the supplied value trimmed (the
    salary converted) and every other field, the id and the creation time
    are as before; no other row and not the id counter is changed. *)
Theorem update_employee_returns i d db e db' :
  update_employee i d db = (Ok e, db') →
  ∃ r,
    employees db !! i = Some r
    ∧ valid_fields (update_data d (from_dict (i, r)))
    ∧ e = from_dict (i, updated_row d r)
    ∧ db' = {| employees := <[i := updated_row d r]> (employees db);
               sqlite_sequence := sqlite_sequence db |}
    ∧ get_employee_by_id i db' = (Ok e, db').
Proof. apply update_employee_ok. Qed.


(** What an update leaves alone. *)
Lemma update_employee_unchanged i d db :
  sqlite_sequence (update_employee i d db).2 = sqlite_sequence db
  ∧ dom (employees (update_employee i d db).2) = dom (employees db)
  ∧ (∀ j, j ≠ i →
          employees (update_employee i d db).2 !! j = employees db !! j)
  ∧ row_created_at <$> employees (update_employee i d db).2 !! i
    = row_created_at <$> employees db !! i.
Proof.
  destruct (update_employee i d db) as [[e|err] db'] eqn:U.
  - apply update_employee_ok in U as (r & L & _ & _ & -> & _). simpl.
    split; [done|]. split; [|split].
    + by apply dom_insert_lookup_L.
    + intros j Nj. by rewrite lookup_insert_ne.
    + by rewrite lookup_insert_eq, L.
  - by apply update_employee_raises in U as [-> _].
Qed.

(** X13: whatever its outcome, update neither adds nor removes a row,
    changes no row but the one of its id, and leaves the id counter and the
    creation time of that row as they were. *)
Theorem update_employee_frame i d db :
  sqlite_sequence (update_employee i d db).2 = sqlite_sequence db
  ∧ dom (employees (update_employee i d db).2) = dom (employees db)
  ∧ (∀ j, j ≠ i →
          employees (update_employee i d db).2 !! j = employees db !! j)
  ∧ row_created_at <$> employees (update_employee i d db).2 !! i
    = row_created_at <$> employees db !! i.
Proof. apply update_employee_unchanged. Qed.

(** X8: for a request whose texts the store takes, a failed create has
    written nothing, and fails with [ValidationError],
    [UniqueConstraintError], the [IntegrityError] or [OperationalError] of
    the insert, or an [AttributeError] or [OverflowError] of the
    interpreter; never with [NotFoundError], [KeyError], [TypeError] or
    [ValueError]. *)
Theorem failed_create_writes_nothing now d db e db' :
  storable_texts d = true →
  create_employee now d db = (Raise e, db') →
  db' = db ∧ escapes e ∧ e ≠ ValueError ∧ ∀ m, e ≠ NotFoundError m.
Proof.
  intros S (-> & E & NF & NV)%create_employee_raises.
  split; [done|]. split; [done|]. split; [by apply NV|done].
Qed.


(** ** Identifiers *)

Lemma next_rowid_gt db : sqlite_sequence db < next_rowid db.
Proof. unfold next_rowid. lia. Qed.

Lemma create_employee_ids now d db :
  ids_bounded db →
  ids_bounded (create_employee now d db).2
  ∧ sqlite_sequence db ≤ sqlite_sequence (create_employee now d db).2.
Proof.
  intros [S B].
  destruct (create_employee_store now d db) as [->|[r0 ->]]; [by split|].
  simpl. pose proof (next_rowid_gt db). split; [split|]; simpl; [lia| |lia].
  intros j r [[<- _]|[_ L]]%lookup_insert_Some; [lia|].
  apply B in L. lia.
Qed.

Lemma delete_employee_missing i db :
  employees db !! i = None →
  ∃ e, delete_employee i db = (Raise e, db).
Proof.
  intros L. unfold delete_employee.
  destruct (get_employee_by_id i db) as [[e|err] db'] eqn:G.
  - apply get_employee_by_id_inv in G as (_ & r & L' & _). by rewrite L in L'.
  - pose proof G as (-> & _)%get_employee_by_id_raises. exists err.
    by rewrite (bind_raise _ _ _ _ _ G).
Qed.

Lemma delete_employee_store i db :
  (delete_employee i db).2
  = match employees db !! i with
    | Some _ => {| employees := delete i (employees db);
                   sqlite_sequence := sqlite_sequence db |}
    | None => db
    end.
Proof.
  destruct (employees db !! i) as [r|] eqn:L.
  - unfold delete_employee.
    exec (get_employee_by_id_Some _ _ _ L).
    erewrite bind_ok by (unfold execute_delete; rewrite L; reflexivity).
    reflexivity.
  - by destruct (delete_employee_missing _ _ L) as [e ->].
Qed.

Lemma step_ids db db' :
  step db db' → ids_bounded db →
  ids_bounded db' ∧ sqlite_sequence db ≤ sqlite_sequence db'.
Proof.
  intros [now d|i d|i] B.
  - by apply create_employee_ids.
  - destruct (update_employee_unchanged i d db) as (S & D & _).
    destruct B as [B0 B]. split; [split|]; rewrite S; [done| |lia].
    intros j r L.
    assert (is_Some (employees db !! j)) as [r' L']
      by (apply elem_of_dom; rewrite <- D; apply elem_of_dom; eauto).
    by apply (B j r').
  - rewrite delete_employee_store.
    destruct (employees db !! i) as [r0|]; [|split; [done|lia]].
    destruct B as [B0 B]. split; [split|]; simpl; [done| |lia].
    intros j r [_ L]%lookup_delete_Some. by apply (B j r).
Qed.

Lemma rtc_step_ids db db' :
  rtc step db db' → ids_bounded db →
  ids_bounded db' ∧ sqlite_sequence db ≤ sqlite_sequence db'.
Proof.
  induction 1 as [|db db1 db2 S _ IH]; [split; [done|lia]|].
  intros B. destruct (step_ids _ _ S B) as [B1 L1].
  destruct (IH B1) as [B2 L2]. split; [done|lia].
Qed.

Lemma reachable_ids_bounded db : reachable db → ids_bounded db.
Proof.
  intros R. apply (rtc_step_ids _ _ R). split; [done|].
  intros i r L. simpl in L. by rewrite lookup_empty in L.
Qed.

(** X9: an id is never given twice. In a store the service has reached,
    take any persisted employee; after any further calls of create, update
    and delete, which may have deleted that employee, a create that returns
    assigns an id greater than that employee's (and greater than every id
    assigned so far), free in the store, and sets the id counter to it. *)
Theorem ids_are_never_reused db db1 now d e db2 j r :
  reachable db →
  employees db !! j = Some r →
  rtc step db db1 →
  create_employee now d db1 = (Ok e, db2) →
  ∃ n, id e = Some n ∧ j < n ∧ sqlite_sequence db1 < n
       ∧ employees db1 !! n = None ∧ sqlite_sequence db2 = n.
Proof.
  intros R L S C.
  pose proof (reachable_ids_bounded _ R) as B.
  destruct (rtc_step_ids _ _ S B) as [_ Le].
  destruct B as [_ B]. apply B in L.
  apply create_employee_ok in C
    as (fn & ln & em & pos & x & _ & _ & _ & _ & _ & _ & _ & _ & _ & _ & -> & ->).
  exists (next_rowid db1). pose proof (next_rowid_gt db1).
  split; [done|]. split; [lia|]. split; [done|].
  split; [apply next_rowid_fresh|done].
Qed.

(** ** What the store holds *)

Lemma get_to_dict e :
  get (to_dict e) (str "first_name") = VStr (first_name e)
  ∧ get (to_dict e) (str "last_name") = VStr (last_name e)
  ∧ get (to_dict e) (str "email") = VStr (email e)
  ∧ get (to_dict e) (str "position") = VStr (position e)
  ∧ get (to_dict e) (str "salary") = VFloat (salary e).
Proof.
  unfold get, to_dict. cbn [list_to_map foldr uncurry fst snd].
  repeat split.
Qed.

Lemma valid_row_to_dict i r :
  valid_row r → valid_fields (to_dict (from_dict (i, r))).
Proof.
  intros (H1 & H2 & H3 & H4 & H5 & H6 & H7).
  destruct (get_to_dict (from_dict (i, r))) as (E1 & E2 & E3 & E4 & E5).
  unfold valid_fields, valid_texts. rewrite E1, E2, E3, E4, E5. simpl.
  repeat split; try done.
  - apply validate_email_text. split; [|done]. by destruct (row_email r).
  - by apply required_ok_float.
  - by exists (row_salary r).
Qed.

(** X10: in every store the service reaches, every persisted employee would
    pass validation again (the record the API returns for it is accepted by
    [validate_employee_data] without an error), its salary is a number, its
    id lies between 1 and the id counter, and no two employees share an
    email. *)
Theorem stored_employees_stay_valid db :
  reachable db →
  (∀ i r, employees db !! i = Some r →
     validate_employee_data (to_dict (from_dict (i, r))) = Ok (true, ∅)
     ∧ float_is_nan (row_salary r) = false
     ∧ 1 ≤ i ≤ sqlite_sequence db)
  ∧ unique_emails db.
Proof.
  intros R. destruct (reachable_consistent _ R) as [V U].
  destruct (reachable_ids_bounded _ R) as [_ B].
  split; [|done]. intros i r L. split; [|split].
  - by apply validate_employee_data_valid, valid_row_to_dict, (V i).
  - by destruct (V i r L) as (_ & _ & _ & _ & _ & _ & ?).
  - by apply (B i r).
Qed.

(** ** The uniqueness check of create *)

Lemma email_taken_true (t : gmap Z row) i r e except :
  t !! i = Some r → row_email r = e → Some i ≠ except →
  email_taken t e except = true.
Proof.
  intros L E X. unfold email_taken. apply existsb_exists. exists (i, r). split.
  - by apply list_elem_of_In, elem_of_map_to_list.
  - simpl. apply andb_true_iff. split; [by apply bool_decide_eq_true|].
    by apply negb_true_iff, bool_decide_eq_false.
Qed.

(** X11: create looks the email up as given but stores it trimmed. A valid
    request, of texts the store takes, whose email is not in use as given
    but is, once trimmed, the email of a persisted employee (the given one
    is then that email followed by a newline) passes the uniqueness check of
    create and fails in the insert: the failure is the store's
    [IntegrityError], not [UniqueConstraintError], and nothing is
    written. *)
Theorem create_employee_trimmed_duplicate now d db fn ln em pos i r :
  valid_fields d →
  d !! str "first_name" = Some (VStr fn) →
  d !! str "last_name" = Some (VStr ln) →
  d !! str "email" = Some (VStr em) →
  d !! str "position" = Some (VStr pos) →
  storable fn = true → storable ln = true →
  storable em = true → storable pos = true →
  email_unused db em →
  employees db !! i = Some r →
  row_email r = strip em →
  next_rowid db ≤ max_rowid →
  create_employee now d db = (Raise IntegrityError, db)
  ∧ em = row_email r ++ [10%N].
Proof.
  intros V G1 G2 G3 G4 S1 S2 S3 S4 U L E Full.
  pose proof (validate_employee_data_valid _ V) as Vd.
  destruct V as ((_ & _ & _ & Ve & _) & R & x & F & _).
  apply required_ok_truthy, truthy_get_lookup in R.
  split.
  - unfold create_employee.
    exec (lift_eq _ _ db Vd). cbn [negb].
    exec (lift_getitem _ _ _ db G3).
    exec (select_id_by_email_unused _ _ U).
    rewrite bool_decide_eq_false_2 by (by intros [? ?]).
    exec (lift_getitem_conv _ _ _ py_strip db G1).
    exec (lift_getitem_conv _ _ _ py_strip db G2).
    exec (lift_getitem_conv _ _ _ py_strip db G3).
    exec (lift_getitem_conv _ _ _ py_strip db G4).
    erewrite bind_ok
      by (rewrite (lift_getitem_conv _ _ _ py_float db R), F; reflexivity).
    erewrite bind_raise; [reflexivity|].
    unfold execute_insert.
    cbn [forallb]. rewrite !storable_strip by done. cbn [andb negb].
    destruct (max_rowid <? next_rowid db) eqn:C; [apply Z.ltb_lt in C; lia|].
    destruct (float_is_nan x); [done|].
    by rewrite (email_taken_true _ i r (strip em) None L E).
  - assert (get d (str "email") = VStr em) as Ge by (unfold get; by rewrite G3).
    rewrite Ge in Ve. apply validate_email_strip in Ve as [_ [Es|Es]].
    + exfalso. apply (U i r L). by rewrite E, <- Es.
    + by rewrite E.
Qed.

(** X22: a salary that is not a number (NaN, which a decoded JSON body can
    hold) passes validation, for NaN is not [<= 0]: with the other fields
    valid, validation reports no error; for texts the store takes, the store
    takes the NaN for NULL, which the column refuses, so create fails with
    the store's [IntegrityError], not with [ValidationError], and writes
    nothing. *)
Theorem create_employee_nan_salary now d db fn ln em pos x :
  valid_texts d →
  d !! str "first_name" = Some (VStr fn) →
  d !! str "last_name" = Some (VStr ln) →
  d !! str "email" = Some (VStr em) →
  d !! str "position" = Some (VStr pos) →
  storable fn = true → storable ln = true →
  storable em = true → storable pos = true →
  required_ok (get d (str "salary")) = true →
  py_float (get d (str "salary")) = Ok x →
  float_is_nan x = true →
  email_unused db em →
  next_rowid db ≤ max_rowid →
  validate_employee_data d = Ok (true, ∅)
  ∧ create_employee now d db = (Raise IntegrityError, db).
Proof.
  intros T G1 G2 G3 G4 S1 S2 S3 S4 R F NaN U Full.
  assert (validate_employee_data d = Ok (true, ∅)) as V.
  { apply validate_employee_data_valid. split; [done|]. split; [done|].
    exists x. split; [done|]. by destruct x. }
  split; [exact V|].
  apply required_ok_truthy, truthy_get_lookup in R.
  unfold create_employee.
  exec (lift_eq _ _ db V). cbn [negb].
  exec (lift_getitem _ _ _ db G3).
  exec (select_id_by_email_unused _ _ U).
  rewrite bool_decide_eq_false_2 by (by intros [? ?]).
  exec (lift_getitem_conv _ _ _ py_strip db G1).
  exec (lift_getitem_conv _ _ _ py_strip db G2).
  exec (lift_getitem_conv _ _ _ py_strip db G3).
  exec (lift_getitem_conv _ _ _ py_strip db G4).
  erewrite bind_ok
    by (rewrite (lift_getitem_conv _ _ _ py_float db R), F; reflexivity).
  erewrite bind_raise; [reflexivity|].
  unfold execute_insert.
  cbn [forallb]. rewrite !storable_strip by done. cbn [andb negb].
  destruct (max_rowid <? next_rowid db) eqn:C; [apply Z.ltb_lt in C; lia|].
  by rewrite NaN.
Qed.

(** ** An update without fields *)

Lemma update_data_without_fields d e :
  (∀ field, field ∈ fst <$> required_fields → d !! field = None) →
  update_data d e = update_data ∅ e.
Proof.
  intros N. unfold update_data.
  rewrite !(get_default_None ∅) by apply lookup_empty.
  rewrite (get_default_None d (str "first_name"))
    by (apply N; unfold required_fields; set_solver).
  rewrite (get_default_None d (str "last_name"))
    by (apply N; unfold required_fields; set_solver).
  rewrite (get_default_None d (str "email"))
    by (apply N; unfold required_fields; set_solver).
  rewrite (get_default_None d (str "position"))
    by (apply N; unfold required_fields; set_solver).
  rewrite (get_default_None d (str "salary"))
    by (apply N; unfold required_fields; set_solver).
  reflexivity.
Qed.

(** X15: in every store the service reaches, an update of a persisted
    employee with a request that holds none of the five fields (other keys
    are ignored) issues no statement: it returns the employee as stored and
    leaves the store as it was. *)
Theorem update_employee_without_fields db i r d :
  reachable db →
  employees db !! i = Some r →
  (∀ field, field ∈ fst <$> required_fields → d !! field = None) →
  update_employee i d db = (Ok (from_dict (i, r)), db).
Proof.
  intros R L N.
  assert (∀ k, k ∈ fst <$> required_fields → d !! k = None) as N' by done.
  pose proof (reachable_rows_validate db i r R L) as V.
  rewrite <- (update_data_without_fields d) in V by done.
  assert (d !! str "first_name" = None) as N1
    by (apply N; unfold required_fields; set_solver).
  assert (d !! str "last_name" = None) as N2
    by (apply N; unfold required_fields; set_solver).
  assert (d !! str "email" = None) as N3
    by (apply N; unfold required_fields; set_solver).
  assert (d !! str "position" = None) as N4
    by (apply N; unfold required_fields; set_solver).
  assert (d !! str "salary" = None) as N5
    by (apply N; unfold required_fields; set_solver).
  unfold update_employee.
  exec (get_employee_by_id_Some _ _ _ L).
  exec (lift_eq _ _ db V). cbn [negb].
  erewrite bind_ok with (a := tt) (db' := db).
  2:{ unfold check_duplicate. rewrite (proj1 (contains_None _ _ N3)).
      reflexivity. }
  erewrite bind_ok with (a := tt) (db' := db);
    [by apply get_employee_by_id_Some|].
  unfold update_provided.
  exec (provided_absent d (str "first_name") py_strip SetFirstName db N1).
  exec (provided_absent d (str "last_name") py_strip SetLastName db N2).
  exec (provided_absent d (str "email") py_strip SetEmail db N3).
  exec (provided_absent d (str "position") py_strip SetPosition db N4).
  exec (provided_absent d (str "salary") py_float SetSalary db N5).
  reflexivity.
Qed.

(** ** Pages and the count *)

Lemma length_rows_by_id (t : gmap Z row) : length (rows_by_id t) = size t.
Proof.
  unfold rows_by_id. by rewrite merge_sort_Permutation, length_map_to_list.
Qed.

(** X16: consecutive pages join: for limits and offsets that are not
    negative (and within the integers the store accepts), the page of [l1]
    rows at offset [o] followed by the page of [l2] rows at offset [o + l1]
    is the page of [l1 + l2] rows at offset [o]; and a page holds [limit]
    rows, or the rows left after the offset when they are fewer. *)
Theorem get_all_employees_pages_join db l1 l2 o :
  0 ≤ l1 → 0 ≤ l2 → 0 ≤ o → o + l1 + l2 ≤ max_rowid →
  ∃ p1 p2,
    get_all_employees l1 o db = (Ok p1, db)
    ∧ get_all_employees l2 (o + l1) db = (Ok p2, db)
    ∧ get_all_employees (l1 + l2) o db = (Ok (p1 ++ p2), db)
    ∧ Z.of_nat (length p1)
      = Z.min l1 (Z.max 0 (Z.of_nat (size (employees db)) - o)).
Proof.
  intros H1 H2 Ho Hm.
  unfold get_all_employees, bind, select_page, ret.
  rewrite !bindable_range by (unfold min_rowid; lia). cbn [andb negb].
  rewrite !(proj2 (Z.ltb_ge _ 0)) by lia.
  eexists. eexists. split; [reflexivity|]. split; [reflexivity|]. split.
  - rewrite <- fmap_app. do 3 f_equal.
    rewrite !Z2Nat.inj_add by lia. rewrite <- drop_drop.
    by rewrite take_take_drop.
  - rewrite length_fmap, length_take, length_drop, length_rows_by_id. lia.
Qed.

(** X17: the count is the number of employees the listing without a limit
    returns; a create that returns raises it by one, a delete that returns
    lowers it by one, and an update or a failed call leaves it as it is. *)
Theorem get_employee_count_tracks db :
  ∃ n,
    get_employee_count db = (Ok n, db)
    ∧ (∃ all, get_all_employees (-1) 0 db = (Ok all, db)
              ∧ Z.of_nat (length all) = n)
    ∧ (∀ now d,
         (get_employee_count (create_employee now d db).2).1
         = Ok (match (create_employee now d db).1 with
               | Ok _ => n + 1
               | Raise _ => n
               end))
    ∧ (∀ i d, (get_employee_count (update_employee i d db).2).1 = Ok n)
    ∧ (∀ i,
         (get_employee_count (delete_employee i db).2).1
         = Ok (match (delete_employee i db).1 with
               | Ok _ => n - 1
               | Raise _ => n
               end)).
Proof.
  exists (Z.of_nat (size (employees db))).
  unfold get_employee_count, select_count. cbn [fst].
  split; [done|]. split; [|split; [|split]].
  - exists (from_dict <$> rows_by_id (employees db)).
    split; [by vm_compute bindable|].
    by rewrite length_fmap, length_rows_by_id.
  - intros now d. f_equal.
    destruct (create_employee now d db) as [[e|err] db'] eqn:C; cbn [fst snd].
    + apply create_employee_ok in C
        as (fn & ln & em & pos & x & _ & _ & _ & _ & _ & _ & _ & _ & _ & _ & _ & ->).
      cbn [employees].
      rewrite map_size_insert_None by apply next_rowid_fresh. lia.
    + by apply create_employee_raises in C as [-> _].
  - intros i d. f_equal. f_equal.
    destruct (update_employee_unchanged i d db) as (_ & D & _).
    by rewrite <- !(size_dom (D := gset Z)), D.
  - intros i. f_equal. rewrite delete_employee_store.
    destruct (employees db !! i) as [r|] eqn:L.
    + unfold delete_employee.
      exec (get_employee_by_id_Some _ _ _ L).
      erewrite bind_ok by (unfold execute_delete; rewrite L; reflexivity).
      cbn [ret fst employees].
      rewrite map_size_delete_Some by eauto.
      assert (size (employees db) ≠ 0%nat); [|lia].
      intros Z%map_size_empty_iff. rewrite Z in L. by rewrite lookup_empty in L.
    + by destruct (delete_employee_missing _ _ L) as [e ->].
Qed.


(** ** The views *)

Lemma falsy_VDict items : truthy (VDict items) = false → items = [].
Proof. by destruct items. Qed.

Lemma truthy_VDict items : truthy (VDict items) = true → items ≠ [].
Proof. by destruct items. Qed.

Lemma create_employee_of_raises now data db e db' :
  create_employee_of now data db = (Raise e, db') → db' = db.
Proof.
  unfold create_employee_of, raise.
  destruct data; try by intros [= _ <-].
  by intros [-> _]%create_employee_raises.
Qed.

Lemma create_employee_invalid now d db errors :
  validate_employee_data d = Ok (false, errors) →
  create_employee now d db = (Raise (ValidationError errors), db).
Proof.
  intros V. unfold create_employee. exec (lift_eq _ _ db V). reflexivity.
Qed.

(** X18: the view of POST /employees answers 201, 400, 409 or 500. It
    answers 201 exactly when the body is an object for which create returns,
    with the created employee; every other answer leaves the store as it
    was. A body that is falsy (null, an empty object, list or text, 0,
    false) gets 400 'Request body is required'; an object that fails
    validation gets 400 with the errors of the validation; a truthy body
    that is not an object (a list, a text, a number) gets 500. *)
Theorem create_employee_endpoint_responses now data db :
  ∃ b status db',
    create_employee_endpoint now data db = ((b, status), db')
    ∧ (status = 201 ∨ status = 400 ∨ status = 409 ∨ status = 500)
    ∧ (status ≠ 201 → db' = db)
    ∧ (status = 201 ↔
       ∃ items e,
         data = VDict items ∧ items ≠ []
         ∧ create_employee now (dict_of_items items) db = (Ok e, db')
         ∧ b = JObject (to_dict e))
    ∧ (truthy data = false →
       b = JError (str "Request body is required") ∧ status = 400)
    ∧ (truthy data = true → (∀ items, data ≠ VDict items) → status = 500)
    ∧ (∀ items errors,
         data = VDict items → items ≠ [] →
         validate_employee_data (dict_of_items items) = Ok (false, errors) →
         b = JErrors errors ∧ status = 400).
Proof.
  unfold create_employee_endpoint.
  destruct (truthy data) eqn:T; cbn [negb].
  2:{ eexists _, _, _. split; [reflexivity|].
      split; [lia|]. split; [reflexivity|]. split.
      { split; [intros [=]|]. intros (items & e & -> & N & _).
        by apply falsy_VDict in T. }
      split; [by split|]. split; [intros [=]|].
      intros items errors -> N _. by apply falsy_VDict in T. }
  destruct (create_employee_of now data db) as [[e|err] db'] eqn:C.
  - eexists _, _, _. split; [reflexivity|].
    split; [lia|]. split; [intros N; by destruct N|].
    destruct data as [| | | | | |items];
      try (unfold create_employee_of, raise in C; discriminate C).
    unfold create_employee_of in C.
    pose proof (truthy_VDict _ T) as NE.
    split.
    { split; [|reflexivity]. intros _. exists items, e.
      split; [reflexivity|]. split; [exact NE|].
      split; [exact C|reflexivity]. }
    split; [intros [=]|]. split; [intros _ N; by destruct (N items)|].
    intros ? errors [= <-] _ V.
    rewrite (create_employee_invalid _ _ _ _ V) in C. discriminate C.
  - pose proof (create_employee_of_raises _ _ _ _ _ C) as ->.
    assert (∀ items errors,
              data = VDict items →
              validate_employee_data (dict_of_items items) = Ok (false, errors) →
              err = ValidationError errors) as Inv.
    { intros items errors -> V. unfold create_employee_of in C.
      rewrite (create_employee_invalid _ _ _ _ V) in C. by injection C. }
    assert ((∀ items, data ≠ VDict items) → err = AttributeError) as Att.
    { intros N. destruct data as [| | | | | |items];
        [..|by destruct (N items)];
        unfold create_employee_of, raise in C; by injection C. }
    assert (∀ items e, data = VDict items →
              create_employee now (dict_of_items items) db ≠ (Ok e, db)) as No.
    { intros items e -> C'. unfold create_employee_of in C.
      rewrite C' in C. discriminate C. }
    clear C.
    destruct err; cbn [error_response];
      (eexists _, _, _; split; [reflexivity|]);
      (split; [lia|]); (split; [intros _; reflexivity|]);
      (split; [split; [intros [=]
                      |intros (items & e & E & _ & C' & _);
                       by destruct (No _ _ E C')]|]);
      (split; [intros [=]|]);
      (split; [intros _ N; first [reflexivity|discriminate (Att N)]|]);
      intros items errs E _ V; pose proof (Inv _ _ E V) as X;
      first [discriminate X|injection X as ->; by split].
Qed.

Lemma update_employee_of_raises i data db e db' :
  update_employee_of i data db = (Raise e, db') → db' = db.
Proof.
  unfold update_employee_of.
  destruct data; [..|by intros [-> _]%update_employee_raises].
  all: unfold bind, raise; intros C;
    rewrite <- (get_employee_by_id_state i db);
    destruct (get_employee_by_id i db) as [[?|?] ?];
    by injection C as _ <-.
Qed.

Lemma update_employee_of_missing i data db :
  bindable i = true →
  employees db !! i = None →
  update_employee_of i data db = (Raise (not_found i), db).
Proof.
  intros B L. unfold update_employee_of, update_employee.
  destruct data;
    by erewrite bind_raise by by apply get_employee_by_id_None.
Qed.

(** X19: the view of PUT /employees/<id> answers 200, 400, 404, 409 or 500.
    It answers 200 exactly when the body is an object for which update
    returns, with the updated employee; every other answer leaves the store
    as it was. A falsy body gets 400 'Request body is required' whether or
    not the id is persisted; with a truthy body, an id that is not persisted
    gets 404 'Employee with id <id> not found', whatever the body holds. The
    id is one the store accepts as an integer. *)
Theorem update_employee_endpoint_responses i data db :
  0 ≤ i ≤ max_rowid →
  ∃ b status db',
    update_employee_endpoint i data db = ((b, status), db')
    ∧ (status = 200 ∨ status = 400 ∨ status = 404 ∨ status = 409
       ∨ status = 500)
    ∧ (status ≠ 200 → db' = db)
    ∧ (status = 200 ↔
       ∃ items e,
         data = VDict items ∧ items ≠ []
         ∧ update_employee i (dict_of_items items) db = (Ok e, db')
         ∧ b = JObject (to_dict e))
    ∧ (truthy data = false →
       b = JError (str "Request body is required") ∧ status = 400)
    ∧ (truthy data = true → employees db !! i = None →
       b = JError (str "Employee with id " ++ str_of_int i ++ str " not found")
       ∧ status = 404).
Proof.
  intros R. assert (bindable i = true) as B
    by (apply bindable_range; unfold min_rowid; lia).
  clear R.
  unfold update_employee_endpoint.
  destruct (truthy data) eqn:T; cbn [negb].
  2:{ eexists _, _, _. split; [reflexivity|].
      split; [lia|]. split; [reflexivity|]. split.
      { split; [intros [=]|]. intros (items & e & -> & N & _).
        by apply falsy_VDict in T. }
      split; [by split|]. intros [=]. }
  destruct (update_employee_of i data db) as [[e|err] db'] eqn:C.
  - eexists _, _, _. split; [reflexivity|].
    split; [lia|]. split; [intros N; by destruct N|].
    assert (is_Some (employees db !! i)) as [r L].
    { destruct (employees db !! i) eqn:L; [by eauto|].
      rewrite (update_employee_of_missing _ _ _ B L) in C. discriminate C. }
    destruct data as [| | | | | |items];
      try (exfalso; unfold update_employee_of in C;
           erewrite bind_ok in C by (by apply get_employee_by_id_Some);
           unfold raise in C; discriminate C).
    unfold update_employee_of in C.
    pose proof (truthy_VDict _ T) as NE.
    split.
    { split; [|reflexivity]. intros _. exists items, e.
      split; [reflexivity|]. split; [exact NE|].
      split; [exact C|reflexivity]. }
    split; [intros [=]|]. intros _ N. rewrite N in L. discriminate L.
  - pose proof (update_employee_of_raises _ _ _ _ _ C) as ->.
    assert (employees db !! i = None → err = not_found i) as Miss.
    { intros L. rewrite (update_employee_of_missing _ _ _ B L) in C.
      by injection C. }
    assert (∀ items e, data = VDict items →
              update_employee i (dict_of_items items) db ≠ (Ok e, db)) as No.
    { intros items e -> C'. unfold update_employee_of in C.
      rewrite C' in C. discriminate C. }
    clear C.
    destruct err; cbn [error_response exn_str];
      (eexists _, _, _; split; [reflexivity|]);
      (split; [lia|]); (split; [intros _; reflexivity|]);
      (split; [split; [intros [=]
                      |intros (items & e & E & _ & C' & _);
                       by destruct (No _ _ E C')]|]);
      (split; [intros [=]|]);
      intros _ L; specialize (Miss L); unfold not_found in Miss;
      first [discriminate Miss|injection Miss as ->; by split].
Qed.

Lemma lookup_to_dict e :
  to_dict e !! str "id" = Some (from_option VInt VNone (id e))
  ∧ to_dict e !! str "created_at" = Some (from_option VStr VNone (created_at e)).
Proof.
  unfold to_dict. cbn [list_to_map foldr uncurry fst snd]. by split.
Qed.

(** X20: for an id the store accepts as an integer, the views of GET and
    DELETE /employees/<id> answer 200 when the id is persisted and 404
    'Employee with id <id> not found' when it is not. GET returns the
    stored employee with its id and creation time and leaves the store as
    it was; DELETE returns the id in the confirmation and removes that
    employee only, after which GET and DELETE of the id answer 404. *)
Theorem get_and_delete_employee_endpoints i db :
  0 ≤ i ≤ max_rowid →
  match employees db !! i with
  | Some r =>
      get_employee_endpoint i db
      = ((JObject (to_dict (from_dict (i, r))), 200), db)
      ∧ to_dict (from_dict (i, r)) !! str "id" = Some (VInt i)
      ∧ to_dict (from_dict (i, r)) !! str "created_at"
        = Some (VStr (row_created_at r))
      ∧ ∃ result db',
          delete_employee_endpoint i db = ((JObject result, 200), db')
          ∧ result !! str "id" = Some (VInt i)
          ∧ employees db' = delete i (employees db)
          ∧ get_employee_endpoint i db'
            = ((JError (str "Employee with id " ++ str_of_int i
                        ++ str " not found"), 404), db')
          ∧ delete_employee_endpoint i db'
            = ((JError (str "Employee with id " ++ str_of_int i
                        ++ str " not found"), 404), db')
  | None =>
      get_employee_endpoint i db
      = ((JError (str "Employee with id " ++ str_of_int i ++ str " not found"),
          404), db)
      ∧ delete_employee_endpoint i db
        = ((JError (str "Employee with id " ++ str_of_int i
                    ++ str " not found"), 404), db)
  end.
Proof.
  intros R. assert (bindable i = true) as B
    by (apply bindable_range; unfold min_rowid; lia).
  clear R.
  assert (∀ db', employees db' !! i = None →
            get_employee_endpoint i db'
            = ((JError (str "Employee with id " ++ str_of_int i
                        ++ str " not found"), 404), db')
            ∧ delete_employee_endpoint i db'
              = ((JError (str "Employee with id " ++ str_of_int i
                          ++ str " not found"), 404), db')) as Miss.
  { intros db' L. unfold get_employee_endpoint, delete_employee_endpoint.
    unfold delete_employee.
    erewrite bind_raise by by apply get_employee_by_id_None.
    by rewrite (get_employee_by_id_None _ _ B L). }
  destruct (employees db !! i) as [r|] eqn:L; [|by apply Miss].
  split; [|split; [|split]].
  - unfold get_employee_endpoint.
    by rewrite (get_employee_by_id_Some _ _ _ L).
  - apply lookup_to_dict.
  - apply lookup_to_dict.
  - eexists _, _. split.
    { unfold delete_employee_endpoint, delete_employee.
      exec (get_employee_by_id_Some _ _ _ L).
      erewrite bind_ok by (unfold execute_delete; rewrite L; reflexivity).
      reflexivity. }
    split; [apply lookup_insert_eq|]. split; [done|].
    apply Miss. apply lookup_delete_eq.
Qed.

(** X21: the view of GET /employees reads a limit below 1 as 100 and a
    negative offset as 0, answers 200 with the page [get_all_employees]
    returns for them and leaves the store as it was; [count] is the number
    of employees in the answer: the limit read, or the employees left after
    the offset when they are fewer. The limit and the offset are ones the
    store accepts as integers. *)
Theorem get_employees_endpoint_page limit offset db :
  limit ≤ max_rowid → offset ≤ max_rowid →
  ∃ page,
    get_all_employees (if limit <? 1 then 100 else limit)
      (if offset <? 0 then 0 else offset) db = (Ok page, db)
    ∧ get_employees_endpoint limit offset db
      = ((JEmployees (to_dict <$> page) (Z.of_nat (length page)), 200), db)
    ∧ Z.of_nat (length page)
      = Z.min (if limit <? 1 then 100 else limit)
          (Z.max 0 (Z.of_nat (size (employees db))
                    - (if offset <? 0 then 0 else offset))).
Proof.
  intros Hlm Hom. unfold get_employees_endpoint.
  set (l := if limit <? 1 then 100 else limit).
  set (o := if offset <? 0 then 0 else offset).
  assert (0 ≤ l ≤ max_rowid) as Hl
    by (unfold l; destruct (Z.ltb_spec limit 1); unfold max_rowid in *; lia).
  assert (0 ≤ o ≤ max_rowid) as Ho
    by (unfold o; destruct (Z.ltb_spec offset 0); unfold max_rowid in *; lia).
  assert (get_all_employees l o db
          = (Ok (from_dict <$> take (Z.to_nat l)
                   (drop (Z.to_nat o) (rows_by_id (employees db)))), db)) as P.
  { unfold get_all_employees, bind, select_page, ret.
    rewrite !bindable_range by (unfold min_rowid; lia). cbn [andb negb].
    by rewrite (proj2 (Z.ltb_ge l 0)) by lia. }
  eexists. split; [exact P|]. rewrite P. split; [done|].
  rewrite length_fmap, length_take, length_drop, length_rows_by_id. lia.
Qed.

End Service.

(** * Closed instances *)

Lemma email_unused_by_search db e :
  email_taken (employees db) e None = false → email_unused db e.
Proof.
  intros T i r L. by apply (proj1 (email_taken_false _ _ _) T i r).
Qed.

Lemma unique_emails_by_search db :
  unique_emails_search db = true → unique_emails db.
Proof.
  unfold unique_emails_search. rewrite forallb_forall.
  intros F i j ri rj Li Lj E.
  destruct (decide (i = j)) as [|N]; [done|]. exfalso.
  assert (email_taken (employees db) (row_email rj) (Some j) = false) as T.
  { apply negb_true_iff, (F (j, rj)).
    by apply list_elem_of_In, elem_of_map_to_list. }
  apply (proj1 (email_taken_false _ _ _) T i ri Li); [|done].
  by intros [= ->].
Qed.

(** ** The validator and the service on concrete requests *)

Example negative_salary :
  validate_employee_data decimal_float_of_str
    (record "A" "B" "a@b.co" "Eng" (VInt (-5)))
  = Ok (false, {[ str "salary" := str "Salary must be greater than 0" ]}).
Proof. vm_compute. reflexivity. Qed.

Example not_an_email :
  validate_employee_data decimal_float_of_str
    (record "A" "B" "not-an-email" "Eng" (VInt 10))
  = Ok (false, {[ str "email" := str "Email format is invalid" ]}).
Proof. vm_compute. reflexivity. Qed.

Example missing_salary :
  validate_employee_data decimal_float_of_str
    (delete (str "salary") (record "A" "B" "a@b.co" "Eng" VNone))
  = Ok (false, {[ str "salary" := str "Salary is required" ]}).
Proof. vm_compute. reflexivity. Qed.

Example text_salary :
  validate_employee_data decimal_float_of_str
    (record "A" "B" "a@b.co" "Eng" (VStr (str "1250.50")))
  = Ok (true, ∅).
Proof. vm_compute. reflexivity. Qed.

Example email_before_final_newline :
  matches pattern (str "a@b.co" ++ [10%N]) = true
  ∧ matches pattern (str "a@b.co ") = false.
Proof. split; vm_compute; reflexivity. Qed.

Example huge_salary :
  validate_employee_data decimal_float_of_str
    (record "A" "B" "a@b.co" "Eng" (VInt (10 ^ 400)))
  = Raise OverflowError.
Proof. vm_compute. reflexivity. Qed.

Example nan_salary :
  create_employee decimal_float_of_str sample_repr now0
    (record "A" "B" "a@b.co" "Eng" (VFloat S754_nan)) empty_db
  = (Raise IntegrityError, empty_db).
Proof. vm_compute. reflexivity. Qed.

Example delete_beyond_64_bits :
  delete_employee 9223372036854775808 two_db = (Raise OverflowError, two_db).
Proof. vm_compute. reflexivity. Qed.

Example page_beyond_64_bits :
  get_all_employees 9223372036854775808 0 four_db
  = (Raise OverflowError, four_db).
Proof. vm_compute. reflexivity. Qed.

Example create_surrogate_name :
  create_employee decimal_float_of_str sample_repr now0
    (<[str "first_name" := VStr [55296%N]]>
       (record "A" "B" "a@b.co" "Eng" (VInt 10))) two_db
  = (Raise ValueError, two_db).
Proof. vm_compute. reflexivity. Qed.

Example update_surrogate_position :
  update_employee decimal_float_of_str sample_repr 1
    {[ str "position" := VStr [55296%N] ]} two_db
  = (Raise ValueError, two_db).
Proof. vm_compute. reflexivity. Qed.

Example update_numeric_position :
  update_employee decimal_float_of_str sample_repr 1
    {[ str "position" := VInt 7 ]} two_db
  = (Raise AttributeError, two_db).
Proof. vm_compute. reflexivity. Qed.

(** ** Instances of the theorems *)

Lemma salary_presence_and_numeric_errors_witness :
  valid_texts (record "A" "B" "a@b.co" "Eng" (VStr (str "abc")))
  ∧ validate_employee_data decimal_float_of_str
      (record "A" "B" "a@b.co" "Eng" (VStr (str "abc")))
    = Ok (false, {[ str "salary" := str "Salary must be a valid number" ]}).
Proof.
  assert (valid_texts (record "A" "B" "a@b.co" "Eng" (VStr (str "abc")))) as V
    by (vm_compute; repeat split).
  split; [exact V|].
  apply (proj2 (salary_presence_and_numeric_errors decimal_float_of_str _ V)
           (VStr (str "abc"))).
  - reflexivity.
  - reflexivity.
  - right. vm_compute. reflexivity.
Defined.

Lemma zero_salary_reports_positivity_error_witness :
  record "A" "B" "a@b.co" "Eng" (VInt 0) !! str "salary" = Some (VInt 0)
  ∧ eq_zero (VInt 0) = true
  ∧ check_required (record "A" "B" "a@b.co" "Eng" (VInt 0)) ∅ !! str "salary"
    = Some (str "Salary is required")
  ∧ ∃ errors,
      validate_employee_data decimal_float_of_str
        (record "A" "B" "a@b.co" "Eng" (VInt 0)) = Ok (false, errors)
      ∧ errors !! str "salary" = Some (str "Salary must be greater than 0").
Proof.
  split; [reflexivity|]. split; [reflexivity|].
  destruct (zero_salary_reports_positivity_error decimal_float_of_str
              (record "A" "B" "a@b.co" "Eng" (VInt 0)) (VInt 0)
              eq_refl eq_refl) as (_ & P & _ & errors & _ & V & L & _).
  split; [exact P|]. exists errors. split; assumption.
Defined.

Lemma empty_email_reports_presence_error_witness :
  record "A" "B" "" "Eng" (VInt 10) !! str "email" = Some (VStr [])
  ∧ no_overflow decimal_float_of_str (record "A" "B" "" "Eng" (VInt 10))
  ∧ ∃ errors,
      validate_employee_data decimal_float_of_str
        (record "A" "B" "" "Eng" (VInt 10)) = Ok (false, errors)
      ∧ errors !! str "email" = Some (str "Email is required").
Proof.
  assert (no_overflow decimal_float_of_str (record "A" "B" "" "Eng" (VInt 10)))
    as NO by (intros H; vm_compute in H; discriminate H).
  split; [reflexivity|]. split; [exact NO|].
  destruct (empty_email_reports_presence_error decimal_float_of_str
              (record "A" "B" "" "Eng" (VInt 10)) (VStr []) eq_refl NO)
    as (b & errors & V & P & _).
  destruct (P eq_refl) as [-> L].
  exists errors. split; assumption.
Defined.


Lemma get_all_employees_pages_witness :
  size (employees four_db) = 4%nat
  ∧ ∃ e1 e2 e3 e4,
      get_all_employees 2 0 four_db = (Ok [e1; e2], four_db)
      ∧ get_all_employees 2 2 four_db = (Ok [e3; e4], four_db)
      ∧ StronglySorted id_lt [e1; e2; e3; e4].
Proof.
  split; [reflexivity|].
  destruct (get_all_employees_pages four_db) as (all & _ & S & _ & _ & P).
  destruct (P eq_refl) as (e1 & e2 & e3 & e4 & -> & P1 & P2).
  exists e1, e2, e3, e4. repeat split; assumption.
Defined.

Lemma create_employee_duplicate_email_witness :
  validate_employee_data decimal_float_of_str
    (record "Ann" "Lee" "ann@example.com" "Engineer" (VInt 50000)) = Ok (true, ∅)
  ∧ employees two_db !! 1 = Some ann
  ∧ record "Ann" "Lee" "ann@example.com" "Engineer" (VInt 50000) !! str "email"
    = Some (VStr (row_email ann))
  ∧ create_employee decimal_float_of_str sample_repr now0
      (record "Ann" "Lee" "ann@example.com" "Engineer" (VInt 50000)) two_db
    = (Raise (exists_error (row_email ann)), two_db).
Proof.
  assert (validate_employee_data decimal_float_of_str
            (record "Ann" "Lee" "ann@example.com" "Engineer" (VInt 50000))
          = Ok (true, ∅)) as V by (vm_compute; reflexivity).
  split; [exact V|]. split; [reflexivity|]. split; [reflexivity|].
  exact (create_employee_duplicate_email decimal_float_of_str sample_repr now0
           _ two_db 1 ann ∅ V eq_refl eq_refl).
Defined.

Lemma create_employee_then_get_witness :
  validate_employee_data decimal_float_of_str
    (record " Ann " "Lee" "eve@example.com" "Engineer" (VInt 50000)) = Ok (true, ∅)
  ∧ storable (str " Ann ") = true ∧ storable (str "Lee") = true
  ∧ storable (str "eve@example.com") = true ∧ storable (str "Engineer") = true
  ∧ email_unused two_db (str "eve@example.com")
  ∧ next_rowid two_db ≤ max_rowid
  ∧ ∃ e db',
      create_employee decimal_float_of_str sample_repr now0
        (record " Ann " "Lee" "eve@example.com" "Engineer" (VInt 50000)) two_db
      = (Ok e, db')
      ∧ get_employee_by_id 3 db' = (Ok e, db')
      ∧ first_name e = str "Ann" ∧ id e = Some 3 ∧ created_at e = Some now0.
Proof.
  assert (validate_employee_data decimal_float_of_str
            (record " Ann " "Lee" "eve@example.com" "Engineer" (VInt 50000))
          = Ok (true, ∅)) as V by (vm_compute; reflexivity).
  assert (email_unused two_db (str "eve@example.com")) as U
    by (apply email_unused_by_search; vm_compute; reflexivity).
  assert (next_rowid two_db ≤ max_rowid) as F by (vm_compute; discriminate).
  split; [exact V|]. do 4 (split; [reflexivity|]).
  split; [exact U|]. split; [exact F|].
  destruct (create_employee_then_get decimal_float_of_str sample_repr now0
              (record " Ann " "Lee" "eve@example.com" "Engineer" (VInt 50000))
              two_db (str " Ann ") (str "Lee") (str "eve@example.com")
              (str "Engineer") (S754_finite false 6871947673600000 (-37)) ∅
              V eq_refl eq_refl eq_refl eq_refl eq_refl eq_refl eq_refl eq_refl
              eq_refl eq_refl U U F)
    as (e & db' & C & G & -> & _).
  eexists. exists db'. split; [exact C|]. split; [exact G|].
  repeat split; reflexivity.
Defined.

Lemma create_employee_numeric_first_name_witness :
  email_unused empty_db (str "a@b.co")
  ∧ create_employee decimal_float_of_str sample_repr now0 numeric_first_name
      empty_db
    = (Raise AttributeError, empty_db).
Proof.
  assert (email_unused empty_db (str "a@b.co")) as U
    by (apply email_unused_by_search; reflexivity).
  split; [exact U|].
  exact (proj2 (create_employee_numeric_first_name decimal_float_of_str
                  sample_repr now0 empty_db U)).
Defined.

Lemma two_db_reachable : reachable decimal_float_of_str sample_repr two_db.
Proof.
  unfold reachable.
  eapply rtc_l;
    [apply (step_create _ _ _ now0
              (record "Ann" "Lee" "ann@example.com" "Engineer" (VInt 50000)))|].
  eapply rtc_l;
    [apply (step_create _ _ _ now0
              (record "Bob" "Ray" "bob@example.com" "Analyst" (VInt 40000)))|].
  match goal with
  | |- rtc _ ?db _ => replace db with two_db by (vm_compute; reflexivity)
  end.
  apply rtc_refl.
Qed.


Lemma update_employee_email_conflict_witness :
  unique_emails two_db
  ∧ employees two_db !! 1 = Some ann ∧ employees two_db !! 2 = Some bob
  ∧ validate_employee_data decimal_float_of_str
      (update_data {[ str "email" := VStr (row_email bob) ]} (from_dict (1, ann)))
    = Ok (true, ∅)
  ∧ update_employee decimal_float_of_str sample_repr 1
      {[ str "email" := VStr (row_email bob) ]} two_db
    = (Raise (exists_error (row_email bob)), two_db).
Proof.
  assert (unique_emails two_db) as U
    by (apply unique_emails_by_search; reflexivity).
  assert (validate_employee_data decimal_float_of_str
            (update_data {[ str "email" := VStr (row_email bob) ]}
               (from_dict (1, ann))) = Ok (true, ∅)) as V
    by (vm_compute; reflexivity).
  split; [exact U|]. split; [reflexivity|]. split; [reflexivity|].
  split; [exact V|].
  refine (proj1 (update_employee_email_conflict decimal_float_of_str sample_repr
                   two_db 1 2 ann bob {[ str "email" := VStr (row_email bob) ]}
                   ∅ U eq_refl eq_refl _ eq_refl V)).
  discriminate.
Defined.

(** ** Instances of the further properties *)

Lemma presence_errors_are_independent_witness :
  no_overflow decimal_float_of_str
    (record "" "Lee" "ann@example.com" "Engineer" (VInt 50000))
  ∧ ∃ b errors,
      validate_employee_data decimal_float_of_str
        (record "" "Lee" "ann@example.com" "Engineer" (VInt 50000))
      = Ok (b, errors)
      ∧ errors !! str "first_name" = Some (str "First Name is required")
      ∧ errors !! str "last_name" = None.
Proof.
  assert (no_overflow decimal_float_of_str
            (record "" "Lee" "ann@example.com" "Engineer" (VInt 50000))) as N
    by (intros H; vm_compute in H; discriminate H).
  split; [exact N|].
  destruct (presence_errors_are_independent decimal_float_of_str _ N)
    as (b & errors & V & _ & P).
  exists b, errors. split; [exact V|]. split.
  - rewrite (P (str "first_name") (str "First Name"));
      [vm_compute; reflexivity| | |].
    + unfold required_fields. apply elem_of_cons. left. reflexivity.
    + intros H; vm_compute in H; discriminate H.
    + intros H; vm_compute in H; discriminate H.
  - rewrite (P (str "last_name") (str "Last Name"));
      [vm_compute; reflexivity| | |].
    + unfold required_fields. apply elem_of_cons. right.
      apply elem_of_cons. left. reflexivity.
    + intros H; vm_compute in H; discriminate H.
    + intros H; vm_compute in H; discriminate H.
Defined.

Lemma email_error_is_validate_email_witness :
  no_overflow decimal_float_of_str
    (record "Ann" "Lee" "not-an-email" "Engineer" (VInt 50000))
  ∧ ∃ b errors,
      validate_employee_data decimal_float_of_str
        (record "Ann" "Lee" "not-an-email" "Engineer" (VInt 50000))
      = Ok (b, errors)
      ∧ errors !! str "email" = Some (str "Email format is invalid").
Proof.
  assert (no_overflow decimal_float_of_str
            (record "Ann" "Lee" "not-an-email" "Engineer" (VInt 50000))) as N
    by (intros H; vm_compute in H; discriminate H).
  split; [exact N|].
  destruct (email_error_is_validate_email decimal_float_of_str _ N)
    as (b & errors & V & E).
  exists b, errors. split; [exact V|]. rewrite E. vm_compute. reflexivity.
Defined.

Lemma create_employee_returns_witness :
  create_employee decimal_float_of_str sample_repr now0 eve_request two_db
  = (Ok (from_dict (3, eve)), three_db)
  ∧ valid_fields decimal_float_of_str eve_request
  ∧ email_unused two_db (str "eve@example.com")
  ∧ next_rowid two_db ≤ max_rowid.
Proof.
  assert (create_employee decimal_float_of_str sample_repr now0 eve_request
            two_db = (Ok (from_dict (3, eve)), three_db)) as C
    by (vm_compute; reflexivity).
  split; [exact C|].
  destruct (create_employee_returns decimal_float_of_str sample_repr now0
              eve_request two_db _ _ C)
    as (fn & ln & em & pos & x & V & _ & _ & G & _ & _ & _ & U & _ & F & _).
  injection G as <-.
  split; [exact V|]. split; [exact U|exact F].
Defined.

Lemma failed_create_writes_nothing_witness :
  storable_texts numeric_first_name = true
  ∧ create_employee decimal_float_of_str sample_repr now0 numeric_first_name
      two_db = (Raise AttributeError, two_db)
  ∧ escapes AttributeError.
Proof.
  assert (storable_texts numeric_first_name = true) as S
    by (vm_compute; reflexivity).
  assert (create_employee decimal_float_of_str sample_repr now0
            numeric_first_name two_db = (Raise AttributeError, two_db)) as C
    by (vm_compute; reflexivity).
  split; [exact S|]. split; [exact C|].
  exact (proj1 (proj2 (failed_create_writes_nothing decimal_float_of_str
                         sample_repr now0 _ _ _ _ S C))).
Defined.

Lemma ids_are_never_reused_witness :
  reachable decimal_float_of_str sample_repr two_db
  ∧ employees two_db !! 2 = Some bob
  ∧ rtc (step decimal_float_of_str sample_repr) two_db one_db
  ∧ create_employee decimal_float_of_str sample_repr now0 eve_request one_db
    = (Ok (from_dict (3, eve)),
       {| employees := <[3 := eve]> (employees one_db); sqlite_sequence := 3 |})
  ∧ ∃ n, id (from_dict (3, eve)) = Some n ∧ 2 < n.
Proof.
  assert (rtc (step decimal_float_of_str sample_repr) two_db one_db) as S.
  { apply rtc_once.
    replace one_db with (delete_employee 2 two_db).2 by (vm_compute; reflexivity).
    apply step_delete. }
  assert (create_employee decimal_float_of_str sample_repr now0 eve_request
            one_db
          = (Ok (from_dict (3, eve)),
             {| employees := <[3 := eve]> (employees one_db);
                sqlite_sequence := 3 |})) as C
    by (vm_compute; reflexivity).
  split; [exact two_db_reachable|]. split; [reflexivity|].
  split; [exact S|]. split; [exact C|].
  destruct (ids_are_never_reused decimal_float_of_str sample_repr two_db one_db
              now0 eve_request _ _ 2 bob two_db_reachable eq_refl S C)
    as (n & I & Lt & _).
  exists n. split; [exact I|exact Lt].
Defined.

Lemma stored_employees_stay_valid_witness :
  reachable decimal_float_of_str sample_repr two_db
  ∧ validate_employee_data decimal_float_of_str (to_dict (from_dict (1, ann)))
    = Ok (true, ∅)
  ∧ unique_emails two_db.
Proof.
  split; [exact two_db_reachable|].
  destruct (stored_employees_stay_valid decimal_float_of_str sample_repr two_db
              two_db_reachable) as [V U].
  split; [exact (proj1 (V 1 ann eq_refl))|exact U].
Defined.

Lemma create_employee_trimmed_duplicate_witness :
  valid_fields decimal_float_of_str ann_newline
  ∧ ann_newline !! str "email" = Some (VStr (row_email ann ++ [10%N]))
  ∧ storable (row_email ann ++ [10%N]) = true
  ∧ email_unused two_db (row_email ann ++ [10%N])
  ∧ employees two_db !! 1 = Some ann
  ∧ row_email ann = strip (row_email ann ++ [10%N])
  ∧ next_rowid two_db ≤ max_rowid
  ∧ create_employee decimal_float_of_str sample_repr now0 ann_newline two_db
    = (Raise IntegrityError, two_db).
Proof.
  assert (valid_fields decimal_float_of_str ann_newline) as V
    by (apply (validate_employee_data_true decimal_float_of_str _ ∅);
        vm_compute; reflexivity).
  assert (email_unused two_db (row_email ann ++ [10%N])) as U
    by (apply email_unused_by_search; vm_compute; reflexivity).
  assert (row_email ann = strip (row_email ann ++ [10%N])) as E
    by (vm_compute; reflexivity).
  assert (next_rowid two_db ≤ max_rowid) as F by (vm_compute; discriminate).
  split; [exact V|]. split; [reflexivity|]. split; [reflexivity|].
  split; [exact U|].
  split; [reflexivity|]. split; [exact E|]. split; [exact F|].
  exact (proj1 (create_employee_trimmed_duplicate decimal_float_of_str
                  sample_repr now0 ann_newline two_db (str "Ann") (str "Lee")
                  (row_email ann ++ [10%N]) (str "Engineer") 1 ann
                  V eq_refl eq_refl eq_refl eq_refl eq_refl eq_refl eq_refl
                  eq_refl U eq_refl E F)).
Defined.

Lemma create_employee_nan_salary_witness :
  valid_texts (record "A" "B" "a@b.co" "Eng" (VFloat S754_nan))
  ∧ storable (str "A") = true ∧ storable (str "B") = true
  ∧ storable (str "a@b.co") = true ∧ storable (str "Eng") = true
  ∧ float_is_nan S754_nan = true
  ∧ email_unused two_db (str "a@b.co")
  ∧ next_rowid two_db ≤ max_rowid
  ∧ validate_employee_data decimal_float_of_str
      (record "A" "B" "a@b.co" "Eng" (VFloat S754_nan)) = Ok (true, ∅)
  ∧ create_employee decimal_float_of_str sample_repr now0
      (record "A" "B" "a@b.co" "Eng" (VFloat S754_nan)) two_db
    = (Raise IntegrityError, two_db).
Proof.
  assert (valid_texts (record "A" "B" "a@b.co" "Eng" (VFloat S754_nan))) as T
    by (repeat split; vm_compute; reflexivity).
  assert (email_unused two_db (str "a@b.co")) as U
    by (apply email_unused_by_search; vm_compute; reflexivity).
  assert (next_rowid two_db ≤ max_rowid) as F by (vm_compute; discriminate).
  split; [exact T|]. do 4 (split; [reflexivity|]).
  split; [reflexivity|]. split; [exact U|].
  split; [exact F|].
  exact (create_employee_nan_salary decimal_float_of_str sample_repr now0
           (record "A" "B" "a@b.co" "Eng" (VFloat S754_nan)) two_db
           (str "A") (str "B") (str "a@b.co") (str "Eng") S754_nan
           T eq_refl eq_refl eq_refl eq_refl eq_refl eq_refl eq_refl eq_refl
           eq_refl eq_refl eq_refl U F).
Defined.

Lemma update_employee_returns_witness :
  update_employee decimal_float_of_str sample_repr 1
    {[ str "position" := VStr (str " Manager ") ]} two_db
  = (Ok (from_dict (1, stored "Ann" "Lee" "ann@example.com" "Manager" 50000)),
     {| employees :=
          <[1 := stored "Ann" "Lee" "ann@example.com" "Manager" 50000]>
            (employees two_db);
        sqlite_sequence := 2 |})
  ∧ ∃ r, employees two_db !! 1 = Some r
         ∧ from_dict (1, stored "Ann" "Lee" "ann@example.com" "Manager" 50000)
           = from_dict
               (1, updated_row decimal_float_of_str
                     {[ str "position" := VStr (str " Manager ") ]} r).
Proof.
  assert (update_employee decimal_float_of_str sample_repr 1
            {[ str "position" := VStr (str " Manager ") ]} two_db
          = (Ok (from_dict (1, stored "Ann" "Lee" "ann@example.com" "Manager"
                                 50000)),
             {| employees :=
                  <[1 := stored "Ann" "Lee" "ann@example.com" "Manager" 50000]>
                    (employees two_db);
                sqlite_sequence := 2 |})) as C
    by (vm_compute; reflexivity).
  split; [exact C|].
  destruct (update_employee_returns decimal_float_of_str sample_repr 1 _ two_db
              _ _ C) as (r & L & _ & E & _).
  exists r. split; [exact L|exact E].
Defined.


Lemma update_employee_without_fields_witness :
  reachable decimal_float_of_str sample_repr two_db
  ∧ employees two_db !! 1 = Some ann
  ∧ update_employee decimal_float_of_str sample_repr 1
      {[ str "nickname" := VStr (str "Annie") ]} two_db
    = (Ok (from_dict (1, ann)), two_db).
Proof.
  split; [exact two_db_reachable|]. split; [reflexivity|].
  apply (update_employee_without_fields decimal_float_of_str sample_repr two_db
           1 ann _ two_db_reachable eq_refl).
  intros field H. unfold required_fields in H. simpl in H.
  repeat (apply elem_of_cons in H as [->|H]); try reflexivity.
  by apply elem_of_nil in H.
Defined.

Lemma get_all_employees_pages_join_witness :
  0 ≤ 1 ∧ 0 ≤ 2 ∧ 0 ≤ 1 ∧ 1 + 1 + 2 ≤ max_rowid
  ∧ ∃ p1 p2,
      get_all_employees 1 1 four_db = (Ok p1, four_db)
      ∧ get_all_employees 2 (1 + 1) four_db = (Ok p2, four_db)
      ∧ get_all_employees (1 + 2) 1 four_db = (Ok (p1 ++ p2), four_db)
      ∧ Z.of_nat (length p1) = 1.
Proof.
  assert (1 + 1 + 2 ≤ max_rowid) as F by (vm_compute; discriminate).
  split; [lia|]. split; [lia|]. split; [lia|]. split; [exact F|].
  destruct (get_all_employees_pages_join four_db 1 2 1
              ltac:(lia) ltac:(lia) ltac:(lia) F)
    as (p1 & p2 & P1 & P2 & P & Len).
  exists p1, p2. split; [exact P1|]. split; [exact P2|]. split; [exact P|].
  rewrite Len. vm_compute. reflexivity.
Defined.

Lemma update_employee_endpoint_responses_witness :
  0 ≤ 7 ≤ max_rowid
  ∧ update_employee_endpoint decimal_float_of_str sample_repr sample_text 7
      (VDict [(str "position", VStr (str "Manager"))]) two_db
    = ((JError (str "Employee with id 7 not found"), 404), two_db).
Proof.
  assert (0 ≤ 7 ≤ max_rowid) as R by (split; vm_compute; discriminate).
  split; [exact R|].
  destruct (update_employee_endpoint_responses decimal_float_of_str sample_repr
              sample_text 7 (VDict [(str "position", VStr (str "Manager"))])
              two_db R)
    as (b & status & db' & E & _ & Keep & _ & _ & Miss).
  destruct (Miss eq_refl eq_refl) as [-> ->].
  rewrite E, Keep by lia. vm_compute. reflexivity.
Defined.

Lemma get_and_delete_employee_endpoints_witness :
  0 ≤ 1 ≤ max_rowid
  ∧ get_employee_endpoint sample_text 1 two_db
    = ((JObject (to_dict (from_dict (1, ann))), 200), two_db)
  ∧ ∃ result db',
      delete_employee_endpoint sample_text 1 two_db
      = ((JObject result, 200), db')
      ∧ employees db' = delete 1 (employees two_db)
      ∧ get_employee_endpoint sample_text 1 db'
        = ((JError (str "Employee with id 1 not found"), 404), db').
Proof.
  assert (0 ≤ 1 ≤ max_rowid) as R by (split; vm_compute; discriminate).
  split; [exact R|].
  pose proof (get_and_delete_employee_endpoints sample_text 1 two_db R) as P.
  assert (employees two_db !! 1 = Some ann) as L by reflexivity.
  rewrite L in P. destruct P as (G & _ & _ & result & db' & D & _ & E & M & _).
  split; [exact G|]. exists result, db'. split; [exact D|].
  split; [exact E|exact M].
Defined.

Lemma get_employees_endpoint_page_witness :
  0 ≤ max_rowid ∧ -5 ≤ max_rowid
  ∧ ∃ page,
      get_employees_endpoint sample_text 0 (-5) four_db
      = ((JEmployees (to_dict <$> page) 4, 200), four_db).
Proof.
  assert (0 ≤ max_rowid) as R1 by (vm_compute; discriminate).
  assert (-5 ≤ max_rowid) as R2 by (vm_compute; discriminate).
  split; [exact R1|]. split; [exact R2|].
  destruct (get_employees_endpoint_page sample_text 0 (-5) four_db R1 R2)
    as (page & _ & E & Len).
  exists page. rewrite E, Len. reflexivity.
Defined.

(** ** Inputs on which the specification's wording fails *)

(** C1: the email of the request is Ann's, but the request has no other
    field: create fails with [ValidationError]. *)
Lemma create_employee_duplicate_email_invalid :
  employees two_db !! 1 = Some ann
  ∧ ({[ str "email" := VStr (str "ann@example.com") ]} : gmap (list N) pyval)
      !! str "email" = Some (VStr (row_email ann))
  ∧ create_employee decimal_float_of_str sample_repr now0
      {[ str "email" := VStr (str "ann@example.com") ]} two_db
    = (Raise (ValidationError
                {[ str "first_name" := str "First Name is required";
                   str "last_name" := str "Last Name is required";
                   str "position" := str "Position is required";
                   str "salary" := str "Salary is required" ]}),
       two_db).
Proof. repeat split; vm_compute; reflexivity. Qed.

(** C3: an email of three spaces is present and blank after trimming, and
    the error reported for it is that of the shape check. *)
Lemma blank_email_reports_format_error :
  record "A" "B" "   " "Eng" (VInt 10) !! str "email" = Some (VStr (str "   "))
  ∧ strip (str "   ") = []
  ∧ validate_employee_data decimal_float_of_str
      (record "A" "B" "   " "Eng" (VInt 10))
    = Ok (false, {[ str "email" := str "Email format is invalid" ]}).
Proof. repeat split; vm_compute; reflexivity. Qed.

(** C4: a first name given with surrounding spaces is valid, and the record
    created and fetched holds it trimmed, not as given. *)
Lemma create_employee_trims_first_name :
  ∃ e db',
    validate_employee_data decimal_float_of_str
      (record " Ann " "Lee" "ann@example.com" "Engineer" (VInt 50000))
    = Ok (true, ∅)
    ∧ create_employee decimal_float_of_str sample_repr now0
        (record " Ann " "Lee" "ann@example.com" "Engineer" (VInt 50000)) empty_db
      = (Ok e, db')
    ∧ get_employee_by_id 1 db' = (Ok e, db')
    ∧ id e = Some 1
    ∧ first_name e = str "Ann"
    ∧ first_name e ≠ str " Ann ".
Proof.
  eexists _, _. split; [vm_compute; reflexivity|].
  split; [vm_compute; reflexivity|].
  split; [vm_compute; reflexivity|].
  split; [reflexivity|]. split; [reflexivity|].
  intros H. vm_compute in H. discriminate H.
Qed.

(** C6: Ann's update carries Bob's email and an empty first name: it fails
    with [ValidationError]. *)
Lemma update_employee_email_conflict_invalid :
  employees two_db !! 1 = Some ann ∧ employees two_db !! 2 = Some bob
  ∧ (<[ str "first_name" := VStr [] ]> {[ str "email" := VStr (row_email bob) ]}
       : gmap (list N) pyval) !! str "email" = Some (VStr (row_email bob))
  ∧ update_employee decimal_float_of_str sample_repr 1
      (<[ str "first_name" := VStr [] ]> {[ str "email" := VStr (row_email bob) ]})
      two_db
    = (Raise (ValidationError
                {[ str "first_name" := str "First Name is required" ]}),
       two_db).
Proof. repeat split; vm_compute; reflexivity. Qed.
